(** * Book search: the retrieval pipeline of [book-search/app.py]

    A shallow embedding of [load_books], [generate_embedding],
    [rerank_results] and [search_embeddings], followed by the properties
    the specification states about them.

    Conventions of the embedding.
    - A Python [float] is an abstract type [num] with a comparison
      [num_leb]; it is instantiated with [Q] where a run has to be
      evaluated and with [R] where the cosine formula is studied.
    - What the program obtains from outside (the corpus file, the two HTTP
      services, scikit-learn's [cosine_similarity], the markup parser of
      rich) is a field of the class [Env]. A request ends in one of three
      ways: an answer of the expected shape, a
      [requests.exceptions.RequestException], which is what the two
      [except] clauses catch, or a body from which the [try] block cannot
      read what it looks for, which raises past the [except] clause.
    - Functions run in a small monad that records the calls made to the
      outside and carries the Python exceptions that are not caught.
      [console.print] of a text that holds data is modelled for the one
      effect it can have on a run, the [MarkupError] of rich.
    - The dictionaries built by [search_embeddings] are objects:
      [rerank_results] works on references to them, so that two entries of
      its list comprehension that name one index share one object. *)

From Stdlib Require Import List String ZArith Lia Bool Permutation Sorted.
From Stdlib Require Import QArith Reals Lra.
From Stdlib Require PrimFloat Uint63.
Import ListNotations.

Local Open Scope string_scope.
Local Open Scope Z_scope.
Local Open Scope nat_scope.
Local Open Scope list_scope.

(** ** Data *)

(** The [task] field of the embedding request. *)
Inductive task_type : Type :=
| retrieval_query
| retrieval_passage.

(** The exceptions that leave the functions below uncaught. *)
Inductive exn : Type :=
| AttributeError   (* [None.items()] *)
| IndexError       (* [results[i]] with [i] out of range; [data[0]] of an empty list *)
| KeyError         (* a key that a response body does not have *)
| TypeError        (* a response body that cannot be indexed as the code does *)
| ValueError       (* [cosine_similarity] on vectors it rejects; ["N/A"] formatted with [.4f] *)
| MarkupError.     (* [console.print] of a text whose markup rich rejects *)

(** What reading [response.json()["data"][0]["embedding"]] or
    [response.json()["results"]], [item["index"]] and
    [rank_info["relevance_score"]] raises on a body of another shape. *)
Inductive body_error : Type :=
| MissingKey       (* the body, or an item of it, lacks the key *)
| MissingItem      (* [data] is an empty list *)
| NotIndexable.    (* the body, or a part of it, is not a dict or a list *)

Definition body_exn (b : body_error) : exn :=
  match b with
  | MissingKey => KeyError
  | MissingItem => IndexError
  | NotIndexable => TypeError
  end.

(** How a POST request of the program ends, as its [try] block sees it:
    - [Answered a]: status 2xx and a body from which the block reads [a];
    - [RequestFailed message]: [requests.post] or [raise_for_status] raises
      a [RequestException] [e] (no connection, a timeout, a status that is
      not 2xx), [message] being [str(e)];
    - [Misshapen b]: status 2xx and a body on which the reads of the block
      raise. *)
Inductive answer (A : Type) : Type :=
| Answered (a : A)
| RequestFailed (message : string)
| Misshapen (b : body_error).

Arguments Answered {A}.
Arguments RequestFailed {A}.
Arguments Misshapen {A}.

Section Data.
Variable num : Type.

(** A book object of [books.json]. Every field is read with [dict.get],
    so a missing key is [None]. *)
Record BookRecord : Type := mkBook {
  book_title : option string;
  book_description : option string;
  book_publication_date : option string;
  book_thumbnail_url : option string;
  book_embedding : option (list num)
}.

(** The value of [json.load]: a dict in insertion order. *)
Definition Corpus : Type := list (string * list BookRecord).

(** The dict appended to [matches]; [relevance_score] is a key that
    [rerank_results] may add later. *)
Record CandidateMatch : Type := mkMatch {
  author : string;
  title : string;
  description : string;
  publication_date : string;
  thumbnail_url : string;
  similarity : num;
  relevance_score : option num
}.

(** One element of the [results] array of the rerank response. *)
Record RankInfo : Type := mkRank {
  index : Z;
  rank_relevance_score : num
}.

(** Calls to the outside, in the order they are made. *)
Inductive event : Type :=
| EmbeddingCall (text : string) (task : task_type)
| SimilarityCall (x y : list num)
| RerankCall (query : string) (documents : list string) (top_n : Z).

(** The outside world of one run. *)
Class Env : Type := {
  (** [<=] on floats, used by [sorted]. *)
  num_leb : num -> num -> bool;
  (** [sklearn.metrics.pairwise.cosine_similarity(x, y)[0][0]], where the
      call returns. *)
  cosine_similarity : list num -> list num -> num;
  (** The call [cosine_similarity(x, y)] raises [ValueError]: scikit-learn
      does so for rows of different lengths, for a row without an entry
      and for an entry that is not finite. *)
  cosine_similarity_raises : list num -> list num -> bool;
  (** rich renders the text: [console.print] raises [MarkupError] for a
      text with a closing tag that matches no open tag. *)
  markup_ok : string -> bool;
  (** The parsed content of a file, [None] when it does not exist. *)
  books_on_disk : string -> option Corpus;
  (** [POST /v1/embeddings] with [input] and [task]. *)
  embeddings_api : string -> task_type -> answer (list num);
  (** [POST /v1/rerank] with [query], [documents] and [top_n]. *)
  rerank_api : string -> list string -> Z -> answer (list RankInfo)
}.
End Data.

Arguments mkBook {num}.
Arguments book_title {num}.
Arguments book_description {num}.
Arguments book_publication_date {num}.
Arguments book_thumbnail_url {num}.
Arguments book_embedding {num}.
Arguments mkMatch {num}.
Arguments author {num}.
Arguments title {num}.
Arguments description {num}.
Arguments publication_date {num}.
Arguments thumbnail_url {num}.
Arguments similarity {num}.
Arguments relevance_score {num}.
Arguments mkRank {num}.
Arguments index {num}.
Arguments rank_relevance_score {num}.
Arguments EmbeddingCall {num}.
Arguments SimilarityCall {num}.
Arguments RerankCall {num}.
Arguments num_leb {num Env}.
Arguments cosine_similarity {num Env}.
Arguments cosine_similarity_raises {num Env}.
Arguments markup_ok {num Env}.
Arguments books_on_disk {num Env}.
Arguments embeddings_api {num Env}.
Arguments rerank_api {num Env}.

(** ** The monad: a log of calls and an outcome *)

Inductive outcome (A : Type) : Type :=
| Return (a : A)
| Raise (e : exn).

Arguments Return {A}.
Arguments Raise {A}.

Definition M (num A : Type) : Type := list (event num) * outcome A.

Definition ret {num A : Type} (a : A) : M num A := ([], Return a).

Definition raise {num A : Type} (e : exn) : M num A := ([], Raise e).

Definition emit {num : Type} (e : event num) : M num unit := ([e], Return tt).

Definition bind {num A B : Type} (m : M num A) (f : A -> M num B) : M num B :=
  match m with
  | (t, Return a) => let (t', r) := f a in (t ++ t', r)
  | (t, Raise e) => (t, Raise e)
  end.

Notation "x <- c1 ;; c2" := (bind c1 (fun x => c2))
  (at level 61, c1 at next level, right associativity).
Notation "c1 ;;; c2" := (bind c1 (fun _ => c2))
  (at level 61, right associativity).

Definition trace {num A : Type} (m : M num A) : list (event num) := fst m.
Definition result {num A : Type} (m : M num A) : outcome A := snd m.

(** [[f(x) for x in l]], stopping at the first exception. *)
Fixpoint mapM {num A B : Type} (f : A -> M num B) (l : list A) : M num (list B) :=
  match l with
  | [] => ret []
  | x :: xs => y <- f x ;; ys <- mapM f xs ;; ret (y :: ys)
  end.

(** ** Python lists *)

(** [l[:n]] for an integer [n]: a negative [n] counts from the end. *)
Definition py_slice_to {A : Type} (n : Z) (l : list A) : list A :=
  if (0 <=? n)%Z then firstn (Z.to_nat n) l
  else firstn (List.length l - Z.to_nat (- n)) l.

(** The position that [l[i]] reads: a negative [i] counts from the end. *)
Definition py_position {A : Type} (l : list A) (i : Z) : option nat :=
  if (0 <=? i)%Z then
    (if (i <? Z.of_nat (List.length l))%Z then Some (Z.to_nat i) else None)
  else
    (if (- Z.of_nat (List.length l) <=? i)%Z
     then Some (Z.to_nat (Z.of_nat (List.length l) + i)) else None).

(** [l[i] = f(l[i])] at a position. *)
Fixpoint list_update {A : Type} (l : list A) (i : nat) (f : A -> A) : list A :=
  match l, i with
  | [], _ => []
  | x :: xs, O => f x :: xs
  | x :: xs, S j => x :: list_update xs j f
  end.

(** [d.get(key, "N/A")]. *)
Definition get_or_NA (v : option string) : string :=
  match v with
  | Some s => s
  | None => "N/A"
  end.

(** [if book_embedding:] holds for a list that is neither [None] nor
    empty. *)
Definition truthy {num : Type} (e : option (list num)) : bool :=
  match e with
  | Some (_ :: _) => true
  | _ => false
  end.

(** [np.array(book_embedding).reshape(1, -1)], read back as a row. *)
Definition np_array {num : Type} (e : option (list num)) : list num :=
  match e with
  | Some v => v
  | None => []
  end.

(** ** The program *)

Section Program.
Context {num : Type} {E : Env num}.

(** [console.print(text)] for a text that holds data: rich parses the
    markup of the text and raises [MarkupError] when it cannot. What is
    shown on the console is not recorded. *)
Definition console_print (text : string) : M num unit :=
  if markup_ok text then ret tt else raise MarkupError.

(** The texts that [load_books] prints. *)
Definition loaded_text (filename : string) : string :=
  String.append "Loaded data from " filename.

Definition missing_text (filename : string) : string :=
  String.append filename " does not exist. Processing authors...".

(** [load_books]: the parsed file, or [None] when it does not exist. *)
Definition load_books (filename : string) : M num (option (Corpus num)) :=
  match books_on_disk filename with
  | Some data => console_print (loaded_text filename) ;;; ret (Some data)
  | None => console_print (missing_text filename) ;;; ret None
  end.

(** The text printed by the [except] clause of [generate_embedding], with
    [text[:30]] and [str(e)]. *)
Definition embedding_failure_text (text message : string) : string :=
  String.append "Failed to generate embedding for text: "
    (String.append (String.substring 0 30 text)
       (String.append "... - Error: " message)).

(** [generate_embedding]: one request. A [RequestException] is caught,
    reported and turned into [None]; what the reads of line 48 raise on a
    body of another shape is not caught. *)
Definition generate_embedding (text : string) (task : task_type)
  : M num (option (list num)) :=
  emit (EmbeddingCall text task) ;;;
  match embeddings_api text task with
  | Answered embedding => ret (Some embedding)
  | RequestFailed message =>
      console_print (embedding_failure_text text message) ;;;
      ret None
  | Misshapen b => raise (body_exn b)
  end.

(** The call of the library function, recorded; its [ValueError] is not
    caught. *)
Definition call_cosine_similarity (x y : list num) : M num num :=
  emit (SimilarityCall x y) ;;;
  if cosine_similarity_raises x y then raise ValueError
  else ret (cosine_similarity x y).

(** The dict literal of lines 123-130. *)
Definition make_match (a : string) (book : BookRecord num) (s : num)
  : CandidateMatch num :=
  {| author := a;
     title := get_or_NA (book_title book);
     description := get_or_NA (book_description book);
     publication_date := get_or_NA (book_publication_date book);
     thumbnail_url := get_or_NA (book_thumbnail_url book);
     similarity := s;
     relevance_score := None |}.

(** The inner loop [for book in books], appending to [matches]. *)
Fixpoint scan_books (q : list num) (a : string) (books : list (BookRecord num))
                    (matches : list (CandidateMatch num))
  : M num (list (CandidateMatch num)) :=
  match books with
  | [] => ret matches
  | book :: rest =>
      if truthy (book_embedding book) then
        s <- call_cosine_similarity q (np_array (book_embedding book)) ;;
        scan_books q a rest (matches ++ [make_match a book s])
      else scan_books q a rest matches
  end.

(** The outer loop [for author, books in data.items()]. *)
Fixpoint scan_corpus (q : list num) (data : Corpus num)
                     (matches : list (CandidateMatch num))
  : M num (list (CandidateMatch num)) :=
  match data with
  | [] => ret matches
  | (a, books) :: rest =>
      matches' <- scan_books q a books matches ;;
      scan_corpus q rest matches'
  end.

(** [sorted(matches, key=similarity, reverse=True)]: a stable sort, an
    element moves behind another one only when its key is strictly
    smaller. *)
Fixpoint insert_desc (m : CandidateMatch num) (l : list (CandidateMatch num))
  : list (CandidateMatch num) :=
  match l with
  | [] => [m]
  | y :: ys =>
      if num_leb (similarity y) (similarity m) then m :: y :: ys
      else y :: insert_desc m ys
  end.

Definition sorted_desc (l : list (CandidateMatch num)) : list (CandidateMatch num) :=
  fold_right insert_desc [] l.

(** [item["relevance_score"] = s]. *)
Definition set_relevance_score (s : num) (m : CandidateMatch num) : CandidateMatch num :=
  {| author := author m;
     title := title m;
     description := description m;
     publication_date := publication_date m;
     thumbnail_url := thumbnail_url m;
     similarity := similarity m;
     relevance_score := Some s |}.

(** [results[item["index"]]]: a reference to the object, which is its
    position in [results]. The entries of [results] are distinct objects:
    [search_embeddings] builds each of them with its own dict literal. *)
Definition getitem_ref (results : list (CandidateMatch num)) (item : RankInfo num)
  : M num nat :=
  match py_position results (index item) with
  | Some r => ret r
  | None => raise IndexError
  end.

(** The loop over [zip(reranked, ranked_results)], on the objects. *)
Definition assign_scores (heap : list (CandidateMatch num))
           (pairs : list (nat * RankInfo num)) : list (CandidateMatch num) :=
  fold_left
    (fun h p => list_update h (fst p) (set_relevance_score (rank_relevance_score (snd p))))
    pairs heap.

(** Reading an object through its reference. *)
Definition deref (heap : list (CandidateMatch num)) (r : nat)
  : M num (CandidateMatch num) :=
  match nth_error heap r with
  | Some m => ret m
  | None => raise IndexError
  end.

(** The text printed by the [except] clause of [rerank_results], with
    [str(e)]. *)
Definition rerank_failure_text (message : string) : string :=
  String.append "Failed to rerank results - Error: " message.

(** [rerank_results]. A [RequestException] is caught, reported and answered
    with [results[:top_n]]; what the reads of lines 97-100 raise on a body of
    another shape is not caught. *)
Definition rerank_results (query : string) (results : list (CandidateMatch num)) (top_n : Z)
  : M num (list (CandidateMatch num)) :=
  emit (RerankCall query (map description results) top_n) ;;;
  match rerank_api query (map description results) top_n with
  | Answered ranked_results =>
      reranked <- mapM (getitem_ref results) ranked_results ;;
      let heap := assign_scores results (combine reranked ranked_results) in
      mapM (deref heap) reranked
  | RequestFailed message =>
      console_print (rerank_failure_text message) ;;;
      ret (py_slice_to top_n results)
  | Misshapen b => raise (body_exn b)
  end.

(** [search_embeddings]. The text printed when the embedding is [None] is
    a constant without markup. *)
Definition search_embeddings (search_text filename : string)
           (top_n initial_matches : Z) : M num (list (CandidateMatch num)) :=
  data <- load_books filename ;;
  search_embedding <- generate_embedding search_text retrieval_query ;;
  match search_embedding with
  | None => ret []
  | Some q =>
      match data with
      | None => raise AttributeError
      | Some d =>
          matches <- scan_corpus q d [] ;;
          let matches := py_slice_to initial_matches (sorted_desc matches) in
          rerank_results search_text matches top_n
      end
  end.

(** The default values of the keyword arguments. *)
Definition default_filename : string := "books.json".
Definition default_top_n : Z := 5%Z.
Definition default_initial_matches : Z := 10%Z.
End Program.

(** ** What the loops compute *)

Section Views.
Context {num : Type} {E : Env num}.

(** The records of one author that pass [if book_embedding:]. *)
Definition embedded_books (a : string) (books : list (BookRecord num))
  : list (string * BookRecord num) :=
  map (pair a) (filter (fun b => truthy (book_embedding b)) books).

(** The records that are scored, in the order of the two loops. *)
Definition embedded (d : Corpus num) : list (string * BookRecord num) :=
  flat_map (fun ab => embedded_books (fst ab) (snd ab)) d.

(** The match appended for one scored record. *)
Definition score_record (q : list num) (ab : string * BookRecord num)
  : CandidateMatch num :=
  make_match (fst ab) (snd ab)
    (cosine_similarity q (np_array (book_embedding (snd ab)))).

(** [matches] at the end of the loops. *)
Definition scored (q : list num) (d : Corpus num) : list (CandidateMatch num) :=
  map (score_record q) (embedded d).

(** The similarity evaluations of the loops. *)
Definition similarity_calls (q : list num) (d : Corpus num) : list (event num) :=
  map (fun ab => SimilarityCall q (np_array (book_embedding (snd ab)))) (embedded d).

(** [matches] as it is handed to [rerank_results]. *)
Definition candidates (q : list num) (d : Corpus num) (initial_matches : Z)
  : list (CandidateMatch num) :=
  py_slice_to initial_matches (sorted_desc (scored q d)).

(** [x] may stand before [y] in a list sorted by decreasing similarity. *)
Definition desc (x y : CandidateMatch num) : Prop :=
  num_leb (similarity y) (similarity x) = true.


(** Two keys that [sorted] does not distinguish. *)
Definition same_key (x y : num) : bool := num_leb x y && num_leb y x.

(** The two loops as one loop over the records that are scored. *)
Fixpoint scan_embedded (q : list num) (l : list (string * BookRecord num))
         (matches : list (CandidateMatch num))
  : M num (list (CandidateMatch num)) :=
  match l with
  | [] => ret matches
  | ab :: rest =>
      s <- call_cosine_similarity q (np_array (book_embedding (snd ab))) ;;
      scan_embedded q rest (matches ++ [make_match (fst ab) (snd ab) s])
  end.

(** Every similarity evaluation of the loops returns a value. *)
Definition scan_succeeds (q : list num) (d : Corpus num) : Prop :=
  Forall (fun ab =>
            cosine_similarity_raises q (np_array (book_embedding (snd ab))) = false)
         (embedded d).

(** The text of the query-embedding failure is one that rich renders. *)
Definition embedding_failure_printed (text message : string) : Prop :=
  markup_ok (embedding_failure_text text message) = true.

(** The text of the reranking failure is one that rich renders. *)
Definition rerank_failure_printed (message : string) : Prop :=
  markup_ok (rerank_failure_text message) = true.
End Views.

(** All book records of a corpus. *)
Definition book_records {num : Type} (d : Corpus num) : list (BookRecord num) :=
  flat_map snd d.

(** A match and the object it has become after [rerank_results]: all keys
    but [relevance_score] agree. *)
Definition same_book {num : Type} (c m : CandidateMatch num) : Prop :=
  author m = author c /\ title m = title c /\ description m = description c /\
  publication_date m = publication_date c /\
  thumbnail_url m = thumbnail_url c /\ similarity m = similarity c.

(** The positions named by a rerank response, [None] where [results[i]]
    raises. *)
Definition named_positions {num : Type} (results : list (CandidateMatch num))
           (ranked_results : list (RankInfo num)) : list (option nat) :=
  map (fun item => py_position results (index item)) ranked_results.

(** The contract of the reranking provider for an answer to the candidates
    [results] and to [top_n] (sections 2, 4.2 and 6 of the specification:
    a relevance-ordered subset of the candidates, truncated to [top_n],
    each item naming a candidate by its original index): at most [top_n]
    items, every index that of a candidate, no candidate twice. *)
Definition conforming {num : Type} (results : list (CandidateMatch num))
           (top_n : Z) (ranked_results : list (RankInfo num)) : Prop :=
  (Z.of_nat (List.length ranked_results) <= top_n)%Z /\
  Forall (fun item => (0 <= index item < Z.of_nat (List.length results))%Z)
         ranked_results /\
  NoDup (map index ranked_results).

(** ** Runs on rational numbers *)

Fixpoint Qdot (x y : list Q) : Q :=
  match x, y with
  | a :: x', b :: y' => (a * b + Qdot x' y')%Q
  | _, _ => 0%Q
  end.

(** Cosine similarity on vectors of norm one, where it is the dot
    product; every vector of the runs below has norm one or is zero. *)
Definition unit_cosine (x y : list Q) : Q := Qred (Qdot x y).

(** scikit-learn rejects two rows of different lengths and a row without
    an entry. *)
Definition rows_rejected {A : Type} (x y : list A) : bool :=
  negb (Nat.eqb (List.length x) (List.length y)) || Nat.eqb (List.length x) 0.

(** The first bracket of a text opens a closing tag. *)
Fixpoint closing_tag_first (s : string) : bool :=
  match s with
  | EmptyString => false
  | String c s' =>
      if Ascii.eqb c (Ascii.ascii_of_nat 91) then
        match s' with
        | String c' _ => Ascii.eqb c' (Ascii.ascii_of_nat 47)
        | EmptyString => false
        end
      else closing_tag_first s'
  end.

(** A stand-in for the markup parser of rich in the runs below, which print
    texts of two kinds only: a text without a bracket, which rich renders,
    and a text whose first tag is the closing tag [[/b]], for which rich
    raises [MarkupError]. *)
Definition renders (s : string) : bool := negb (closing_tag_first s).

Definition run_env (disk : string -> option (Corpus Q))
           (emb : answer (list Q)) (rr : answer (list (RankInfo Q))) : Env Q :=
  {| num_leb := Qle_bool;
     cosine_similarity := unit_cosine;
     cosine_similarity_raises := rows_rejected;
     markup_ok := renders;
     books_on_disk := disk;
     embeddings_api := fun _ _ => emb;
     rerank_api := fun _ _ _ => rr |}.

(** What [str(e)] is when the key of the API is refused and when the
    service is down. *)
Definition unauthorized : string := "401 Client Error: Unauthorized".
Definition unavailable : string := "503 Server Error: Service Unavailable".

(** A disk that holds [books.json] only. *)
Definition disk_with {num : Type} (c : Corpus num) : string -> option (Corpus num) :=
  fun filename => if String.eqb filename "books.json" then Some c else None.

Definition no_disk {num : Type} : string -> option (Corpus num) :=
  fun _ => None.

Definition book_T1 : BookRecord Q :=
  mkBook (Some "T1") (Some "D1") None None (Some [9#10; 3#10; 3#10; 1#10]%Q).

Definition book_T2 : BookRecord Q :=
  mkBook (Some "T2") (Some "D2") None None (Some [2#5; 4#5; 2#5; 1#5]%Q).

(** A record whose description was unavailable when the corpus was built. *)
Definition book_T3 : BookRecord Q :=
  mkBook (Some "T3") None None None None.

Definition two_books : Corpus Q := [("Author A", [book_T1; book_T2])].
Definition one_book : Corpus Q := [("Author A", [book_T1])].
Definition three_books : Corpus Q :=
  [("Author A", [book_T2; book_T3]); ("Author B", [book_T1])].

Definition query_vector : list Q := [1; 0; 0; 0]%Q.

(** ** The cosine formula on real numbers *)

Fixpoint dot (x y : list R) : R :=
  match x, y with
  | a :: x', b :: y' => (a * b + dot x' y')%R
  | _, _ => 0%R
  end.

Definition norm (x : list R) : R := sqrt (dot x x).

(** Modelled from the spec: [sklearn.metrics.pairwise.cosine_similarity] is
    a library function whose code is not part of the repository; section
    4.1 gives it as [dot(q, p) / (||q|| * ||p||)], read here over the real
    numbers. *)
Definition cosine_formula (q p : list R) : R :=
  (dot q p / (norm q * norm p))%R.

Definition Rleb (x y : R) : bool := if Rle_dec x y then true else false.

(** The number of type [float] that Python reads from the JSON text
    [n/10], which is the binary64 number nearest to it. *)
Definition binary64_of_tenths (n : Z) : PrimFloat.float :=
  PrimFloat.div (PrimFloat.of_uint63 (Uint63.of_Z n))
                (PrimFloat.of_uint63 (Uint63.of_Z 10)).

Definition binary64_dot (x y : list PrimFloat.float) : PrimFloat.float :=
  fold_left (fun acc ab => PrimFloat.add acc (PrimFloat.mul (fst ab) (snd ab)))
            (combine x y) PrimFloat.zero.

(** Modelled from the spec: the formula of section 4.1 again, every
    operation now rounded to binary64 as operations on Python floats are,
    the sums taken from left to right. *)
Definition binary64_cosine_formula (q p : list PrimFloat.float) : PrimFloat.float :=
  PrimFloat.div (binary64_dot q p)
    (PrimFloat.mul (PrimFloat.sqrt (binary64_dot q q))
                   (PrimFloat.sqrt (binary64_dot p p))).

Definition formula_env (disk : string -> option (Corpus R))
           (emb : answer (list R)) (rr : answer (list (RankInfo R))) : Env R :=
  {| num_leb := Rleb;
     cosine_similarity := cosine_formula;
     cosine_similarity_raises := rows_rejected;
     markup_ok := renders;
     books_on_disk := disk;
     embeddings_api := fun _ _ => emb;
     rerank_api := fun _ _ _ => rr |}.

(** A record whose stored vector is zero. *)
Definition book_zero : BookRecord R :=
  mkBook (Some "Zero") (Some "D0") None None (Some [0; 0]%R).

Definition zero_corpus : Corpus R := [("Author Z", [book_zero])].


(** ** The runs used below *)

(** The embedding request fails (for instance no API key is set). *)
Definition env_no_embedding : Env Q :=
  run_env (disk_with two_books) (RequestFailed unauthorized) (RequestFailed unauthorized).

(** Neither a corpus file nor an embedding. *)
Definition env_no_file_no_embedding : Env Q :=
  run_env no_disk (RequestFailed unauthorized) (RequestFailed unauthorized).

(** No corpus file, the embedding request succeeds. *)
Definition env_no_file : Env Q :=
  run_env no_disk (Answered query_vector) (RequestFailed unavailable).

(** A corpus file that holds the empty object. *)
Definition env_empty_corpus : Env Q :=
  run_env (disk_with []) (Answered query_vector) (RequestFailed unavailable).

(** Three records, one of them without an embedding; reranking fails. *)
Definition env_rerank_fails : Env Q :=
  run_env (disk_with three_books) (Answered query_vector) (RequestFailed unavailable).

(** The scenario of the specification: similarities 0.9 and 0.4, the
    reranker reverses the two candidates. *)
Definition env_reversed : Env Q :=
  run_env (disk_with two_books) (Answered query_vector)
          (Answered [mkRank 1%Z (99#100)%Q; mkRank 0%Z (1#2)%Q]).

(** A response that names the only candidate twice. *)
Definition env_same_index_twice : Env Q :=
  run_env (disk_with one_book) (Answered query_vector)
          (Answered [mkRank 0%Z (99#100)%Q; mkRank 0%Z (1#2)%Q]).

(** A response that names an index beyond the two candidates. *)
Definition env_index_out_of_range : Env Q :=
  run_env (disk_with two_books) (Answered query_vector)
          (Answered [mkRank 2%Z (99#100)%Q]).

(** A response of six entries for one candidate. *)
Definition env_six_entries : Env Q :=
  run_env (disk_with one_book) (Answered query_vector)
          (Answered (repeat (mkRank 0%Z (99#100)%Q) 6)).

(** The embedding request is answered with a body without the key
    [data]. *)
Definition env_malformed_embedding : Env Q :=
  run_env (disk_with two_books) (Misshapen MissingKey) (RequestFailed unavailable).

(** The reranking request is answered with a body without the key
    [results]. *)
Definition env_malformed_rerank : Env Q :=
  run_env (disk_with three_books) (Answered query_vector) (Misshapen MissingKey).

(** A record whose stored vector has two entries, where the query vector
    has four. *)
Definition book_short : BookRecord Q :=
  mkBook (Some "T4") (Some "D4") None None (Some [3#5; 4#5]%Q).

Definition mixed_books : Corpus Q := [("Author A", [book_T1; book_short; book_T2])].

Definition env_dimension_mismatch : Env Q :=
  run_env (disk_with mixed_books) (Answered query_vector) (RequestFailed unavailable).

(** A stored vector of norm zero; reranking fails. *)
Definition env_zero_vector : Env R :=
  formula_env (disk_with zero_corpus) (Answered [1; 0]%R) (RequestFailed unavailable).

(** ** Further views of the program *)

(** The score that the assignments of [rerank_results] leave on the object
    at position [r]: the one of the last item of the answer that names
    it. *)
Fixpoint last_score {num : Type} (results : list (CandidateMatch num))
         (ranked_results : list (RankInfo num)) (r : nat) : option num :=
  match ranked_results with
  | [] => None
  | item :: rest =>
      match last_score results rest r with
      | Some s => Some s
      | None =>
          match py_position results (index item) with
          | Some r' => if Nat.eqb r' r then Some (rank_relevance_score item) else None
          | None => None
          end
      end
  end.

(** The world after [filename] has been written with [data]. *)
Definition with_books_on_disk {num : Type} (E : Env num)
           (filename : string) (data : Corpus num) : Env num :=
  {| num_leb := num_leb;
     cosine_similarity := cosine_similarity;
     cosine_similarity_raises := cosine_similarity_raises;
     markup_ok := markup_ok;
     books_on_disk :=
       fun f => if String.eqb f filename then Some data else books_on_disk f;
     embeddings_api := embeddings_api;
     rerank_api := rerank_api |}.

(** A corpus without the records that [if book_embedding:] skips. *)
Definition prune {num : Type} (d : Corpus num) : Corpus num :=
  map (fun ab => (fst ab, filter (fun b => truthy (book_embedding b)) (snd ab))) d.

(** An answer that names the last candidate from the end. *)
Definition env_negative_index : Env Q :=
  run_env (disk_with two_books) (Answered query_vector)
          (Answered [mkRank (-1)%Z (3#4)%Q]).

(** ** The rest of [app.py]: the corpus build and the interactive loop *)

(** An item of the Google Books answer. Every key is read with [dict.get],
    so a missing key is [None]. *)
Record ImageLinks : Type := mkImageLinks {
  thumbnail : option string
}.

Record VolumeInfo : Type := mkVolumeInfo {
  info_title : option string;
  info_description : option string;
  info_publishedDate : option string;
  info_imageLinks : option ImageLinks
}.

Record Volume : Type := mkVolume {
  volumeInfo : option VolumeInfo
}.

(** What the main block obtains from outside, besides [Env]. *)
Class Host : Type := {
  (** [GET /books/v1/volumes] for an author and [maxResults]. [None] is an
      exception of [requests.get] or of [raise_for_status]; otherwise the
      value of the key [items], [None] when the answer has no such key. *)
  google_books : string -> Z -> option (option (list Volume));
  (** The lines of a text file as iterating over it yields them, [None]
      when the file does not exist. *)
  text_lines : string -> option (list string);
  (** [str.isspace] on one character. *)
  isspace : Ascii.ascii -> bool;
  (** [str.lower]. *)
  lower : string -> string
}.

(** The characters that end a line. *)
Definition newline : Ascii.ascii := Ascii.ascii_of_nat 10.
Definition carriage_return : Ascii.ascii := Ascii.ascii_of_nat 13.

(** The exceptions that leave the main block. *)
Inductive app_exn : Type :=
| FileNotFoundError          (* [open] of a missing file *)
| RequestException           (* the Google Books request, which no [try] guards *)
| EOFError                   (* [input()] at the end of the input *)
| Uncaught (e : exn).        (* an exception of the kinds met above *)

(** What the main block does to the outside: the calls recorded so far, the
    Google Books request and the writing of a file. *)
Inductive app_event (num : Type) : Type :=
| Outside (e : event num)
| BooksCall (author : string) (max_results : Z)
| JsonDump (filename : string) (data : Corpus num).

Arguments Outside {num}.
Arguments BooksCall {num}.
Arguments JsonDump {num}.

Inductive app_outcome (A : Type) : Type :=
| Done (a : A)
| Fail (e : app_exn).

Arguments Done {A}.
Arguments Fail {A}.

Definition App (num A : Type) : Type := list (app_event num) * app_outcome A.

Definition app_ret {num A : Type} (a : A) : App num A := ([], Done a).

Definition app_fail {num A : Type} (e : app_exn) : App num A := ([], Fail e).

Definition app_emit {num : Type} (e : app_event num) : App num unit :=
  ([e], Done tt).

Definition app_bind {num A B : Type} (m : App num A) (f : A -> App num B)
  : App num B :=
  match m with
  | (t, Done a) => let (t', r) := f a in (t ++ t', r)
  | (t, Fail e) => (t, Fail e)
  end.

Notation "x <-- c1 ;; c2" := (app_bind c1 (fun x => c2))
  (at level 61, c1 at next level, right associativity).

(** A function modelled above, called from the main block. *)
Definition lift {num A : Type} (m : M num A) : App num A :=
  (map Outside (trace m),
   match result m with
   | Return a => Done a
   | Raise e => Fail (Uncaught e)
   end).

Definition app_trace {num A : Type} (m : App num A) : list (app_event num) := fst m.
Definition app_result {num A : Type} (m : App num A) : app_outcome A := snd m.

(** [str.lstrip], [str.rstrip] and [str.strip] without argument. *)
Fixpoint lstrip {H : Host} (s : string) : string :=
  match s with
  | EmptyString => EmptyString
  | String c s' => if isspace c then lstrip s' else s
  end.

Fixpoint rstrip {H : Host} (s : string) : string :=
  match s with
  | EmptyString => EmptyString
  | String c s' =>
      match rstrip s' with
      | EmptyString => if isspace c then EmptyString else String c EmptyString
      | t => String c t
      end
  end.

Definition strip {H : Host} (s : string) : string := rstrip (lstrip s).

(** The truth value of a string. *)
Definition nonempty (s : string) : bool :=
  match s with
  | EmptyString => false
  | String _ _ => true
  end.

(** The first and the last character of a string are whitespace. *)
Definition starts_with_space {H : Host} (s : string) : bool :=
  match s with
  | EmptyString => false
  | String c _ => isspace c
  end.

Fixpoint ends_with_space {H : Host} (s : string) : bool :=
  match s with
  | EmptyString => false
  | String c EmptyString => isspace c
  | String _ s' => ends_with_space s'
  end.

(** [d[k] = v] on a dict: a key that exists keeps its place. *)
Fixpoint dict_set {V : Type} (d : list (string * V)) (k : string) (v : V)
  : list (string * V) :=
  match d with
  | [] => [(k, v)]
  | (k', v') :: rest =>
      if String.eqb k' k then (k', v) :: rest else (k', v') :: dict_set rest k v
  end.

Section MainBlock.
Context {num : Type} {H : Host}.

(** [book.get("volumeInfo", {})]. *)
Definition volume_info (book : Volume) : VolumeInfo :=
  match volumeInfo book with
  | Some info => info
  | None => mkVolumeInfo None None None None
  end.

(** [info.get("description", "N/A")]. *)
Definition volume_description (book : Volume) : string :=
  get_or_NA (info_description (volume_info book)).

(** [info.get("imageLinks", {}).get("thumbnail", "N/A")]. *)
Definition volume_thumbnail (book : Volume) : string :=
  match info_imageLinks (volume_info book) with
  | Some links => get_or_NA (thumbnail links)
  | None => "N/A"
  end.

(** The dict appended to [latest_books]. *)
Definition make_book (book : Volume) (embedding : option (list num))
  : BookRecord num :=
  {| book_title := Some (get_or_NA (info_title (volume_info book)));
     book_description := Some (volume_description book);
     book_publication_date := Some (get_or_NA (info_publishedDate (volume_info book)));
     book_thumbnail_url := Some (volume_thumbnail book);
     book_embedding := embedding |}.

(** [load_authors]. *)
Definition load_authors (filename : string) : App num (list string) :=
  match text_lines filename with
  | Some lines => app_ret (map strip (filter (fun line => nonempty (strip line)) lines))
  | None => app_fail FileNotFoundError
  end.

Context {E : Env num}.

(** The text that [save_to_json] prints. *)
Definition saved_text (filename : string) : string :=
  String.append "Data saved to " filename.

(** [save_to_json]: the file is written, then the text is printed. *)
Definition save_to_json (data : Corpus num) (filename : string) : App num unit :=
  _ <-- app_emit (JsonDump filename data) ;;
  lift (console_print (saved_text filename)).

(** The texts of lines 161-164 and 166 for one result. *)
Definition author_text (book : CandidateMatch num) : string :=
  String.append (String newline "Author: ") (author book).

Definition title_text (book : CandidateMatch num) : string :=
  String.append "Title: " (title book).

Definition description_text (book : CandidateMatch num) : string :=
  String.append "Description: " (description book).

Definition publication_date_text (book : CandidateMatch num) : string :=
  String.append "Publication Date: " (publication_date book).

Definition thumbnail_url_text (book : CandidateMatch num) : string :=
  String.append "Thumbnail URL: " (thumbnail_url book).

(** The body of the loop over the results in the main block, lines
    161-166. Line 165 formats [book.get('relevance_score', 'N/A')] with
    [.4f], which raises [ValueError] for the string ["N/A"]; the text it
    prints otherwise is a number after a constant and holds no markup. *)
Definition display_book (book : CandidateMatch num) : M num unit :=
  console_print (author_text book) ;;;
  console_print (title_text book) ;;;
  console_print (description_text book) ;;;
  console_print (publication_date_text book) ;;;
  match relevance_score book with
  | Some _ => ret tt
  | None => raise ValueError
  end ;;;
  console_print (thumbnail_url_text book).

(** The loop over the results in the main block. *)
Fixpoint display (results : list (CandidateMatch num)) : App num unit :=
  match results with
  | [] => app_ret tt
  | book :: rest =>
      _ <-- lift (display_book book) ;;
      display rest
  end.

(** The loop [for book in books] of [get_latest_books_with_embeddings]. *)
Fixpoint embed_books (books : list Volume) (latest_books : list (BookRecord num))
  : App num (list (BookRecord num)) :=
  match books with
  | [] => app_ret latest_books
  | book :: rest =>
      embedding <--
        (if String.eqb (volume_description book) "N/A" then app_ret None
         else lift (generate_embedding (volume_description book) retrieval_passage)) ;;
      embed_books rest (latest_books ++ [make_book book embedding])
  end.

(** [get_latest_books_with_embeddings]. *)
Definition get_latest_books_with_embeddings (author : string) (max_results : Z)
  : App num (list (BookRecord num)) :=
  _ <-- app_emit (BooksCall author max_results) ;;
  match google_books author max_results with
  | Some items =>
      embed_books (match items with Some books => books | None => [] end) []
  | None => app_fail RequestException
  end.

(** The dict comprehension of the main block. *)
Fixpoint build_books_data (authors : list string) (books_data : Corpus num)
  : App num (Corpus num) :=
  match authors with
  | [] => app_ret books_data
  | a :: rest =>
      books <-- get_latest_books_with_embeddings a 10%Z ;;
      build_books_data rest (dict_set books_data a books)
  end.
End MainBlock.

(** The loop [while True] on the lines that [input] reads, in a world that
    is given. The texts of lines 155, 160 and 168 are constants, or a
    constant around a number, and hold no markup. *)
Fixpoint main_loop {num : Type} {H : Host} (E : Env num) (inputs : list string)
  : App num unit :=
  match inputs with
  | [] => app_fail EOFError
  | search_text :: rest =>
      if String.eqb (lower search_text) "exit" then app_ret tt
      else
        results <-- lift (search_embeddings search_text "books.json" 5%Z 10%Z) ;;
        _ <-- display results ;;
        main_loop E rest
  end.

(** The main block. After [save_to_json] the loop runs in a world where
    [books.json] holds what was written. *)
Definition main {num : Type} {H : Host} {E : Env num} (inputs : list string)
  : App num unit :=
  books_data <-- lift (load_books "books.json") ;;
  match books_data with
  | Some _ => main_loop E inputs
  | None =>
      authors <-- load_authors "authors.txt" ;;
      books_data <-- build_books_data authors [] ;;
      _ <-- save_to_json books_data "books.json" ;;
      main_loop (with_books_on_disk E "books.json" books_data) inputs
  end.

(** ** Views of the corpus build *)

Section BuildViews.
Context {num : Type} {E : Env num}.

(** The value of the key [items], or the empty list. *)
Definition answer_items (items : option (list Volume)) : list Volume :=
  match items with
  | Some books => books
  | None => []
  end.

(** The embedding stored for a volume. *)
Definition embedding_for (book : Volume) : option (list num) :=
  if String.eqb (volume_description book) "N/A" then None
  else match embeddings_api (volume_description book) retrieval_passage with
       | Answered embedding => Some embedding
       | _ => None
       end.

(** The embedding request made for a volume returns to its caller: it is
    answered, or it fails and the text of the failure is one that rich
    renders. *)
Definition embedding_returns (book : Volume) : Prop :=
  match embeddings_api (volume_description book) retrieval_passage with
  | Answered _ => True
  | RequestFailed message =>
      markup_ok (embedding_failure_text (volume_description book) message) = true
  | Misshapen _ => False
  end.

(** The exceptions that leave [generate_embedding]. *)
Definition embedding_exn (e : exn) : Prop :=
  e = MarkupError \/ exists b, e = body_exn b.

(** The texts of a result are texts that rich renders. *)
Definition displayable (book : CandidateMatch num) : Prop :=
  markup_ok (author_text book) = true /\
  markup_ok (title_text book) = true /\
  markup_ok (description_text book) = true /\
  markup_ok (publication_date_text book) = true /\
  markup_ok (thumbnail_url_text book) = true.

(** The record stored for a volume. *)
Definition built_record (book : Volume) : BookRecord num :=
  make_book book (embedding_for book).

(** The volumes whose description is not ["N/A"]. *)
Definition described (books : list Volume) : list Volume :=
  filter (fun b => negb (String.eqb (volume_description b) "N/A")) books.

(** The embedding requests made for a list of volumes. *)
Definition passage_calls (books : list Volume) : list (app_event num) :=
  map (fun b => Outside (EmbeddingCall (volume_description b) retrieval_passage))
      (described books).

(** The events of a corpus build: Google Books requests and requests for
    passage embeddings. *)
Definition is_build_event (e : app_event num) : Prop :=
  match e with
  | BooksCall _ _ => True
  | Outside (EmbeddingCall _ retrieval_passage) => True
  | _ => False
  end.
End BuildViews.

(** ** [get-authors.py]: the authors of a library *)

(** An entry of an author's folder, with the answer of [os.path.isdir]. *)
Record DirEntry : Type := mkEntry {
  entry_name : string;
  entry_is_dir : bool
}.

(** What [get_top_authors] sees of a library: the sub-directories of
    [library_path] in the order [os.walk] lists them, each with the entries
    that [os.listdir] gives for it; [None] when [os.walk] yields nothing
    (no such directory). *)
Definition Library : Type := option (list (string * list DirEntry)).

(** The number of sub-directories of an author's folder. *)
Definition book_count (entries : list DirEntry) : nat :=
  List.length (filter entry_is_dir entries).

(** [counter[k]], which is 0 for a key that is missing. *)
Fixpoint counter_get (c : list (string * nat)) (k : string) : nat :=
  match c with
  | [] => 0
  | (k', n) :: rest => if String.eqb k' k then n else counter_get rest k
  end.

(** The loop [for author_folder in dirs], on the counter. *)
Fixpoint count_authors (dirs : list (string * list DirEntry))
         (author_counts : list (string * nat)) : list (string * nat) :=
  match dirs with
  | [] => author_counts
  | (author_folder, entries) :: rest =>
      if 0 <? book_count entries
      then count_authors rest
             (dict_set author_counts author_folder
                       (counter_get author_counts author_folder + book_count entries))
      else count_authors rest author_counts
  end.

(** [sorted(items, key=itemgetter(1), reverse=True)], a stable sort. *)
Fixpoint insert_count (x : string * nat) (l : list (string * nat))
  : list (string * nat) :=
  match l with
  | [] => [x]
  | y :: ys => if snd y <=? snd x then x :: y :: ys else y :: insert_count x ys
  end.

Definition sorted_by_count (l : list (string * nat)) : list (string * nat) :=
  fold_right insert_count [] l.

(** [Counter.most_common(n)] for an integer [n], which is
    [heapq.nlargest(n, items, key=itemgetter(1))]: nothing for [n <= 0],
    otherwise the first [n] items of the sorted list. *)
Definition most_common (n : Z) (c : list (string * nat)) : list (string * nat) :=
  if (n <=? 0)%Z then [] else firstn (Z.to_nat n) (sorted_by_count c).

(** [get_top_authors]. *)
Definition get_top_authors (library : Library) (top_n : Z) : list string :=
  let author_counts :=
    match library with
    | Some dirs => count_authors dirs []
    | None => []
    end in
  map fst (most_common top_n author_counts).

(** [save_authors_to_file]: the text written to the file. *)
Fixpoint save_authors_to_file (authors : list string) : string :=
  match authors with
  | [] => EmptyString
  | a :: rest =>
      String.append (String.append a (String newline EmptyString))
                    (save_authors_to_file rest)
  end.

(** The lines that iterating over a text file yields, the file being opened
    in the default universal-newlines mode: a line ends after a line feed,
    a carriage return or the two in a row, each read as one line feed; [cur]
    is the line being read. *)
Fixpoint read_lines (cur : string) (s : string) : list string :=
  match s with
  | EmptyString => if nonempty cur then [cur] else []
  | String c s' =>
      if Ascii.eqb c newline then
        (String.append cur (String newline EmptyString)) :: read_lines EmptyString s'
      else if Ascii.eqb c carriage_return then
        match s' with
        | String c' s'' =>
            if Ascii.eqb c' newline then
              (String.append cur (String newline EmptyString)) :: read_lines EmptyString s''
            else (String.append cur (String newline EmptyString)) :: read_lines EmptyString s'
        | EmptyString => [String.append cur (String newline EmptyString)]
        end
      else read_lines (String.append cur (String c EmptyString)) s'
  end.

(** A string without a character that ends a line. *)
Fixpoint no_line_end (s : string) : bool :=
  match s with
  | EmptyString => true
  | String c s' =>
      negb (Ascii.eqb c newline) && negb (Ascii.eqb c carriage_return) &&
      no_line_end s'
  end.

(** ** Worlds for the main block *)

(** [str.isspace] on the characters below 256. *)
Definition latin1_isspace (c : Ascii.ascii) : bool :=
  let n := Ascii.nat_of_ascii c in
  ((9 <=? n) && (n <=? 13)) || ((28 <=? n) && (n <=? 32)) ||
  (n =? 133) || (n =? 160).

(** [str.lower] on the characters below 256. *)
Definition latin1_lower_char (c : Ascii.ascii) : Ascii.ascii :=
  let n := Ascii.nat_of_ascii c in
  if ((65 <=? n) && (n <=? 90)) ||
     ((192 <=? n) && (n <=? 222) && negb (n =? 215))
  then Ascii.ascii_of_nat (n + 32) else c.

Fixpoint latin1_lower (s : string) : string :=
  match s with
  | EmptyString => EmptyString
  | String c s' => String (latin1_lower_char c) (latin1_lower s')
  end.

Definition line (s : string) : string :=
  String.append s (String newline EmptyString).

(** A volume with every key and a volume with none. *)
Definition volume_T1 : Volume :=
  mkVolume (Some (mkVolumeInfo (Some "T1") (Some "D1") (Some "2020")
                               (Some (mkImageLinks (Some "http://t1"))))).

Definition volume_bare : Volume := mkVolume None.

(** [authors.txt] holds one author between spaces and a blank line; Google
    Books knows two volumes of that author. *)
Definition host_ok : Host :=
  {| google_books :=
       fun a _ => if String.eqb a "Author A"
                  then Some (Some [volume_T1; volume_bare]) else Some None;
     text_lines :=
       fun f => if String.eqb f "authors.txt"
                then Some [line " Author A "; line ""] else None;
     isspace := latin1_isspace;
     lower := latin1_lower |}.

(** The same, with Google Books out of reach. *)
Definition host_down : Host :=
  {| google_books := fun _ _ => None;
     text_lines :=
       fun f => if String.eqb f "authors.txt"
                then Some [line " Author A "; line ""] else None;
     isspace := latin1_isspace;
     lower := latin1_lower |}.

(** [authors.txt] as [save_authors_to_file] has written it. *)
Definition host_saved : Host :=
  {| google_books := fun _ _ => Some None;
     text_lines :=
       fun f => if String.eqb f "authors.txt"
                then Some (read_lines EmptyString
                             (save_authors_to_file ["Author A"; "Author B"]))
                else None;
     isspace := latin1_isspace;
     lower := latin1_lower |}.

(** No corpus file, every embedding request answered, reranking fails. *)
Definition env_build : Env Q :=
  run_env no_disk (Answered query_vector) (RequestFailed unavailable).

(** A library of three authors. *)
Definition library_dirs : list (string * list DirEntry) :=
  [("Author A", [mkEntry "Book 1" true; mkEntry "cover.jpg" false]);
   ("Author B", [mkEntry "notes.txt" false]);
   ("Author C", [mkEntry "Book 1" true; mkEntry "Book 2" true])].

(** ** Running the monad *)

Section MonadFacts.
Context {num : Type}.

Lemma bind_Return {A B : Type} (t : list (event num)) (a : A) (f : A -> M num B) :
  bind (t, Return a) f = (t ++ trace (f a), result (f a)).
Proof.
  unfold bind, trace, result. destruct (f a); reflexivity.
Qed.

Lemma bind_Raise {A B : Type} (t : list (event num)) (e : exn) (f : A -> M num B) :
  bind (t, Raise e) f = (t, Raise e).
Proof. reflexivity. Qed.

Lemma M_eta {A : Type} (m : M num A) : m = (trace m, result m).
Proof. destruct m; reflexivity. Qed.

(** A comprehension whose body makes no call makes no call. *)
Lemma mapM_silent {A B : Type} (f : A -> M num B) (l : list A) :
  (forall x, trace (f x) = []) -> trace (mapM f l) = [].
Proof.
  intros Hf. induction l as [|x xs IH]; simpl; [reflexivity|].
  rewrite (M_eta (f x)), Hf.
  destruct (result (f x)) as [y|e]; [|reflexivity].
  rewrite bind_Return. simpl.
  rewrite (M_eta (mapM f xs)), IH.
  destruct (result (mapM f xs)); reflexivity.
Qed.
End MonadFacts.

(** ** The scoring loops *)

Section ScanFacts.
Context {num : Type} {E : Env num}.

Lemma console_print_ok (text : string) :
  markup_ok text = true -> console_print text = ([], Return tt).
Proof. unfold console_print. intros ->. reflexivity. Qed.

Lemma console_print_fails (text : string) :
  markup_ok text = false -> console_print text = ([], Raise MarkupError).
Proof. unfold console_print. intros ->. reflexivity. Qed.

Lemma console_print_trace (text : string) : trace (console_print text) = [].
Proof. unfold console_print. destruct (markup_ok text); reflexivity. Qed.

Lemma console_print_result (text : string) :
  result (console_print text) = Return tt \/
  result (console_print text) = Raise MarkupError.
Proof. unfold console_print. destruct (markup_ok text); [left|right]; reflexivity. Qed.

(** [load_books] makes no call. *)
Lemma load_books_run (filename : string) :
  load_books filename = ([], result (load_books filename)).
Proof.
  unfold load_books, console_print.
  destruct (books_on_disk filename); destruct (markup_ok _); reflexivity.
Qed.

Lemma load_books_loaded (filename : string) (d : Corpus num) :
  result (load_books filename) = Return (Some d) <->
  books_on_disk filename = Some d /\ markup_ok (loaded_text filename) = true.
Proof.
  unfold load_books, console_print.
  destruct (books_on_disk filename) as [d'|].
  - destruct (markup_ok (loaded_text filename)); simpl; split.
    + intros H. injection H as ->. auto.
    + intros [H _]. injection H as ->. reflexivity.
    + discriminate.
    + intros [_ H]. discriminate.
  - destruct (markup_ok (missing_text filename)); simpl; split;
      try discriminate; intros [H _]; discriminate.
Qed.

Lemma load_books_missing (filename : string) :
  result (load_books filename) = Return None <->
  books_on_disk filename = None /\ markup_ok (missing_text filename) = true.
Proof.
  unfold load_books, console_print.
  destruct (books_on_disk filename) as [d'|].
  - destruct (markup_ok (loaded_text filename)); simpl; split;
      try discriminate; intros [H _]; discriminate.
  - destruct (markup_ok (missing_text filename)); simpl; split.
    + auto.
    + reflexivity.
    + discriminate.
    + intros [_ H]. discriminate.
Qed.

(** What [load_books] gives is what the file holds; it raises nothing but
    [MarkupError]. *)
Lemma load_books_result (filename : string) :
  result (load_books filename) = Return (books_on_disk filename) \/
  result (load_books filename) = Raise MarkupError.
Proof.
  unfold load_books, console_print.
  destruct (books_on_disk filename); destruct (markup_ok _); simpl; auto.
Qed.

Lemma generate_embedding_trace (text : string) (task : task_type) :
  trace (generate_embedding text task) = [EmbeddingCall text task].
Proof.
  unfold generate_embedding, console_print.
  destruct (embeddings_api text task); [reflexivity| |reflexivity].
  destruct (markup_ok _); reflexivity.
Qed.

Lemma generate_embedding_answered (text : string) (task : task_type) (v : list num) :
  embeddings_api text task = Answered v ->
  generate_embedding text task = ([EmbeddingCall text task], Return (Some v)).
Proof. unfold generate_embedding. intros ->. reflexivity. Qed.

Lemma generate_embedding_failed (text : string) (task : task_type) (message : string) :
  embeddings_api text task = RequestFailed message ->
  markup_ok (embedding_failure_text text message) = true ->
  generate_embedding text task = ([EmbeddingCall text task], Return None).
Proof.
  unfold generate_embedding, console_print. intros -> ->. reflexivity.
Qed.

Lemma generate_embedding_unprinted (text : string) (task : task_type) (message : string) :
  embeddings_api text task = RequestFailed message ->
  markup_ok (embedding_failure_text text message) = false ->
  generate_embedding text task = ([EmbeddingCall text task], Raise MarkupError).
Proof.
  unfold generate_embedding, console_print. intros -> ->. reflexivity.
Qed.

Lemma generate_embedding_misshapen (text : string) (task : task_type) (b : body_error) :
  embeddings_api text task = Misshapen b ->
  generate_embedding text task = ([EmbeddingCall text task], Raise (body_exn b)).
Proof. unfold generate_embedding. intros ->. reflexivity. Qed.

(** The vector that [generate_embedding] returns is the one of the answer;
    it returns [None] for a failed request whose text is printed. *)
Lemma generate_embedding_Some (text : string) (task : task_type) (v : list num) :
  result (generate_embedding text task) = Return (Some v) <->
  embeddings_api text task = Answered v.
Proof.
  unfold generate_embedding, console_print.
  destruct (embeddings_api text task) as [v'|message|b]; simpl.
  - split; intros H; injection H as ->; reflexivity.
  - destruct (markup_ok _); simpl; split; discriminate.
  - split; discriminate.
Qed.

Lemma generate_embedding_None (text : string) (task : task_type) :
  result (generate_embedding text task) = Return None <->
  exists message,
    embeddings_api text task = RequestFailed message /\
    markup_ok (embedding_failure_text text message) = true.
Proof.
  unfold generate_embedding, console_print.
  destruct (embeddings_api text task) as [v'|message|b]; simpl.
  - split; [discriminate|]. intros [m [H _]]. discriminate.
  - destruct (markup_ok (embedding_failure_text text message)) eqn:Hm; simpl; split.
    + intros _. exists message. auto.
    + reflexivity.
    + discriminate.
    + intros [m [H Hm']]. injection H as <-. congruence.
  - split; [discriminate|]. intros [m [H _]]. discriminate.
Qed.

Lemma scan_books_embedded (q : list num) (a : string) (books : list (BookRecord num)) :
  forall matches,
    scan_books q a books matches = scan_embedded q (embedded_books a books) matches.
Proof.
  unfold embedded_books.
  induction books as [|book rest IH]; intros matches; simpl; [reflexivity|].
  destruct (truthy (book_embedding book)) eqn:Ht; simpl; [|apply IH].
  unfold call_cosine_similarity, emit, ret, raise.
  destruct (cosine_similarity_raises q (np_array (book_embedding book)));
    simpl; [reflexivity|].
  rewrite IH. reflexivity.
Qed.

Lemma scan_embedded_app (q : list num) (l1 l2 : list (string * BookRecord num)) :
  forall matches,
    scan_embedded q (l1 ++ l2) matches =
    (ms <- scan_embedded q l1 matches ;; scan_embedded q l2 ms).
Proof.
  induction l1 as [|ab rest IH]; intros matches; simpl.
  - destruct (scan_embedded q l2 matches); reflexivity.
  - unfold call_cosine_similarity, emit, ret, raise.
    destruct (cosine_similarity_raises q (np_array (book_embedding (snd ab))));
      simpl; [reflexivity|].
    rewrite IH.
    destruct (scan_embedded q rest _) as [t [ms|e]]; simpl; [|reflexivity].
    destruct (scan_embedded q l2 ms); reflexivity.
Qed.

(** The two loops score the records that have an embedding, one after the
    other. *)
Lemma scan_corpus_embedded (q : list num) (d : Corpus num) :
  forall matches,
    scan_corpus q d matches = scan_embedded q (embedded d) matches.
Proof.
  unfold embedded.
  induction d as [|[a books] rest IH]; intros matches; simpl; [reflexivity|].
  rewrite scan_embedded_app, scan_books_embedded.
  destruct (scan_embedded q (embedded_books a books) matches) as [t [ms|e]];
    simpl; [|reflexivity].
  rewrite IH. reflexivity.
Qed.

Lemma scan_embedded_spec (q : list num) (l : list (string * BookRecord num)) :
  Forall (fun ab =>
            cosine_similarity_raises q (np_array (book_embedding (snd ab))) = false) l ->
  forall matches,
    scan_embedded q l matches =
    (map (fun ab => SimilarityCall q (np_array (book_embedding (snd ab)))) l,
     Return (matches ++ map (score_record q) l)).
Proof.
  induction 1 as [|ab rest Hab _ IH]; intros matches; simpl.
  - rewrite app_nil_r. reflexivity.
  - unfold call_cosine_similarity, emit, ret. rewrite Hab. simpl.
    rewrite IH. simpl. rewrite <- app_assoc. reflexivity.
Qed.

(** The loops stop at the first evaluation that raises. *)
Lemma scan_embedded_stops (q : list num) (l1 l2 : list (string * BookRecord num))
      (ab : string * BookRecord num) :
  Forall (fun ab =>
            cosine_similarity_raises q (np_array (book_embedding (snd ab))) = false) l1 ->
  cosine_similarity_raises q (np_array (book_embedding (snd ab))) = true ->
  forall matches,
    scan_embedded q (l1 ++ ab :: l2) matches =
    (map (fun ab => SimilarityCall q (np_array (book_embedding (snd ab)))) (l1 ++ [ab]),
     Raise ValueError).
Proof.
  intros H1 Hab matches.
  rewrite scan_embedded_app, (scan_embedded_spec _ _ H1). simpl.
  unfold call_cosine_similarity, emit, raise. rewrite Hab. simpl.
  rewrite map_app. reflexivity.
Qed.

Lemma scan_embedded_cases (q : list num) (l : list (string * BookRecord num)) :
  Forall (fun ab =>
            cosine_similarity_raises q (np_array (book_embedding (snd ab))) = false) l \/
  exists l1 ab l2,
    l = l1 ++ ab :: l2 /\
    Forall (fun ab =>
              cosine_similarity_raises q (np_array (book_embedding (snd ab))) = false) l1 /\
    cosine_similarity_raises q (np_array (book_embedding (snd ab))) = true.
Proof.
  induction l as [|ab rest IH].
  - left. constructor.
  - destruct (cosine_similarity_raises q (np_array (book_embedding (snd ab)))) eqn:Hab.
    + right. exists [], ab, rest. repeat split; [constructor|exact Hab].
    + destruct IH as [IH|[l1 [ab' [l2 [-> [H1 H2]]]]]].
      * left. constructor; assumption.
      * right. exists (ab :: l1), ab', l2. repeat split; [|exact H2].
        constructor; assumption.
Qed.

Lemma scan_corpus_spec (q : list num) (d : Corpus num) :
  scan_succeeds q d ->
  forall matches,
    scan_corpus q d matches = (similarity_calls q d, Return (matches ++ scored q d)).
Proof.
  intros Hs matches. rewrite scan_corpus_embedded.
  apply scan_embedded_spec. exact Hs.
Qed.

(** A scan that returns has met no evaluation that raises. *)
Lemma scan_corpus_returns (q : list num) (d : Corpus num)
      (matches ms : list (CandidateMatch num)) :
  result (scan_corpus q d matches) = Return ms -> scan_succeeds q d.
Proof.
  rewrite scan_corpus_embedded. intros H.
  destruct (scan_embedded_cases q (embedded d)) as [Hs|[l1 [ab [l2 [Hl [H1 H2]]]]]];
    [exact Hs|].
  rewrite Hl, (scan_embedded_stops _ _ _ _ H1 H2) in H. discriminate.
Qed.

(** The run of [search_embeddings] once the corpus is loaded, the query is
    embedded and every similarity evaluation returns: the embedding call,
    one similarity evaluation per scored record, then [rerank_results] on
    the candidates. *)
Lemma search_embeddings_run (text filename : string) (top_n im : Z)
      (d : Corpus num) (q : list num) :
  result (load_books filename) = Return (Some d) ->
  embeddings_api text retrieval_query = Answered q ->
  scan_succeeds q d ->
  search_embeddings text filename top_n im =
  (EmbeddingCall text retrieval_query ::
     similarity_calls q d ++ trace (rerank_results text (candidates q d im) top_n),
   result (rerank_results text (candidates q d im) top_n)).
Proof.
  intros Hd Hq Hs.
  unfold search_embeddings.
  rewrite load_books_run, Hd, bind_Return.
  rewrite (generate_embedding_answered _ _ _ Hq). simpl.
  rewrite (scan_corpus_spec _ _ Hs), bind_Return. simpl.
  reflexivity.
Qed.

(** The run when the scan meets an evaluation that raises. *)
Lemma search_embeddings_scan_raises (text filename : string) (top_n im : Z)
      (d : Corpus num) (q : list num) (l1 l2 : list (string * BookRecord num))
      (ab : string * BookRecord num) :
  result (load_books filename) = Return (Some d) ->
  embeddings_api text retrieval_query = Answered q ->
  embedded d = l1 ++ ab :: l2 ->
  Forall (fun ab =>
            cosine_similarity_raises q (np_array (book_embedding (snd ab))) = false) l1 ->
  cosine_similarity_raises q (np_array (book_embedding (snd ab))) = true ->
  search_embeddings text filename top_n im =
  (EmbeddingCall text retrieval_query ::
     map (fun ab => SimilarityCall q (np_array (book_embedding (snd ab)))) (l1 ++ [ab]),
   Raise ValueError).
Proof.
  intros Hd Hq Hl H1 H2.
  unfold search_embeddings.
  rewrite load_books_run, Hd, bind_Return.
  rewrite (generate_embedding_answered _ _ _ Hq). simpl.
  rewrite scan_corpus_embedded, Hl, (scan_embedded_stops _ _ _ _ H1 H2). simpl.
  reflexivity.
Qed.

Lemma search_embeddings_no_embedding (text filename : string) (top_n im : Z)
      (data : option (Corpus num)) :
  result (load_books filename) = Return data ->
  result (generate_embedding text retrieval_query) = Return None ->
  search_embeddings text filename top_n im =
  ([EmbeddingCall text retrieval_query], Return []).
Proof.
  intros Hd Hq.
  unfold search_embeddings.
  rewrite load_books_run, Hd, bind_Return.
  rewrite (M_eta (generate_embedding text retrieval_query)),
    generate_embedding_trace, Hq.
  reflexivity.
Qed.

(** The run when [generate_embedding] raises. *)
Lemma search_embeddings_embedding_raises (text filename : string) (top_n im : Z)
      (data : option (Corpus num)) (e : exn) :
  result (load_books filename) = Return data ->
  result (generate_embedding text retrieval_query) = Raise e ->
  search_embeddings text filename top_n im =
  ([EmbeddingCall text retrieval_query], Raise e).
Proof.
  intros Hd Hq.
  unfold search_embeddings.
  rewrite load_books_run, Hd, bind_Return.
  rewrite (M_eta (generate_embedding text retrieval_query)),
    generate_embedding_trace, Hq.
  reflexivity.
Qed.

(** The run when [load_books] raises. *)
Lemma search_embeddings_load_raises (text filename : string) (top_n im : Z) (e : exn) :
  result (load_books filename) = Raise e ->
  search_embeddings text filename top_n im = ([], Raise e).
Proof.
  intros Hd. unfold search_embeddings.
  rewrite load_books_run, Hd. reflexivity.
Qed.

Lemma search_embeddings_no_file (text filename : string) (top_n im : Z) (q : list num) :
  result (load_books filename) = Return None ->
  embeddings_api text retrieval_query = Answered q ->
  search_embeddings text filename top_n im =
  ([EmbeddingCall text retrieval_query], Raise AttributeError).
Proof.
  intros Hd Hq.
  unfold search_embeddings.
  rewrite load_books_run, Hd, bind_Return.
  rewrite (generate_embedding_answered _ _ _ Hq). reflexivity.
Qed.

(** A run that returns a list: the request for the query embedding failed
    and the list is empty, or the corpus was loaded, the query embedded,
    every similarity evaluated, and the list is the one of
    [rerank_results]. *)
Lemma search_embeddings_returns (text filename : string) (top_n im : Z)
      (out : list (CandidateMatch num)) :
  result (search_embeddings text filename top_n im) = Return out ->
  out = [] \/
  exists d q,
    books_on_disk filename = Some d /\
    embeddings_api text retrieval_query = Answered q /\
    scan_succeeds q d /\
    result (rerank_results text (candidates q d im) top_n) = Return out.
Proof.
  intros Hres.
  destruct (load_books_result filename) as [Hl|Hl].
  - destruct (embeddings_api text retrieval_query) as [q|message|b] eqn:Hq.
    + destruct (books_on_disk filename) as [d|] eqn:Hd.
      * destruct (scan_embedded_cases q (embedded d))
          as [Hs|(l1 & ab & l2 & Hl' & H1 & H2)].
        -- right. exists d, q.
           rewrite (search_embeddings_run _ _ _ _ _ _ Hl Hq Hs) in Hres.
           auto.
        -- rewrite (search_embeddings_scan_raises _ _ _ _ _ _ _ _ _ Hl Hq Hl' H1 H2)
             in Hres.
           discriminate.
      * rewrite (search_embeddings_no_file _ _ _ _ q Hl Hq) in Hres. discriminate.
    + destruct (markup_ok (embedding_failure_text text message)) eqn:Hm.
      * rewrite (search_embeddings_no_embedding _ _ _ _ _ Hl) in Hres.
        -- injection Hres as <-. left. reflexivity.
        -- rewrite (generate_embedding_failed _ _ _ Hq Hm). reflexivity.
      * rewrite (search_embeddings_embedding_raises _ _ _ _ _ MarkupError Hl) in Hres.
        -- discriminate.
        -- rewrite (generate_embedding_unprinted _ _ _ Hq Hm). reflexivity.
    + rewrite (search_embeddings_embedding_raises _ _ _ _ _ (body_exn b) Hl) in Hres.
      * discriminate.
      * rewrite (generate_embedding_misshapen _ _ _ Hq). reflexivity.
  - rewrite (search_embeddings_load_raises _ _ _ _ _ Hl) in Hres. discriminate.
Qed.
End ScanFacts.

(** ** Python lists *)

Section ListFacts.
Context {A : Type}.

Lemma py_position_lt (l : list A) (i : Z) (r : nat) :
  py_position l i = Some r -> r < List.length l.
Proof.
  unfold py_position.
  destruct (0 <=? i)%Z eqn:H0.
  - destruct (i <? Z.of_nat (List.length l))%Z eqn:H1; [|discriminate].
    intros [= <-]. apply Z.leb_le in H0. apply Z.ltb_lt in H1. lia.
  - destruct (- Z.of_nat (List.length l) <=? i)%Z eqn:H1; [|discriminate].
    intros [= <-]. apply Z.leb_gt in H0. apply Z.leb_le in H1. lia.
Qed.

Lemma py_slice_to_nonneg (n : Z) (l : list A) :
  (0 <= n)%Z -> py_slice_to n l = firstn (Z.to_nat n) l.
Proof.
  intros Hn. unfold py_slice_to.
  destruct (0 <=? n)%Z eqn:H0; [reflexivity|].
  apply Z.leb_gt in H0. lia.
Qed.

Lemma py_slice_to_nil (n : Z) : py_slice_to n (@nil A) = [].
Proof.
  unfold py_slice_to. destruct (0 <=? n)%Z; apply firstn_nil.
Qed.

(** A slice is a prefix. *)
Lemma py_slice_to_prefix (n : Z) (l : list A) :
  exists rest, l = py_slice_to n l ++ rest.
Proof.
  unfold py_slice_to. destruct (0 <=? n)%Z.
  - exists (skipn (Z.to_nat n) l). symmetry. apply firstn_skipn.
  - exists (skipn (List.length l - Z.to_nat (- n)) l). symmetry. apply firstn_skipn.
Qed.

Lemma py_slice_to_In (n : Z) (l : list A) (x : A) :
  In x (py_slice_to n l) -> In x l.
Proof.
  intros Hx. destruct (py_slice_to_prefix n l) as [rest Hl].
  rewrite Hl. apply in_or_app. left. exact Hx.
Qed.

Lemma py_slice_to_length (n : Z) (l : list A) :
  List.length (py_slice_to n l) <= List.length l.
Proof.
  destruct (py_slice_to_prefix n l) as [rest Hl].
  rewrite Hl at 2. rewrite length_app. lia.
Qed.

Lemma py_slice_to_length_le (n : Z) (l : list A) :
  (0 <= n)%Z -> List.length (py_slice_to n l) <= Z.to_nat n.
Proof.
  intros Hn. rewrite py_slice_to_nonneg by exact Hn. apply firstn_le_length.
Qed.

(** A slice that is long enough keeps the whole list. *)
Lemma py_slice_to_all (n : Z) (l : list A) :
  (Z.of_nat (List.length l) <= n)%Z -> py_slice_to n l = l.
Proof.
  intros Hn. rewrite py_slice_to_nonneg by lia.
  apply firstn_all2. lia.
Qed.

Lemma list_update_length (l : list A) (i : nat) (f : A -> A) :
  List.length (list_update l i f) = List.length l.
Proof.
  revert i. induction l as [|x xs IH]; intros [|j]; simpl; auto.
Qed.

Lemma nth_error_list_update_eq (l : list A) (i : nat) (f : A -> A) :
  nth_error (list_update l i f) i = option_map f (nth_error l i).
Proof.
  revert i. induction l as [|x xs IH]; intros [|j]; simpl; auto.
Qed.

Lemma nth_error_list_update_neq (l : list A) (i j : nat) (f : A -> A) :
  i <> j -> nth_error (list_update l i f) j = nth_error l j.
Proof.
  revert i j. induction l as [|x xs IH]; intros [|i] [|j] Hij; simpl; auto.
  contradiction.
Qed.

(** Distinct positions of a list are no more than its elements. *)
Lemma NoDup_positions_length (refs : list nat) (n : nat) :
  NoDup refs -> Forall (fun r => r < n) refs -> List.length refs <= n.
Proof.
  intros Hnd Hlt.
  rewrite <- (length_seq n 0).
  apply NoDup_incl_length; [exact Hnd|].
  intros r Hr. apply in_seq. rewrite Forall_forall in Hlt.
  specialize (Hlt r Hr). lia.
Qed.
End ListFacts.

(** ** Reranking *)

Section RerankFacts.
Context {num : Type} {E : Env num}.

Lemma same_book_refl (c : CandidateMatch num) : same_book c c.
Proof. unfold same_book. auto 10. Qed.

Lemma same_book_trans (a b c : CandidateMatch num) :
  same_book a b -> same_book b c -> same_book a c.
Proof.
  unfold same_book. intros (?&?&?&?&?&?) (?&?&?&?&?&?).
  repeat split; congruence.
Qed.

Lemma same_book_set_relevance_score (s : num) (c : CandidateMatch num) :
  same_book c (set_relevance_score s c).
Proof. unfold same_book. simpl. auto 10. Qed.

(** The comprehension [results[item["index"]] for item in ranked_results]
    yields the named positions when all of them exist. *)
Lemma mapM_getitem_ref_ok (results : list (CandidateMatch num))
      (rr : list (RankInfo num)) :
  forall refs,
    map Some refs = named_positions results rr ->
    mapM (getitem_ref results) rr = ([], Return refs).
Proof.
  unfold named_positions.
  induction rr as [|item rest IH]; intros [|r refs] H; simpl in H; try discriminate.
  - reflexivity.
  - injection H as Hr Hrest. simpl. unfold getitem_ref at 1.
    rewrite <- Hr. unfold ret at 1. rewrite bind_Return.
    rewrite (IH refs Hrest). reflexivity.
Qed.

(** It raises [IndexError] as soon as one of them does not. *)
Lemma mapM_getitem_ref_raise (results : list (CandidateMatch num))
      (rr : list (RankInfo num)) :
  In None (named_positions results rr) ->
  mapM (getitem_ref results) rr = ([], Raise IndexError).
Proof.
  unfold named_positions.
  induction rr as [|item rest IH]; simpl; intros H; [contradiction|].
  unfold getitem_ref at 1.
  destruct (py_position results (index item)) as [r|] eqn:Hp.
  - destruct H as [H|H]; [discriminate|].
    unfold ret at 1. rewrite bind_Return. rewrite (IH H). reflexivity.
  - reflexivity.
Qed.

Lemma named_positions_cases (results : list (CandidateMatch num))
      (rr : list (RankInfo num)) :
  In None (named_positions results rr) \/
  exists refs, map Some refs = named_positions results rr.
Proof.
  unfold named_positions.
  induction rr as [|item rest IH]; simpl.
  - right. exists []. reflexivity.
  - destruct (py_position results (index item)) as [r|].
    + destruct IH as [IH|[refs IH]].
      * left. right. exact IH.
      * right. exists (r :: refs). simpl. rewrite IH. reflexivity.
    + left. left. reflexivity.
Qed.

Lemma named_positions_lt (results : list (CandidateMatch num))
      (rr : list (RankInfo num)) (refs : list nat) :
  map Some refs = named_positions results rr ->
  Forall (fun r => r < List.length results) refs /\
  List.length refs = List.length rr.
Proof.
  unfold named_positions. revert refs.
  induction rr as [|item rest IH]; intros [|r refs] H; simpl in H; try discriminate.
  - split; [constructor|reflexivity].
  - injection H as Hr Hrest. destruct (IH refs Hrest) as [Hlt Hlen].
    split; [|simpl; congruence].
    constructor; [|exact Hlt].
    apply (py_position_lt _ (index item)). symmetry. exact Hr.
Qed.

Lemma assign_scores_length (heap : list (CandidateMatch num))
      (pairs : list (nat * RankInfo num)) :
  List.length (assign_scores heap pairs) = List.length heap.
Proof.
  unfold assign_scores. revert heap.
  induction pairs as [|p ps IH]; intros heap; simpl; [reflexivity|].
  rewrite IH. apply list_update_length.
Qed.



(** Whatever the pairs are, every object keeps all its keys but
    [relevance_score]. *)
Lemma assign_scores_same_book (pairs : list (nat * RankInfo num)) :
  forall heap r m,
    nth_error (assign_scores heap pairs) r = Some m ->
    exists c, nth_error heap r = Some c /\ same_book c m.
Proof.
  induction pairs as [|p ps IH]; intros heap r m H.
  - exists m. split; [exact H|apply same_book_refl].
  - change (assign_scores heap (p :: ps))
      with (assign_scores
              (list_update heap (fst p) (set_relevance_score (rank_relevance_score (snd p)))) ps)
      in H.
    destruct (IH _ _ _ H) as (c & Hc & Hsame).
    destruct (Nat.eq_dec (fst p) r) as [Heq|Hne].
    + subst r. rewrite nth_error_list_update_eq in Hc.
      destruct (nth_error heap (fst p)) as [c0|]; [|discriminate].
      simpl in Hc. injection Hc as <-.
      exists c0. split; [reflexivity|].
      eapply same_book_trans; [apply same_book_set_relevance_score|exact Hsame].
    + rewrite nth_error_list_update_neq in Hc by exact Hne.
      exists c. split; assumption.
Qed.

(** Reading back through references that exist never raises. *)
Lemma mapM_deref_ok (heap : list (CandidateMatch num)) (refs : list nat) :
  Forall (fun r => r < List.length heap) refs ->
  exists out,
    mapM (deref heap) refs = ([], Return out) /\
    map Some out = map (nth_error heap) refs.
Proof.
  induction refs as [|r refs IH]; intros H.
  - exists []. split; reflexivity.
  - inversion H as [|? ? Hr Hrest]; subst.
    destruct (IH Hrest) as (out & Hout & Hmap).
    destruct (nth_error heap r) as [m|] eqn:Hm.
    + exists (m :: out). split.
      * simpl. unfold deref at 1. rewrite Hm. unfold ret at 1.
        rewrite bind_Return, Hout. reflexivity.
      * simpl. rewrite Hm, Hmap. reflexivity.
    + apply nth_error_None in Hm. lia.
Qed.

Lemma rerank_results_fallback (query : string)
      (results : list (CandidateMatch num)) (top_n : Z) (message : string) :
  rerank_api query (map description results) top_n = RequestFailed message ->
  rerank_failure_printed message ->
  rerank_results query results top_n =
  ([RerankCall query (map description results) top_n],
   Return (py_slice_to top_n results)).
Proof.
  intros H Hm. unfold rerank_results. rewrite H.
  rewrite (console_print_ok _ Hm). reflexivity.
Qed.

(** A failure whose text rich does not render. *)
Lemma rerank_results_unprinted (query : string)
      (results : list (CandidateMatch num)) (top_n : Z) (message : string) :
  rerank_api query (map description results) top_n = RequestFailed message ->
  markup_ok (rerank_failure_text message) = false ->
  rerank_results query results top_n =
  ([RerankCall query (map description results) top_n], Raise MarkupError).
Proof.
  intros H Hm. unfold rerank_results. rewrite H.
  rewrite (console_print_fails _ Hm). reflexivity.
Qed.

(** A body of another shape. *)
Lemma rerank_results_misshapen (query : string)
      (results : list (CandidateMatch num)) (top_n : Z) (b : body_error) :
  rerank_api query (map description results) top_n = Misshapen b ->
  rerank_results query results top_n =
  ([RerankCall query (map description results) top_n], Raise (body_exn b)).
Proof.
  intros H. unfold rerank_results. rewrite H. reflexivity.
Qed.

Lemma rerank_results_index_error (query : string)
      (results : list (CandidateMatch num)) (top_n : Z) (rr : list (RankInfo num)) :
  rerank_api query (map description results) top_n = Answered rr ->
  In None (named_positions results rr) ->
  rerank_results query results top_n =
  ([RerankCall query (map description results) top_n], Raise IndexError).
Proof.
  intros H Hnone. unfold rerank_results. rewrite H.
  rewrite (mapM_getitem_ref_raise _ _ Hnone). reflexivity.
Qed.

(** A response whose indices all exist: the result is read from the
    objects after the assignments. *)
Lemma rerank_results_success (query : string)
      (results : list (CandidateMatch num)) (top_n : Z)
      (rr : list (RankInfo num)) (refs : list nat) :
  rerank_api query (map description results) top_n = Answered rr ->
  map Some refs = named_positions results rr ->
  exists out,
    rerank_results query results top_n =
    ([RerankCall query (map description results) top_n], Return out) /\
    map Some out =
    map (nth_error (assign_scores results (combine refs rr))) refs.
Proof.
  intros H Hrefs. unfold rerank_results. rewrite H.
  rewrite (mapM_getitem_ref_ok _ _ _ Hrefs).
  destruct (named_positions_lt _ _ _ Hrefs) as [Hlt _].
  destruct (mapM_deref_ok (assign_scores results (combine refs rr)) refs)
    as (out & Hout & Hmap).
  { rewrite assign_scores_length. exact Hlt. }
  exists out. split; [|exact Hmap].
  unfold emit. simpl. rewrite Hout. reflexivity.
Qed.

(** [rerank_results] makes exactly one call. *)
Lemma rerank_results_trace (query : string)
      (results : list (CandidateMatch num)) (top_n : Z) :
  trace (rerank_results query results top_n) =
  [RerankCall query (map description results) top_n].
Proof.
  destruct (rerank_api query (map description results) top_n) as [rr|message|b] eqn:H.
  - destruct (named_positions_cases results rr) as [Hnone|[refs Hrefs]].
    + rewrite (rerank_results_index_error _ _ _ _ H Hnone). reflexivity.
    + destruct (rerank_results_success _ _ _ _ _ H Hrefs) as (out & -> & _).
      reflexivity.
  - unfold rerank_results. rewrite H. simpl.
    rewrite (M_eta (console_print _)), console_print_trace.
    destruct (result (console_print _)); reflexivity.
  - rewrite (rerank_results_misshapen _ _ _ _ H). reflexivity.
Qed.
End RerankFacts.

(** ** Sorting *)

Section SortFacts.
Context {num : Type} {E : Env num}.

Lemma insert_desc_perm (m : CandidateMatch num) (l : list (CandidateMatch num)) :
  Permutation (insert_desc m l) (m :: l).
Proof.
  induction l as [|y ys IH]; simpl.
  - apply Permutation_refl.
  - destruct (num_leb (similarity y) (similarity m)).
    + apply Permutation_refl.
    + eapply perm_trans; [apply perm_skip, IH|apply perm_swap].
Qed.

Lemma sorted_desc_perm (l : list (CandidateMatch num)) :
  Permutation (sorted_desc l) l.
Proof.
  induction l as [|m l IH]; simpl.
  - apply perm_nil.
  - eapply perm_trans; [apply insert_desc_perm|apply perm_skip, IH].
Qed.

Lemma sorted_desc_length (l : list (CandidateMatch num)) :
  List.length (sorted_desc l) = List.length l.
Proof. apply Permutation_length, sorted_desc_perm. Qed.

Lemma sorted_desc_In (l : list (CandidateMatch num)) (m : CandidateMatch num) :
  In m (sorted_desc l) <-> In m l.
Proof.
  split; apply Permutation_in;
    [apply sorted_desc_perm|apply Permutation_sym, sorted_desc_perm].
Qed.

Hypothesis num_leb_total : forall x y : num, num_leb x y = true \/ num_leb y x = true.
Hypothesis num_leb_trans :
  forall x y z : num, num_leb x y = true -> num_leb y z = true -> num_leb x z = true.

Lemma insert_desc_sorted (m : CandidateMatch num) (l : list (CandidateMatch num)) :
  StronglySorted desc l -> StronglySorted desc (insert_desc m l).
Proof.
  induction l as [|y ys IH]; intros Hs; simpl.
  - constructor; constructor.
  - inversion Hs as [|? ? Hys Hall]; subst.
    destruct (num_leb (similarity y) (similarity m)) eqn:Hle.
    + constructor; [exact Hs|].
      constructor; [exact Hle|].
      rewrite Forall_forall in Hall |- *. intros z Hz.
      unfold desc in *. eapply num_leb_trans; [apply Hall, Hz|exact Hle].
    + constructor; [apply IH, Hys|].
      apply (Permutation_Forall (Permutation_sym (insert_desc_perm m ys))).
      constructor; [|exact Hall].
      unfold desc. destruct (num_leb_total (similarity m) (similarity y)) as [H|H];
        [exact H|congruence].
Qed.

Lemma sorted_desc_sorted (l : list (CandidateMatch num)) :
  StronglySorted desc (sorted_desc l).
Proof.
  induction l as [|m l IH]; simpl.
  - constructor.
  - apply insert_desc_sorted, IH.
Qed.

(** Stability: the matches of one key keep their order. *)
Lemma insert_desc_filter (k : num) (m : CandidateMatch num)
      (l : list (CandidateMatch num)) :
  filter (fun x => same_key k (similarity x)) (insert_desc m l) =
  filter (fun x => same_key k (similarity x)) (m :: l).
Proof.
  induction l as [|y ys IH]; [reflexivity|].
  simpl insert_desc.
  destruct (num_leb (similarity y) (similarity m)) eqn:Hle; [reflexivity|].
  simpl in *. rewrite IH.
  destruct (same_key k (similarity m)) eqn:Hm;
    destruct (same_key k (similarity y)) eqn:Hy; try reflexivity.
  exfalso. unfold same_key in Hm, Hy.
  apply andb_true_iff in Hm, Hy. destruct Hm as [Hkm _], Hy as [_ Hyk].
  rewrite (num_leb_trans _ _ _ Hyk Hkm) in Hle. discriminate.
Qed.

Lemma sorted_desc_stable (k : num) (l : list (CandidateMatch num)) :
  filter (fun x => same_key k (similarity x)) (sorted_desc l) =
  filter (fun x => same_key k (similarity x)) l.
Proof.
  induction l as [|m l IH]; [reflexivity|].
  simpl sorted_desc. rewrite insert_desc_filter. simpl. rewrite IH. reflexivity.
Qed.
End SortFacts.

(** ** The corpus *)

Section CorpusFacts.
Context {num : Type} {E : Env num}.

Lemma truthy_iff (o : option (list num)) :
  truthy o = true <-> exists e, o = Some e /\ e <> [].
Proof.
  split.
  - destruct o as [[|x xs]|]; simpl; try discriminate.
    intros _. exists (x :: xs). split; [reflexivity|discriminate].
  - intros (e & -> & He). destruct e; [contradiction|reflexivity].
Qed.

Lemma In_embedded (d : Corpus num) (a : string) (book : BookRecord num) :
  In (a, book) (embedded d) <->
  exists books, In (a, books) d /\ In book books /\
                truthy (book_embedding book) = true.
Proof.
  unfold embedded, embedded_books. rewrite in_flat_map. split.
  - intros ([a' books] & Hd & Hin). simpl in Hin.
    apply in_map_iff in Hin. destruct Hin as (b & [= <- <-] & Hb).
    apply filter_In in Hb. exists books. tauto.
  - intros (books & Hd & Hb & Ht). exists (a, books). split; [exact Hd|].
    simpl. apply in_map. apply filter_In. tauto.
Qed.

Lemma filter_length_le {A : Type} (f : A -> bool) (l : list A) :
  List.length (filter f l) <= List.length l.
Proof.
  induction l as [|x xs IH]; simpl; [lia|].
  destruct (f x); simpl; lia.
Qed.

Lemma embedded_length (d : Corpus num) :
  List.length (embedded d) <= List.length (book_records d).
Proof.
  unfold embedded, book_records, embedded_books.
  induction d as [|[a books] rest IH]; simpl; [lia|].
  rewrite !length_app, length_map.
  pose proof (filter_length_le (fun b => truthy (book_embedding b)) books). lia.
Qed.

Lemma scored_length (q : list num) (d : Corpus num) :
  List.length (scored q d) = List.length (embedded d).
Proof. apply length_map. Qed.

Lemma candidates_length (q : list num) (d : Corpus num) (im : Z) :
  List.length (candidates q d im) <= List.length (book_records d).
Proof.
  unfold candidates.
  pose proof (py_slice_to_length im (sorted_desc (scored q d))).
  rewrite sorted_desc_length, scored_length in H.
  pose proof (embedded_length d). lia.
Qed.

(** Every candidate was built from a record that carries an embedding. *)
Lemma candidates_origin (q : list num) (d : Corpus num) (im : Z)
      (c : CandidateMatch num) :
  In c (candidates q d im) ->
  exists a books book e,
    In (a, books) d /\ In book books /\
    book_embedding book = Some e /\ e <> [] /\
    c = make_match a book (cosine_similarity q e).
Proof.
  unfold candidates, scored. intros Hc.
  apply py_slice_to_In in Hc.
  apply (proj1 (sorted_desc_In _ _)), in_map_iff in Hc.
  destruct Hc as ([a book] & <- & Hab).
  apply In_embedded in Hab. destruct Hab as (books & Hd & Hb & Ht).
  apply truthy_iff in Ht. destruct Ht as (e & He & Hne).
  exists a, books, book, e. unfold score_record. simpl. rewrite He. simpl. auto.
Qed.

(** Every record that carries an embedding is scored and appended. *)
Lemma embedded_record_scored (q : list num) (d : Corpus num)
      (a : string) (books : list (BookRecord num)) (book : BookRecord num)
      (e : list num) :
  In (a, books) d -> In book books ->
  book_embedding book = Some e -> e <> [] ->
  In (SimilarityCall q e) (similarity_calls q d) /\
  In (make_match a book (cosine_similarity q e)) (scored q d).
Proof.
  intros Hd Hb He Hne.
  assert (Hab : In (a, book) (embedded d)).
  { apply In_embedded. exists books. repeat split; try assumption.
    apply truthy_iff. exists e. auto. }
  split.
  - unfold similarity_calls.
    apply (in_map (fun ab => SimilarityCall q (np_array (book_embedding (snd ab)))))
      in Hab.
    simpl in Hab. rewrite He in Hab. exact Hab.
  - unfold scored. apply (in_map (score_record q)) in Hab.
    unfold score_record in Hab at 1. simpl in Hab. rewrite He in Hab. exact Hab.
Qed.

Lemma scored_no_relevance_score (q : list num) (d : Corpus num) :
  Forall (fun m => relevance_score m = None) (scored q d).
Proof.
  unfold scored. apply Forall_forall. intros m Hm.
  apply in_map_iff in Hm. destruct Hm as (ab & <- & _). reflexivity.
Qed.
End CorpusFacts.

(** ** Properties of the pipeline *)

Section Pipeline.
Context {num : Type} {E : Env num}.

Lemma In_map_Some {A B : Type} (f : A -> option B) (out : list B) (l : list A) (m : B) :
  map Some out = map f l -> In m out -> exists x, In x l /\ f x = Some m.
Proof.
  intros Hmap Hm.
  assert (H : In (Some m) (map f l)) by (rewrite <- Hmap; apply in_map, Hm).
  apply in_map_iff in H. destruct H as (x & Hx & Hin). exists x. auto.
Qed.

(** Whatever the reranker answers, a returned entry is one of the
    candidates, up to its [relevance_score]. *)
Lemma rerank_results_origin (query : string) (results : list (CandidateMatch num))
      (top_n : Z) (out : list (CandidateMatch num)) (m : CandidateMatch num) :
  result (rerank_results query results top_n) = Return out ->
  In m out ->
  exists c, In c results /\ same_book c m.
Proof.
  intros Hres Hm.
  destruct (rerank_api query (map description results) top_n) as [rr|message|b] eqn:H.
  - destruct (named_positions_cases results rr) as [Hnone|[refs Hrefs]].
    + rewrite (rerank_results_index_error _ _ _ _ H Hnone) in Hres. discriminate.
    + destruct (rerank_results_success _ _ _ _ _ H Hrefs) as (out' & Hrun & Hmap).
      rewrite Hrun in Hres. injection Hres as ->.
      destruct (In_map_Some _ _ _ _ Hmap Hm) as (r & _ & Hr).
      destruct (assign_scores_same_book _ _ _ _ Hr) as (c & Hc & Hsame).
      exists c. split; [eapply nth_error_In, Hc|exact Hsame].
  - destruct (markup_ok (rerank_failure_text message)) eqn:Hp.
    + rewrite (rerank_results_fallback _ _ _ _ H Hp) in Hres. injection Hres as <-.
      exists m. split; [eapply py_slice_to_In, Hm|apply same_book_refl].
    + rewrite (rerank_results_unprinted _ _ _ _ H Hp) in Hres. discriminate.
  - rewrite (rerank_results_misshapen _ _ _ _ H) in Hres. discriminate.
Qed.

(** C3, as amended: when the request for the query embedding ends in a
    [RequestException] and the text of the failure is printed,
    [search_embeddings] returns the empty list; the embedding request is
    the only call it makes, so no similarity is evaluated and the reranker
    is not contacted. A malformed answer is not such a failure: with a
    status 2xx and a body of another shape, what the read of line 48
    raises leaves [search_embeddings], and so does [MarkupError] when rich
    cannot render the text of the failure. The embedding request is the
    only call in these cases too. *)
Theorem embedding_failure_returns_empty
        (text filename : string) (top_n initial_matches : Z)
        (data : option (Corpus num)) :
  result (load_books filename) = Return data ->
  (forall message,
     embeddings_api text retrieval_query = RequestFailed message ->
     (embedding_failure_printed text message ->
      search_embeddings text filename top_n initial_matches =
      ([EmbeddingCall text retrieval_query], Return [])) /\
     (markup_ok (embedding_failure_text text message) = false ->
      search_embeddings text filename top_n initial_matches =
      ([EmbeddingCall text retrieval_query], Raise MarkupError))) /\
  (forall b,
     embeddings_api text retrieval_query = Misshapen b ->
     search_embeddings text filename top_n initial_matches =
     ([EmbeddingCall text retrieval_query], Raise (body_exn b))) /\
  ((forall q, embeddings_api text retrieval_query <> Answered q) ->
   (forall x y, ~ In (SimilarityCall x y)
                     (trace (search_embeddings text filename top_n initial_matches))) /\
   (forall query documents n, ~ In (RerankCall query documents n)
                     (trace (search_embeddings text filename top_n initial_matches)))).
Proof.
  intros Hd. split; [|split].
  - intros message Hq. split; intros Hm.
    + apply (search_embeddings_no_embedding _ _ _ _ data Hd).
      rewrite (generate_embedding_failed _ _ _ Hq Hm). reflexivity.
    + apply (search_embeddings_embedding_raises _ _ _ _ data _ Hd).
      rewrite (generate_embedding_unprinted _ _ _ Hq Hm). reflexivity.
  - intros b Hq.
    apply (search_embeddings_embedding_raises _ _ _ _ data _ Hd).
    rewrite (generate_embedding_misshapen _ _ _ Hq). reflexivity.
  - intros Hq.
    assert (Ht : trace (search_embeddings text filename top_n initial_matches) =
                 [EmbeddingCall text retrieval_query]).
    { destruct (embeddings_api text retrieval_query) as [q|message|b] eqn:Ha.
      - exfalso. apply (Hq q). reflexivity.
      - destruct (markup_ok (embedding_failure_text text message)) eqn:Hm.
        + rewrite (search_embeddings_no_embedding _ _ _ _ data Hd); [reflexivity|].
          rewrite (generate_embedding_failed _ _ _ Ha Hm). reflexivity.
        + rewrite (search_embeddings_embedding_raises _ _ _ _ data MarkupError Hd);
            [reflexivity|].
          rewrite (generate_embedding_unprinted _ _ _ Ha Hm). reflexivity.
      - rewrite (search_embeddings_embedding_raises _ _ _ _ data (body_exn b) Hd);
          [reflexivity|].
        rewrite (generate_embedding_misshapen _ _ _ Ha). reflexivity. }
    rewrite Ht. split; intros; intros [Hc|[]]; discriminate.
Qed.

(** C10, as amended: when the corpus file does not exist and the query
    embedding is obtained, [search_embeddings] returns no list: after the
    embedding request, iterating over the missing corpus raises
    [AttributeError]. When the embedding request fails as well, the empty
    list is returned before the corpus is looked at. The texts that
    [load_books] and [generate_embedding] print are texts that rich
    renders. *)
Theorem missing_corpus_file
        (text filename : string) (top_n initial_matches : Z) :
  books_on_disk filename = None ->
  markup_ok (missing_text filename) = true ->
  result (load_books filename) = Return None /\
  (forall q, embeddings_api text retrieval_query = Answered q ->
     search_embeddings text filename top_n initial_matches =
     ([EmbeddingCall text retrieval_query], Raise AttributeError)) /\
  (forall message,
     embeddings_api text retrieval_query = RequestFailed message ->
     embedding_failure_printed text message ->
     search_embeddings text filename top_n initial_matches =
     ([EmbeddingCall text retrieval_query], Return [])).
Proof.
  intros Hd Hm.
  assert (Hl : result (load_books filename) = Return None)
    by (apply load_books_missing; auto).
  split; [exact Hl|split].
  - intros q Hq. apply (search_embeddings_no_file _ _ _ _ q); assumption.
  - intros message Hq Hp.
    apply (search_embeddings_no_embedding _ _ _ _ None Hl).
    rewrite (generate_embedding_failed _ _ _ Hq Hp). reflexivity.
Qed.

(** C4, as amended: on a corpus without scorable records (no authors, or
    no record with an embedding) and for a query that is embedded, no
    similarity is evaluated, but the reranker is still contacted, once,
    with an empty list of documents. [search_embeddings] returns the empty
    list when that request fails and the failure is printed, and when it
    answers an empty ranking; it raises [IndexError] when the answer names
    an index, and what the read raises when the body has another shape.
    When the request for the query embedding fails and the failure is
    printed, the empty list is returned and the reranker is not
    contacted. *)
Theorem empty_corpus_still_reranks
        (text filename : string) (top_n initial_matches : Z)
        (d : Corpus num) :
  result (load_books filename) = Return (Some d) ->
  embedded d = [] ->
  (forall q,
     embeddings_api text retrieval_query = Answered q ->
     trace (search_embeddings text filename top_n initial_matches) =
       [EmbeddingCall text retrieval_query; RerankCall text [] top_n] /\
     (forall message,
        rerank_api text [] top_n = RequestFailed message ->
        rerank_failure_printed message ->
        result (search_embeddings text filename top_n initial_matches) = Return []) /\
     (rerank_api text [] top_n = Answered [] ->
      result (search_embeddings text filename top_n initial_matches) = Return []) /\
     (forall item rest,
        rerank_api text [] top_n = Answered (item :: rest) ->
        result (search_embeddings text filename top_n initial_matches) =
        Raise IndexError) /\
     (forall b,
        rerank_api text [] top_n = Misshapen b ->
        result (search_embeddings text filename top_n initial_matches) =
        Raise (body_exn b))) /\
  (forall message,
     embeddings_api text retrieval_query = RequestFailed message ->
     embedding_failure_printed text message ->
     search_embeddings text filename top_n initial_matches =
     ([EmbeddingCall text retrieval_query], Return [])).
Proof.
  intros Hd Hempty. split.
  - intros q Hq.
    assert (Hs : scan_succeeds q d) by (unfold scan_succeeds; rewrite Hempty; constructor).
    rewrite (search_embeddings_run _ _ _ _ _ _ Hd Hq Hs).
    assert (Hc : candidates q d initial_matches = []).
    { unfold candidates, scored. rewrite Hempty. apply py_slice_to_nil. }
    unfold similarity_calls. rewrite Hc, Hempty.
    unfold trace at 1, result at 1 2 3 4. simpl.
    split; [|split; [|split; [|split]]].
    + rewrite rerank_results_trace. reflexivity.
    + intros message H Hm.
      rewrite (rerank_results_fallback text [] top_n message H Hm).
      simpl. rewrite py_slice_to_nil. reflexivity.
    + intros H. unfold rerank_results. simpl map. rewrite H. reflexivity.
    + intros item rest H. unfold rerank_results. simpl map. rewrite H. simpl.
      unfold getitem_ref. destruct (index item); reflexivity.
    + intros b H. rewrite (rerank_results_misshapen text [] top_n b H). reflexivity.
  - intros message Hq Hp.
    apply (search_embeddings_no_embedding _ _ _ _ (Some d) Hd).
    rewrite (generate_embedding_failed _ _ _ Hq Hp). reflexivity.
Qed.

(** C2, as amended: when the query is embedded, every similarity is
    evaluated and the reranking request ends in a [RequestException] whose
    text is printed, [search_embeddings] returns [ranking[:initial_matches][:top_n]],
    where [ranking] holds the matches of all scored records, sorted by
    decreasing similarity, matches of one similarity in the order of the
    corpus (for a comparison of similarities that is total and
    transitive); these are the first [top_n] of the first [initial_matches]
    entries when the two numbers are not negative; no entry carries a
    [relevance_score]; and the result is not empty when the two numbers are
    positive and the corpus holds a scorable record. A reranking request
    that is answered with status 2xx and a body of another shape is no
    such failure: what the read raises leaves [search_embeddings] after
    the reranking call, and no list is returned. *)
Theorem rerank_failure_falls_back
        (text filename : string) (top_n initial_matches : Z)
        (d : Corpus num) (q : list num) :
  result (load_books filename) = Return (Some d) ->
  embeddings_api text retrieval_query = Answered q ->
  scan_succeeds q d ->
  (forall message,
     rerank_api text (map description (candidates q d initial_matches)) top_n =
       RequestFailed message ->
     rerank_failure_printed message ->
     exists ranking out,
       result (search_embeddings text filename top_n initial_matches) = Return out /\
       Permutation ranking (scored q d) /\
       ((forall x y : num, num_leb x y = true \/ num_leb y x = true) ->
        (forall x y z : num,
            num_leb x y = true -> num_leb y z = true -> num_leb x z = true) ->
        StronglySorted desc ranking /\
        (forall k,
            filter (fun m => same_key k (similarity m)) ranking =
            filter (fun m => same_key k (similarity m)) (scored q d))) /\
       out = py_slice_to top_n (py_slice_to initial_matches ranking) /\
       ((0 <= top_n)%Z -> (0 <= initial_matches)%Z ->
        out = firstn (Z.to_nat top_n) (firstn (Z.to_nat initial_matches) ranking)) /\
       Forall (fun m => relevance_score m = None) out /\
       ((0 < top_n)%Z -> (0 < initial_matches)%Z -> embedded d <> [] -> out <> [])) /\
  (forall b,
     rerank_api text (map description (candidates q d initial_matches)) top_n =
       Misshapen b ->
     search_embeddings text filename top_n initial_matches =
     (EmbeddingCall text retrieval_query ::
        similarity_calls q d ++
        [RerankCall text (map description (candidates q d initial_matches)) top_n],
      Raise (body_exn b))).
Proof.
  intros Hd Hq Hs. split.
  - intros message Hrr Hm.
    exists (sorted_desc (scored q d)),
           (py_slice_to top_n (candidates q d initial_matches)).
    split; [|split; [|split; [|split; [|split; [|split]]]]].
    + rewrite (search_embeddings_run _ _ _ _ _ _ Hd Hq Hs).
      rewrite (rerank_results_fallback _ _ _ _ Hrr Hm). reflexivity.
    + apply sorted_desc_perm.
    + intros Htotal Htrans. split.
      * apply sorted_desc_sorted; assumption.
      * intros k. apply sorted_desc_stable; assumption.
    + reflexivity.
    + intros Htop Him. unfold candidates.
      rewrite !py_slice_to_nonneg by lia. reflexivity.
    + apply Forall_forall. intros m Hin.
      unfold candidates in Hin.
      apply py_slice_to_In, py_slice_to_In in Hin.
      apply (proj1 (sorted_desc_In _ _)) in Hin.
      pose proof (scored_no_relevance_score q d) as Hall.
      rewrite Forall_forall in Hall. apply Hall, Hin.
    + intros Htop Him Hne Hout.
      apply (f_equal (@List.length _)) in Hout. simpl in Hout.
      unfold candidates in Hout.
      rewrite !py_slice_to_nonneg, !length_firstn in Hout by lia.
      rewrite sorted_desc_length, scored_length in Hout.
      destruct (embedded d); [contradiction|simpl in Hout; lia].
  - intros b Hrr.
    rewrite (search_embeddings_run _ _ _ _ _ _ Hd Hq Hs).
    rewrite (rerank_results_misshapen _ _ _ _ Hrr). reflexivity.
Qed.

(** C5: on every path that returns a list, each returned entry was built
    from a book record of the corpus whose [embedding] is a non-empty
    vector; a record whose [embedding] is null is the origin of no
    entry. *)
Theorem null_embedding_never_returned
        (text filename : string) (top_n initial_matches : Z)
        (out : list (CandidateMatch num)) (m : CandidateMatch num) :
  result (search_embeddings text filename top_n initial_matches) = Return out ->
  In m out ->
  exists d q a books book e,
    books_on_disk filename = Some d /\
    embeddings_api text retrieval_query = Answered q /\
    In (a, books) d /\ In book books /\
    book_embedding book = Some e /\ e <> [] /\
    same_book (make_match a book (cosine_similarity q e)) m.
Proof.
  intros Hres Hm.
  destruct (search_embeddings_returns _ _ _ _ _ Hres)
    as [->|(d & q & Hd & Hq & _ & Hrr)]; [contradiction|].
  destruct (rerank_results_origin _ _ _ _ _ Hrr Hm) as (c & Hc & Hsame).
  destruct (candidates_origin _ _ _ _ Hc)
    as (a & books & book & e & Hab & Hb & He & Hne & ->).
  exists d, q, a, books, book, e. auto 10.
Qed.


Lemma NoDup_named_positions (results : list (CandidateMatch num))
      (rr : list (RankInfo num)) (refs : list nat) :
  map Some refs = named_positions results rr ->
  NoDup (named_positions results rr) -> NoDup refs.
Proof.
  intros Hrefs Hnd. rewrite <- Hrefs in Hnd.
  apply NoDup_map_inv in Hnd. exact Hnd.
Qed.


Lemma py_position_index {A : Type} (l : list A) (i : Z) :
  (0 <= i < Z.of_nat (List.length l))%Z -> py_position l i = Some (Z.to_nat i).
Proof.
  intros H. unfold py_position.
  destruct (0 <=? i)%Z eqn:H0; [|apply Z.leb_gt in H0; lia].
  destruct (i <? Z.of_nat (List.length l))%Z eqn:H1; [reflexivity|].
  apply Z.ltb_ge in H1. lia.
Qed.

(** An answer within the contract names positions that exist, none of them
    twice. *)
Lemma conforming_positions (results : list (CandidateMatch num)) (top_n : Z)
      (rr : list (RankInfo num)) :
  conforming results top_n rr ->
  ~ In None (named_positions results rr) /\ NoDup (named_positions results rr).
Proof.
  intros (_ & Hrange & Hnd). unfold named_positions.
  induction rr as [|item rest IH]; simpl.
  - split; [intros []|constructor].
  - inversion Hrange as [|? ? Hi Hrest]; subst.
    inversion Hnd as [|? ? Hnotin Hnd']; subst.
    destruct (IH Hrest Hnd') as [IH1 IH2].
    rewrite (py_position_index _ _ Hi). split.
    + intros [H|H]; [discriminate|contradiction].
    + constructor; [|exact IH2].
      intros Hin. apply in_map_iff in Hin. destruct Hin as (item' & Heq & Hin').
      rewrite Forall_forall in Hrest. pose proof (Hrest _ Hin') as Hi'.
      rewrite (py_position_index _ _ Hi') in Heq. injection Heq as Heq.
      apply Hnotin. apply in_map_iff. exists item'. split; [lia|exact Hin'].
Qed.


(** C7: for [top_n = 5] and a reranker that answers within its contract, a
    list that [search_embeddings] returns has at most 5 entries and at most
    as many entries as the corpus has book records, whether the reranking
    request is answered or fails. *)
Theorem result_length
        (text filename : string) (initial_matches : Z)
        (d : Corpus num) (out : list (CandidateMatch num)) :
  books_on_disk filename = Some d ->
  (forall q rr,
     embeddings_api text retrieval_query = Answered q ->
     rerank_api text (map description (candidates q d initial_matches)) 5 =
       Answered rr ->
     conforming (candidates q d initial_matches) 5 rr) ->
  result (search_embeddings text filename 5 initial_matches) = Return out ->
  List.length out <= 5 /\ List.length out <= List.length (book_records d).
Proof.
  intros Hd Hcontract Hres.
  destruct (search_embeddings_returns _ _ _ _ _ Hres)
    as [->|(d' & q & Hd' & Hq & _ & Hrun)]; [simpl; lia|].
  rewrite Hd in Hd'. injection Hd' as <-.
  pose proof (candidates_length q d initial_matches) as Hcl.
  destruct (rerank_api text (map description (candidates q d initial_matches)) 5)
    as [rr|message|b] eqn:Hrr.
  - pose proof (Hcontract q rr Hq Hrr) as Hconf.
    destruct (conforming_positions _ _ _ Hconf) as [Hall Hnd].
    destruct (named_positions_cases (candidates q d initial_matches) rr)
      as [Hnone|[refs Hrefs]]; [contradiction|].
    destruct (rerank_results_success _ _ _ _ _ Hrr Hrefs) as (out' & Hrun' & Hmap).
    rewrite Hrun' in Hrun. injection Hrun as ->.
    destruct (named_positions_lt _ _ _ Hrefs) as [Hlt Hlen].
    apply (f_equal (@List.length _)) in Hmap. rewrite !length_map in Hmap.
    pose proof (NoDup_positions_length refs _
                  (NoDup_named_positions _ _ _ Hrefs Hnd) Hlt).
    destruct Hconf as (Htop & _). lia.
  - destruct (markup_ok (rerank_failure_text message)) eqn:Hm.
    + rewrite (rerank_results_fallback _ _ _ _ Hrr Hm) in Hrun.
      injection Hrun as <-.
      pose proof (py_slice_to_length 5 (candidates q d initial_matches)).
      pose proof (py_slice_to_length_le 5 (candidates q d initial_matches)).
      lia.
    + rewrite (rerank_results_unprinted _ _ _ _ Hrr Hm) in Hrun. discriminate.
  - rewrite (rerank_results_misshapen _ _ _ _ Hrr) in Hrun. discriminate.
Qed.
End Pipeline.

Section SimilarityEngine.
Context {num : Type} {E : Env num}.

(** C6: on a comparison of similarities that is total and transitive, and
    when [cosine_similarity] returns a value for every stored vector, the
    scoring loops evaluate the similarity of every record that carries an
    embedding and append one match for it, in iteration order; the matches
    are then sorted by decreasing similarity, matches of one similarity
    keeping their order; the sorted list is cut to its first
    [initial_matches] entries (10 by default), and that list is what
    [rerank_results] receives. *)
Theorem similarity_engine
        (text filename : string) (top_n initial_matches : Z)
        (d : Corpus num) (q : list num) :
  (forall x y : num, num_leb x y = true \/ num_leb y x = true) ->
  (forall x y z : num,
      num_leb x y = true -> num_leb y z = true -> num_leb x z = true) ->
  result (load_books filename) = Return (Some d) ->
  embeddings_api text retrieval_query = Answered q ->
  scan_succeeds q d ->
  (0 <= initial_matches)%Z ->
  scan_corpus q d [] = (similarity_calls q d, Return (scored q d)) /\
  (forall a books book e,
      In (a, books) d -> In book books ->
      book_embedding book = Some e -> e <> [] ->
      In (SimilarityCall q e) (similarity_calls q d) /\
      In (make_match a book (cosine_similarity q e)) (scored q d)) /\
  Permutation (sorted_desc (scored q d)) (scored q d) /\
  StronglySorted desc (sorted_desc (scored q d)) /\
  (forall k,
      filter (fun m => same_key k (similarity m)) (sorted_desc (scored q d)) =
      filter (fun m => same_key k (similarity m)) (scored q d)) /\
  candidates q d initial_matches =
    firstn (Z.to_nat initial_matches) (sorted_desc (scored q d)) /\
  search_embeddings text filename top_n initial_matches =
    (EmbeddingCall text retrieval_query ::
       similarity_calls q d ++
       [RerankCall text (map description (candidates q d initial_matches)) top_n],
     result (rerank_results text (candidates q d initial_matches) top_n)) /\
  default_initial_matches = 10%Z.
Proof.
  intros Htotal Htrans Hd Hq Hs Him.
  split; [apply (scan_corpus_spec q d Hs [])|].
  split; [intros a books book e; apply embedded_record_scored|].
  split; [apply sorted_desc_perm|].
  split; [apply sorted_desc_sorted; assumption|].
  split; [intros k; apply sorted_desc_stable; assumption|].
  split; [unfold candidates; apply py_slice_to_nonneg; exact Him|].
  split; [|reflexivity].
  rewrite (search_embeddings_run _ _ _ _ _ _ Hd Hq Hs), rerank_results_trace.
  reflexivity.
Qed.
End SimilarityEngine.

(** ** The cosine formula *)

Section Cosine.
Local Open Scope R_scope.

Lemma dot_comm (x : list R) : forall y, dot x y = dot y x.
Proof.
  induction x as [|a x IH]; intros [|b y]; simpl; try reflexivity.
  rewrite IH. ring.
Qed.

Lemma dot_self_nonneg (x : list R) : 0 <= dot x x.
Proof.
  induction x as [|a x IH]; simpl; [lra|]. nra.
Qed.

(** Cauchy-Schwarz, also for vectors of different lengths, where [dot]
    stops at the shorter one. *)
Lemma dot_square_le (x : list R) :
  forall y, dot x y * dot x y <= dot x x * dot y y.
Proof.
  induction x as [|a x IH]; intros [|b y]; simpl; try lra.
  specialize (IH y).
  pose proof (dot_self_nonneg x) as HA.
  pose proof (dot_self_nonneg y) as HB.
  set (S := dot x y) in *. set (A := dot x x) in *. set (B := dot y y) in *.
  assert (Hmix : 2 * (a * b * S) <= a * a * B + b * b * A).
  { destruct (Req_dec A 0) as [HA0|HA0].
    - assert (HS : S = 0) by nra. rewrite HS, HA0. nra.
    - assert (0 < A) by lra.
      assert (0 <= A * (a * a * B + b * b * A - 2 * (a * b * S))).
      { pose proof (Rle_0_sqr (a * S - b * A)) as Hsq. unfold Rsqr in Hsq.
        nra. }
      nra. }
  nra.
Qed.

Lemma norm_nonneg (x : list R) : 0 <= norm x.
Proof. apply sqrt_pos. Qed.

Lemma norm_square (x : list R) : norm x * norm x = dot x x.
Proof. apply sqrt_sqrt, dot_self_nonneg. Qed.

Lemma cosine_formula_sym (q p : list R) :
  cosine_formula q p = cosine_formula p q.
Proof.
  unfold cosine_formula. rewrite (dot_comm q p), (Rmult_comm (norm q)).
  reflexivity.
Qed.

Lemma cosine_formula_bounds (q p : list R) :
  norm q <> 0 -> norm p <> 0 -> -1 <= cosine_formula q p <= 1.
Proof.
  intros Hq Hp. unfold cosine_formula.
  pose proof (norm_nonneg q) as Hq0. pose proof (norm_nonneg p) as Hp0.
  pose proof (dot_square_le q p) as Hcs.
  rewrite <- (norm_square q), <- (norm_square p) in Hcs.
  set (N := norm q * norm p) in *.
  assert (HN : 0 < N) by (unfold N; apply Rmult_lt_0_compat; lra).
  assert (Hle : dot q p <= N /\ - N <= dot q p).
  { replace (norm q * norm q * (norm p * norm p)) with (N * N) in Hcs
      by (unfold N; ring).
    split; nra. }
  unfold Rdiv.
  pose proof (Rinv_0_lt_compat N HN) as Hi.
  assert (HiN : N * / N = 1) by (apply Rinv_r; lra).
  set (i := / N) in *.
  destruct Hle as [Hle1 Hle2].
  split.
  - assert (- N * i <= dot q p * i) by (apply Rmult_le_compat_r; lra). lra.
  - assert (dot q p * i <= N * i) by (apply Rmult_le_compat_r; lra). lra.
Qed.

(** C9: for vectors [q] and [p] of the same dimension and of norm one, the
    similarity of the formula is symmetric, and the similarity of [q]
    with itself is 1. *)
Theorem cosine_formula_unit_vectors (q p : list R) :
  List.length q = List.length p ->
  norm q = 1 ->
  norm p = 1 ->
  cosine_formula q p = cosine_formula p q /\
  cosine_formula q q = 1.
Proof.
  intros _ Hq _. split; [apply cosine_formula_sym|].
  unfold cosine_formula. rewrite <- (norm_square q), Hq. field.
Qed.
End Cosine.

(** ** Vectors of norm zero *)

Section ZeroNorm.
Context {E : Env R}.
Local Open Scope R_scope.

(** C8, as amended: for a query vector and a passage vector of non-zero
    norm the value of the cosine formula, taken over the real numbers,
    lies in [[-1, 1]], while the value of the formula computed in binary64
    can be greater than 1. The program has no guard on the norm: a record is
    skipped only when its embedding is null or empty. When every similarity
    evaluation returns, every other record, one with a vector of norm zero
    included, is scored, is appended to the matches, and is returned by
    the fallback when the matches are no more than [initial_matches] and
    [top_n]. *)
Theorem zero_norm_is_not_guarded
        (text filename : string) (top_n initial_matches : Z)
        (d : Corpus R) (q : list R)
        (a : string) (books : list (BookRecord R)) (book : BookRecord R)
        (e : list R) :
  result (load_books filename) = Return (Some d) ->
  embeddings_api text retrieval_query = Answered q ->
  scan_succeeds q d ->
  In (a, books) d -> In book books ->
  book_embedding book = Some e -> e <> [] ->
  (forall x y : list R,
      norm x <> 0 -> norm y <> 0 -> -1 <= cosine_formula x y <= 1) /\
  In (SimilarityCall q e)
     (trace (search_embeddings text filename top_n initial_matches)) /\
  In (make_match a book (cosine_similarity q e)) (scored q d) /\
  (forall message,
     rerank_api text (map description (candidates q d initial_matches)) top_n =
       RequestFailed message ->
     rerank_failure_printed message ->
     (Z.of_nat (List.length (scored q d)) <= initial_matches)%Z ->
     (Z.of_nat (List.length (scored q d)) <= top_n)%Z ->
     exists out,
       result (search_embeddings text filename top_n initial_matches) = Return out /\
       In (make_match a book (cosine_similarity q e)) out) /\
  (exists v,
     PrimFloat.ltb PrimFloat.zero (binary64_dot v v) = true /\
     PrimFloat.ltb PrimFloat.one (binary64_cosine_formula v v) = true).
Proof.
  intros Hd Hq Hs Hab Hb He Hne.
  destruct (embedded_record_scored q d a books book e Hab Hb He Hne)
    as [Hcall Hin].
  split; [exact cosine_formula_bounds|].
  split; [|split; [exact Hin|split]].
  3: { exists (map binary64_of_tenths [1; 3; 3]%Z). split; vm_compute; reflexivity. }
  - rewrite (search_embeddings_run _ _ _ _ _ _ Hd Hq Hs).
    unfold trace at 1. simpl. right. apply in_or_app. left. exact Hcall.
  - intros message Hrr Hm Him Htop.
    exists (py_slice_to top_n (candidates q d initial_matches)). split.
    + rewrite (search_embeddings_run _ _ _ _ _ _ Hd Hq Hs).
      rewrite (rerank_results_fallback _ _ _ _ Hrr Hm). reflexivity.
    + unfold candidates.
      rewrite (py_slice_to_all initial_matches)
        by (rewrite sorted_desc_length; exact Him).
      rewrite py_slice_to_all by (rewrite sorted_desc_length; exact Htop).
      apply sorted_desc_In. exact Hin.
Qed.
End ZeroNorm.

(** ** Runs *)

Lemma Qle_bool_total (x y : Q) : Qle_bool x y = true \/ Qle_bool y x = true.
Proof.
  rewrite !Qle_bool_iff.
  destruct (Qlt_le_dec x y) as [H|H]; [left; apply Qlt_le_weak, H|right; exact H].
Qed.

Lemma Qle_bool_trans (x y z : Q) :
  Qle_bool x y = true -> Qle_bool y z = true -> Qle_bool x z = true.
Proof. rewrite !Qle_bool_iff. apply Qle_trans. Qed.

(** The scenario of the specification, evaluated: the reranker's order
    wins over the order of the similarities. *)
Example reversed_scenario :
  @search_embeddings Q env_reversed "q" "books.json" 5%Z 10%Z =
  ([EmbeddingCall "q" retrieval_query;
    SimilarityCall query_vector [9#10; 3#10; 3#10; 1#10]%Q;
    SimilarityCall query_vector [2#5; 4#5; 2#5; 1#5]%Q;
    RerankCall "q" ["D1"; "D2"] 5%Z],
   Return [mkMatch "Author A" "T2" "D2" "N/A" "N/A" (2#5)%Q (Some (99#100)%Q);
           mkMatch "Author A" "T1" "D1" "N/A" "N/A" (9#10)%Q (Some (1#2)%Q)]).
Proof. reflexivity. Qed.

(** The fallback on three records, one of them without an embedding. *)
Example fallback_scenario :
  @search_embeddings Q env_rerank_fails "q" "books.json" 5%Z 10%Z =
  ([EmbeddingCall "q" retrieval_query;
    SimilarityCall query_vector [2#5; 4#5; 2#5; 1#5]%Q;
    SimilarityCall query_vector [9#10; 3#10; 3#10; 1#10]%Q;
    RerankCall "q" ["D1"; "D2"] 5%Z],
   Return [mkMatch "Author B" "T1" "D1" "N/A" "N/A" (9#10)%Q None;
           mkMatch "Author A" "T2" "D2" "N/A" "N/A" (2#5)%Q None]).
Proof. reflexivity. Qed.

(** A stored vector of another length than the query vector: the scan
    stops at its evaluation. *)
Example dimension_mismatch_scenario :
  @search_embeddings Q env_dimension_mismatch "q" "books.json" 5%Z 10%Z =
  ([EmbeddingCall "q" retrieval_query;
    SimilarityCall query_vector [9#10; 3#10; 3#10; 1#10]%Q;
    SimilarityCall query_vector [3#5; 4#5]%Q],
   Raise ValueError).
Proof. reflexivity. Qed.

(** Answers outside the contract of the reranker. With [top_n = 1] and an
    answer of two entries the result has two entries; with an answer that
    names one candidate twice both entries are one object, so the first
    one carries the score that was paired with the second; with an answer
    that names an index beyond the candidates nothing is returned; and an
    answer of six entries for one candidate gives six entries. *)
Example answers_outside_contract :
  (exists m1 m2,
     result (@search_embeddings Q env_reversed "q" "books.json" 1%Z 10%Z)
     = Return [m1; m2]) /\
  (exists m1 m2,
     result (@search_embeddings Q env_same_index_twice "q" "books.json" 5%Z 10%Z)
     = Return [m1; m2] /\
     relevance_score m1 = Some (1#2)%Q) /\
  result (@search_embeddings Q env_index_out_of_range "q" "books.json" 5%Z 10%Z)
  = Raise IndexError /\
  (exists out,
     result (@search_embeddings Q env_six_entries "q" "books.json" 5%Z 10%Z)
     = Return out /\
     List.length out = 6).
Proof.
  split; [|split; [|split]].
  - eexists. eexists. reflexivity.
  - eexists. eexists. split; reflexivity.
  - reflexivity.
  - eexists. split; reflexivity.
Qed.

Lemma embedding_failure_returns_empty_witness :
  result (@load_books Q env_no_embedding "books.json") = Return (Some two_books) /\
  @embeddings_api Q env_no_embedding "dragons" retrieval_query =
    RequestFailed unauthorized /\
  @embedding_failure_printed Q env_no_embedding "dragons" unauthorized /\
  @search_embeddings Q env_no_embedding "dragons" "books.json" 5%Z 10%Z =
  ([EmbeddingCall "dragons" retrieval_query], Return []).
Proof.
  split; [reflexivity|]. split; [reflexivity|]. split; [reflexivity|].
  apply (proj1 (proj1 (@embedding_failure_returns_empty Q env_no_embedding
                         "dragons" "books.json" 5%Z 10%Z (Some two_books) eq_refl)
                      unauthorized eq_refl)).
  reflexivity.
Defined.

(** C3, as stated, fails. The request for the query embedding is answered
    with status 2xx and a body without the key [data]: [KeyError] leaves
    [search_embeddings] and nothing is returned. And the request fails for
    the query text [[/b]]: printing the failure raises [MarkupError]. *)
Lemma embedding_failure_counterexample :
  (@embeddings_api Q env_malformed_embedding "dragons" retrieval_query =
     Misshapen MissingKey /\
   @search_embeddings Q env_malformed_embedding "dragons" "books.json" 5%Z 10%Z =
   ([EmbeddingCall "dragons" retrieval_query], Raise KeyError)) /\
  (@embeddings_api Q env_no_embedding "[/b]" retrieval_query =
     RequestFailed unauthorized /\
   @search_embeddings Q env_no_embedding "[/b]" "books.json" 5%Z 10%Z =
   ([EmbeddingCall "[/b]" retrieval_query], Raise MarkupError)).
Proof. repeat split. Qed.

Lemma missing_corpus_file_witness :
  @books_on_disk Q env_no_file "books.json" = None /\
  @search_embeddings Q env_no_file "dragons" "books.json" 5%Z 10%Z =
  ([EmbeddingCall "dragons" retrieval_query], Raise AttributeError).
Proof.
  split; [reflexivity|].
  apply (proj1 (proj2 (@missing_corpus_file Q env_no_file
                         "dragons" "books.json" 5%Z 10%Z eq_refl eq_refl))
               query_vector).
  reflexivity.
Defined.

(** C10, as stated, fails: the file does not exist, the embedding request
    fails, and [search_embeddings] returns the empty list. *)
Lemma missing_corpus_file_counterexample :
  @books_on_disk Q env_no_file_no_embedding "books.json" = None /\
  @search_embeddings Q env_no_file_no_embedding "dragons" "books.json" 5%Z 10%Z =
  ([EmbeddingCall "dragons" retrieval_query], Return []).
Proof. split; reflexivity. Qed.

Lemma empty_corpus_still_reranks_witness :
  result (@load_books Q env_empty_corpus "books.json") = Return (Some []) /\
  @embeddings_api Q env_empty_corpus "dragons" retrieval_query =
    Answered query_vector /\
  embedded (@nil (string * list (BookRecord Q))) = [] /\
  trace (@search_embeddings Q env_empty_corpus "dragons" "books.json" 5%Z 10%Z) =
  [EmbeddingCall "dragons" retrieval_query; RerankCall "dragons" [] 5%Z].
Proof.
  split; [reflexivity|]. split; [reflexivity|]. split; [reflexivity|].
  apply (proj1 (@empty_corpus_still_reranks Q env_empty_corpus
                  "dragons" "books.json" 5%Z 10%Z [] eq_refl eq_refl)
               query_vector).
  reflexivity.
Defined.

(** C4, as stated, fails: on the empty corpus the reranker is contacted. *)
Lemma empty_corpus_counterexample :
  @books_on_disk Q env_empty_corpus "books.json" = Some [] /\
  In (RerankCall "dragons" [] 5%Z)
     (trace (@search_embeddings Q env_empty_corpus "dragons" "books.json" 5%Z 10%Z)).
Proof. split; [reflexivity|]. right. left. reflexivity. Qed.

Lemma scan_succeeds_three_books :
  @scan_succeeds Q env_rerank_fails query_vector three_books.
Proof. repeat constructor. Qed.


Lemma rerank_failure_falls_back_witness :
  result (@load_books Q env_rerank_fails "books.json") = Return (Some three_books) /\
  @embeddings_api Q env_rerank_fails "q" retrieval_query = Answered query_vector /\
  @rerank_api Q env_rerank_fails "q" ["D1"; "D2"] 5%Z = RequestFailed unavailable /\
  exists out,
    result (@search_embeddings Q env_rerank_fails "q" "books.json" 5%Z 10%Z)
    = Return out /\
    Forall (fun m => relevance_score m = None) out /\
    out <> [].
Proof.
  split; [reflexivity|]. split; [reflexivity|]. split; [reflexivity|].
  destruct (proj1 (@rerank_failure_falls_back Q env_rerank_fails
                     "q" "books.json" 5%Z 10%Z three_books query_vector
                     eq_refl eq_refl scan_succeeds_three_books)
                  unavailable eq_refl eq_refl)
    as (ranking & out & Hres & _ & _ & _ & _ & Hnone & Hne).
  exists out. split; [exact Hres|]. split; [exact Hnone|].
  apply Hne; [reflexivity|reflexivity|discriminate].
Defined.

(** C2, as stated, fails. The reranking request is answered with status 2xx
    and a body without the key [results]: [KeyError] leaves
    [search_embeddings], and no list is returned although the corpus holds
    scorable records. And for [top_n = 0] the fallback is the empty list
    although the corpus holds scorable records. *)
Lemma rerank_failure_counterexample :
  @embedded Q three_books <> [] /\
  (@embeddings_api Q env_malformed_rerank "q" retrieval_query =
     Answered query_vector /\
   @rerank_api Q env_malformed_rerank "q" ["D1"; "D2"] 5%Z = Misshapen MissingKey /\
   result (@search_embeddings Q env_malformed_rerank "q" "books.json" 5%Z 10%Z)
   = Raise KeyError) /\
  (@embeddings_api Q env_rerank_fails "q" retrieval_query = Answered query_vector /\
   @rerank_api Q env_rerank_fails "q" ["D1"; "D2"] 0%Z = RequestFailed unavailable /\
   result (@search_embeddings Q env_rerank_fails "q" "books.json" 0%Z 10%Z)
   = Return []).
Proof.
  split; [discriminate|]. repeat split.
Qed.

Lemma null_embedding_never_returned_witness :
  exists d q a books book e,
    @books_on_disk Q env_rerank_fails "books.json" = Some d /\
    @embeddings_api Q env_rerank_fails "q" retrieval_query = Answered q /\
    In (a, books) d /\ In book books /\
    book_embedding book = Some e /\ e <> [] /\
    same_book (make_match a book (@cosine_similarity Q env_rerank_fails q e))
              (mkMatch "Author A" "T2" "D2" "N/A" "N/A" (2#5)%Q None).
Proof.
  apply (@null_embedding_never_returned Q env_rerank_fails
           "q" "books.json" 5%Z 10%Z
           [mkMatch "Author B" "T1" "D1" "N/A" "N/A" (9#10)%Q None;
            mkMatch "Author A" "T2" "D2" "N/A" "N/A" (2#5)%Q None]).
  - reflexivity.
  - right. left. reflexivity.
Defined.

Lemma similarity_engine_witness :
  result (@load_books Q env_rerank_fails "books.json") = Return (Some three_books) /\
  @embeddings_api Q env_rerank_fails "q" retrieval_query = Answered query_vector /\
  StronglySorted (@desc Q env_rerank_fails)
    (@sorted_desc Q env_rerank_fails
       (@scored Q env_rerank_fails query_vector three_books)) /\
  @candidates Q env_rerank_fails query_vector three_books 10%Z =
  firstn 10 (@sorted_desc Q env_rerank_fails
               (@scored Q env_rerank_fails query_vector three_books)).
Proof.
  split; [reflexivity|]. split; [reflexivity|].
  destruct (@similarity_engine Q env_rerank_fails
              "q" "books.json" 5%Z 10%Z three_books query_vector
              Qle_bool_total Qle_bool_trans eq_refl eq_refl
              scan_succeeds_three_books)
    as (_ & _ & _ & Hsorted & _ & Hcut & _).
  - discriminate.
  - split; [exact Hsorted|exact Hcut].
Defined.

(** The answer of the scenario is within the contract. *)
Lemma conforming_reversed :
  conforming (@candidates Q env_reversed query_vector two_books 10%Z) 5%Z
             [mkRank 1%Z (99#100)%Q; mkRank 0%Z (1#2)%Q].
Proof.
  split; [|split].
  - vm_compute. discriminate.
  - repeat constructor; vm_compute; try discriminate; reflexivity.
  - simpl. constructor.
    + intros [H|[]]. discriminate.
    + constructor; [intros []|constructor].
Qed.


Lemma result_length_witness :
  @books_on_disk Q env_reversed "books.json" = Some two_books /\
  result (@search_embeddings Q env_reversed "q" "books.json" 5%Z 10%Z) =
    Return [mkMatch "Author A" "T2" "D2" "N/A" "N/A" (2#5)%Q (Some (99#100)%Q);
            mkMatch "Author A" "T1" "D1" "N/A" "N/A" (9#10)%Q (Some (1#2)%Q)] /\
  2 <= 5 /\ 2 <= List.length (book_records two_books).
Proof.
  split; [reflexivity|]. split; [reflexivity|].
  apply (@result_length Q env_reversed
           "q" "books.json" 10%Z two_books
           [mkMatch "Author A" "T2" "D2" "N/A" "N/A" (2#5)%Q (Some (99#100)%Q);
            mkMatch "Author A" "T1" "D1" "N/A" "N/A" (9#10)%Q (Some (1#2)%Q)]
           eq_refl).
  - intros q rr Hq Hrr.
    injection Hq as <-. injection Hrr as <-. exact conforming_reversed.
  - reflexivity.
Defined.

Section RealRuns.
Local Open Scope R_scope.

Lemma norm_1_0 : norm [1; 0] = 1.
Proof.
  unfold norm. simpl. replace (1 * 1 + (0 * 0 + 0)) with 1 by ring. apply sqrt_1.
Qed.

Lemma norm_0_1 : norm [0; 1] = 1.
Proof.
  unfold norm. simpl. replace (0 * 0 + (1 * 1 + 0)) with 1 by ring. apply sqrt_1.
Qed.

Lemma norm_0_0 : norm [0; 0] = 0.
Proof.
  unfold norm. simpl. replace (0 * 0 + (0 * 0 + 0)) with 0 by ring. apply sqrt_0.
Qed.

Lemma cosine_formula_unit_vectors_witness :
  cosine_formula [1; 0] [0; 1] = cosine_formula [0; 1] [1; 0] /\
  cosine_formula [1; 0] [1; 0] = 1.
Proof.
  apply (cosine_formula_unit_vectors [1; 0] [0; 1]).
  - reflexivity.
  - exact norm_1_0.
  - exact norm_0_1.
Defined.

Lemma scan_succeeds_zero_corpus :
  @scan_succeeds R env_zero_vector [1; 0] zero_corpus.
Proof. repeat constructor. Qed.

Lemma zero_norm_is_not_guarded_witness :
  norm [0; 0] = 0 /\
  -1 <= cosine_formula [1; 0] [0; 1] <= 1 /\
  In (make_match "Author Z" book_zero (cosine_formula [1; 0] [0; 0]))
     (@scored R env_zero_vector [1; 0] zero_corpus).
Proof.
  split; [exact norm_0_0|].
  destruct (@zero_norm_is_not_guarded env_zero_vector
              "q" "books.json" 5%Z 10%Z zero_corpus [1; 0]
              "Author Z" [book_zero] book_zero [0; 0]
              eq_refl eq_refl scan_succeeds_zero_corpus
              (or_introl eq_refl) (or_introl eq_refl) eq_refl)
    as (Hbound & _ & Hin & _).
  - discriminate.
  - split; [|exact Hin].
    apply Hbound; [rewrite norm_1_0|rewrite norm_0_1]; lra.
Defined.

(** C8, as stated, fails: a stored vector of norm zero is scored, and its
    record is returned. And the formula, computed in binary64 for the
    vector [[0.1, 0.3, 0.3]], whose norm is not zero, and itself, is
    greater than 1. *)
Lemma zero_norm_counterexample :
  (book_embedding book_zero = Some [0; 0] /\
   norm [0; 0] = 0 /\
   @search_embeddings R env_zero_vector "q" "books.json" 5%Z 10%Z =
   ([EmbeddingCall "q" retrieval_query;
     SimilarityCall [1; 0] [0; 0];
     RerankCall "q" ["D0"] 5%Z],
    Return [make_match "Author Z" book_zero (cosine_formula [1; 0] [0; 0])])) /\
  (PrimFloat.ltb PrimFloat.zero
     (binary64_dot (map binary64_of_tenths [1; 3; 3]%Z)
                   (map binary64_of_tenths [1; 3; 3]%Z)) = true /\
   PrimFloat.ltb PrimFloat.one
     (binary64_cosine_formula (map binary64_of_tenths [1; 3; 3]%Z)
                              (map binary64_of_tenths [1; 3; 3]%Z)) = true).
Proof.
  split; [|split; vm_compute; reflexivity].
  split; [reflexivity|]. split; [exact norm_0_0|]. reflexivity.
Qed.
End RealRuns.

(** ** More on reranking *)

Section RerankMore.
Context {num : Type} {E : Env num}.

Lemma set_relevance_score_twice (s s' : num) (c : CandidateMatch num) :
  set_relevance_score s (set_relevance_score s' c) = set_relevance_score s c.
Proof. reflexivity. Qed.

(** Three aligned lists: the answer, the references, the values read. *)
Lemma aligned_Forall2 {A B C : Type} (f : A -> option B) (g : B -> option C)
      (P : A -> C -> Prop) :
  forall (l : list A) (refs : list B) (out : list C),
    map Some refs = map f l ->
    map Some out = map g refs ->
    (forall a b c, In a l -> f a = Some b -> g b = Some c -> P a c) ->
    Forall2 P l out.
Proof.
  induction l as [|a l IH]; intros [|b refs] [|c out] Hrefs Hout HP;
    simpl in Hrefs, Hout; try discriminate.
  - constructor.
  - injection Hrefs as Hb Hrefs'. injection Hout as Hc Hout'.
    constructor.
    + apply (HP a b c); [left; reflexivity|symmetry; exact Hb|symmetry; exact Hc].
    + apply (IH refs out Hrefs' Hout').
      intros a' b' c' Hin. apply HP. right. exact Hin.
Qed.

(** The objects after the assignments, for any answer whose indices
    exist. *)
Lemma assign_scores_last (results : list (CandidateMatch num)) :
  forall (rr : list (RankInfo num)) (refs : list nat)
         (heap : list (CandidateMatch num)) (r : nat),
    map Some refs = named_positions results rr ->
    nth_error (assign_scores heap (combine refs rr)) r =
    match last_score results rr r with
    | Some s => option_map (set_relevance_score s) (nth_error heap r)
    | None => nth_error heap r
    end.
Proof.
  unfold named_positions.
  induction rr as [|item rest IH]; intros [|r0 refs] heap r Hrefs;
    simpl in Hrefs; try discriminate.
  - reflexivity.
  - injection Hrefs as Hr0 Hrest.
    change (assign_scores heap (combine (r0 :: refs) (item :: rest)))
      with (assign_scores
              (list_update heap r0 (set_relevance_score (rank_relevance_score item)))
              (combine refs rest)).
    rewrite (IH refs _ r Hrest). simpl last_score. rewrite <- Hr0.
    destruct (Nat.eq_dec r0 r) as [->|Hne].
    + rewrite nth_error_list_update_eq, Nat.eqb_refl.
      destruct (last_score results rest r) as [s|]; [|reflexivity].
      destruct (nth_error heap r); reflexivity.
    + rewrite nth_error_list_update_neq by exact Hne.
      apply Nat.eqb_neq in Hne. rewrite Hne.
      destruct (last_score results rest r); reflexivity.
Qed.

(** A score left on an object is the score of an item that names it. *)
Lemma last_score_item (results : list (CandidateMatch num))
      (rr : list (RankInfo num)) (r : nat) (s : num) :
  last_score results rr r = Some s ->
  exists item, In item rr /\
               py_position results (index item) = Some r /\
               s = rank_relevance_score item.
Proof.
  induction rr as [|item rest IH]; simpl; [discriminate|].
  destruct (last_score results rest r) as [s'|].
  - intros [= <-]. destruct (IH eq_refl) as (item' & Hin & Hp & Hs).
    exists item'. auto.
  - destruct (py_position results (index item)) as [r'|] eqn:Hp; [|discriminate].
    destruct (Nat.eqb r' r) eqn:Heq; [|discriminate].
    apply Nat.eqb_eq in Heq. subst r'. intros [= <-].
    exists item. auto.
Qed.

(** A position that the answer names has been assigned a score. *)
Lemma last_score_named (results : list (CandidateMatch num))
      (rr : list (RankInfo num)) (r : nat) :
  In (Some r) (named_positions results rr) ->
  exists s, last_score results rr r = Some s.
Proof.
  unfold named_positions.
  induction rr as [|item rest IH]; simpl; intros H; [contradiction|].
  destruct (last_score results rest r) as [s|] eqn:Hlast.
  - exists s. reflexivity.
  - destruct H as [H|H].
    + rewrite H, Nat.eqb_refl. eexists. reflexivity.
    + destruct (IH H) as (s & Hs). discriminate.
Qed.

(** What [rerank_results] returns for any answer whose indices exist,
    repeated or not. *)
Lemma rerank_results_last_score (query : string)
      (results : list (CandidateMatch num)) (top_n : Z)
      (rr : list (RankInfo num)) :
  rerank_api query (map description results) top_n = Answered rr ->
  ~ In None (named_positions results rr) ->
  exists out,
    rerank_results query results top_n =
    ([RerankCall query (map description results) top_n], Return out) /\
    Forall2 (fun item m =>
               exists r c s,
                 py_position results (index item) = Some r /\
                 nth_error results r = Some c /\
                 last_score results rr r = Some s /\
                 m = set_relevance_score s c)
            rr out.
Proof.
  intros Hrr Hall.
  destruct (named_positions_cases results rr) as [Hnone|[refs Hrefs]];
    [contradiction|].
  destruct (rerank_results_success _ _ _ _ _ Hrr Hrefs) as (out & Hrun & Hmap).
  exists out. split; [exact Hrun|].
  apply (aligned_Forall2 (fun item => py_position results (index item))
                         (nth_error (assign_scores results (combine refs rr)))
                         _ rr refs out Hrefs Hmap).
  intros item r m Hin Hp Hm.
  rewrite (assign_scores_last results rr refs results r Hrefs) in Hm.
  destruct (last_score_named results rr r) as (s & Hs).
  { unfold named_positions. rewrite <- Hp.
    apply (in_map (fun i => py_position results (index i))). exact Hin. }
  rewrite Hs in Hm.
  destruct (nth_error results r) as [c|] eqn:Hc; [|discriminate].
  simpl in Hm. injection Hm as <-.
  exists r, c, s. auto.
Qed.

Lemma py_position_None (results : list (CandidateMatch num)) (i : Z) :
  (Z.of_nat (List.length results) <= i \/ i < - Z.of_nat (List.length results))%Z ->
  py_position results i = None.
Proof.
  intros H. unfold py_position.
  destruct (0 <=? i)%Z eqn:H0.
  - apply Z.leb_le in H0.
    destruct (i <? Z.of_nat (List.length results))%Z eqn:H1; [|reflexivity].
    apply Z.ltb_lt in H1. lia.
  - apply Z.leb_gt in H0.
    destruct (- Z.of_nat (List.length results) <=? i)%Z eqn:H1; [|reflexivity].
    apply Z.leb_le in H1. lia.
Qed.

Lemma py_position_negative (results : list (CandidateMatch num)) (i : Z) :
  (- Z.of_nat (List.length results) <= i < 0)%Z ->
  py_position results i = Some (Z.to_nat (Z.of_nat (List.length results) + i)).
Proof.
  intros H. unfold py_position.
  destruct (0 <=? i)%Z eqn:H0; [apply Z.leb_le in H0; lia|].
  destruct (- Z.of_nat (List.length results) <=? i)%Z eqn:H1; [reflexivity|].
  apply Z.leb_gt in H1. lia.
Qed.
End RerankMore.

(** ** More on the pipeline *)

Section PipelineMore.
Context {num : Type} {E : Env num}.

Lemma StronglySorted_app_l {A : Type} (R : A -> A -> Prop) (l l' : list A) :
  StronglySorted R (l ++ l') -> StronglySorted R l.
Proof.
  induction l as [|x l IH]; simpl; intros H; [constructor|].
  inversion H as [|? ? Hs Hall]; subst.
  constructor; [apply IH, Hs|].
  apply Forall_app in Hall. tauto.
Qed.

Lemma filter_idem {A : Type} (f : A -> bool) (l : list A) :
  filter f (filter f l) = filter f l.
Proof.
  induction l as [|x l IH]; simpl; [reflexivity|].
  destruct (f x) eqn:Hx; simpl; [rewrite Hx, IH; reflexivity|exact IH].
Qed.

Lemma embedded_prune (d : Corpus num) : embedded (prune d) = embedded d.
Proof.
  unfold embedded, prune, embedded_books.
  induction d as [|[a books] rest IH]; simpl; [reflexivity|].
  rewrite filter_idem, IH. reflexivity.
Qed.

(** X1: when the reranking request is reached (the corpus is loaded, the
    query embedded, every similarity evaluated) and its answer names only
    indices that exist, whether it repeats one or not, every returned entry
    is the candidate named by its item, carrying the score of the last item
    of the answer that names that candidate: entries of a repeated index
    are one object. *)
Theorem repeated_index_last_score_wins
        (text filename : string) (top_n initial_matches : Z)
        (d : Corpus num) (q : list num) (rr : list (RankInfo num)) :
  result (load_books filename) = Return (Some d) ->
  embeddings_api text retrieval_query = Answered q ->
  scan_succeeds q d ->
  rerank_api text (map description (candidates q d initial_matches)) top_n =
    Answered rr ->
  ~ In None (named_positions (candidates q d initial_matches) rr) ->
  exists out,
    result (search_embeddings text filename top_n initial_matches) = Return out /\
    Forall2 (fun item m =>
               exists r c s,
                 py_position (candidates q d initial_matches) (index item) = Some r /\
                 nth_error (candidates q d initial_matches) r = Some c /\
                 last_score (candidates q d initial_matches) rr r = Some s /\
                 m = set_relevance_score s c)
            rr out.
Proof.
  intros Hd Hq Hs Hrr Hall.
  destruct (rerank_results_last_score _ _ _ _ Hrr Hall) as (out & Hrun & HF).
  exists out. split; [|exact HF].
  rewrite (search_embeddings_run _ _ _ _ _ _ Hd Hq Hs), Hrun. reflexivity.
Qed.

(** X2: when the reranking request is reached, an answer with an index
    [i] outside [[-len, len)], where [len] is the number of candidates,
    makes [search_embeddings] raise [IndexError] after the rerank call: no
    list is returned, not even the entries named before [i]. *)
Theorem index_out_of_range_raises
        (text filename : string) (top_n initial_matches : Z)
        (d : Corpus num) (q : list num) (rr : list (RankInfo num))
        (item : RankInfo num) :
  result (load_books filename) = Return (Some d) ->
  embeddings_api text retrieval_query = Answered q ->
  scan_succeeds q d ->
  rerank_api text (map description (candidates q d initial_matches)) top_n =
    Answered rr ->
  In item rr ->
  (Z.of_nat (List.length (candidates q d initial_matches)) <= index item \/
   index item < - Z.of_nat (List.length (candidates q d initial_matches)))%Z ->
  search_embeddings text filename top_n initial_matches =
  (EmbeddingCall text retrieval_query ::
     similarity_calls q d ++
     [RerankCall text (map description (candidates q d initial_matches)) top_n],
   Raise IndexError).
Proof.
  intros Hd Hq Hs Hrr Hin Hout.
  rewrite (search_embeddings_run _ _ _ _ _ _ Hd Hq Hs).
  rewrite (rerank_results_index_error _ _ _ _ Hrr); [reflexivity|].
  unfold named_positions. rewrite <- (py_position_None _ _ Hout).
  apply (in_map (fun i => py_position (candidates q d initial_matches) (index i))).
  exact Hin.
Qed.

(** X3: when the reranking request is reached, a negative index of the
    answer counts from the end of the candidate list, as Python indexing
    does: for [-len <= i < 0] the entry returned is the candidate at
    position [len + i], with the item's score. *)
Theorem negative_index_counts_from_end
        (text filename : string) (top_n initial_matches : Z)
        (d : Corpus num) (q : list num) (item : RankInfo num)
        (c : CandidateMatch num) :
  result (load_books filename) = Return (Some d) ->
  embeddings_api text retrieval_query = Answered q ->
  scan_succeeds q d ->
  rerank_api text (map description (candidates q d initial_matches)) top_n
    = Answered [item] ->
  (- Z.of_nat (List.length (candidates q d initial_matches)) <= index item < 0)%Z ->
  nth_error (candidates q d initial_matches)
            (Z.to_nat (Z.of_nat (List.length (candidates q d initial_matches))
                       + index item)) = Some c ->
  result (search_embeddings text filename top_n initial_matches) =
  Return [set_relevance_score (rank_relevance_score item) c].
Proof.
  intros Hd Hq Hscan Hrr Hneg Hc.
  pose proof (py_position_negative _ _ Hneg) as Hp.
  destruct (rerank_results_last_score _ _ _ _ Hrr) as (out & Hrun & HF).
  { unfold named_positions. simpl. rewrite Hp. intros [H|[]]. discriminate. }
  rewrite (search_embeddings_run _ _ _ _ _ _ Hd Hq Hscan), Hrun.
  unfold result. simpl.
  inversion HF as [|? m ? out' (r & c' & s & Hr & Hc' & Hs & Hm) HF']; subst.
  inversion HF'; subst.
  rewrite Hp in Hr. injection Hr as <-.
  rewrite Hc in Hc'. injection Hc' as <-.
  simpl in Hs. rewrite Hp, Nat.eqb_refl in Hs. injection Hs as <-.
  reflexivity.
Qed.

(** X4: when the reranking request fails and the failure is printed, the
    list returned is sorted by decreasing similarity and, when it is not
    empty, its first entry has the greatest similarity of all the scored
    records of the corpus (for a comparison of similarities that is total
    and transitive). *)
Theorem fallback_best_first
        (text filename : string) (top_n initial_matches : Z)
        (d : Corpus num) (q : list num) (message : string) :
  (forall x y : num, num_leb x y = true \/ num_leb y x = true) ->
  (forall x y z : num,
      num_leb x y = true -> num_leb y z = true -> num_leb x z = true) ->
  result (load_books filename) = Return (Some d) ->
  embeddings_api text retrieval_query = Answered q ->
  scan_succeeds q d ->
  rerank_api text (map description (candidates q d initial_matches)) top_n =
    RequestFailed message ->
  rerank_failure_printed message ->
  exists out,
    result (search_embeddings text filename top_n initial_matches) = Return out /\
    StronglySorted desc out /\
    (forall best rest m,
        out = best :: rest -> In m (scored q d) ->
        num_leb (similarity m) (similarity best) = true).
Proof.
  intros Htotal Htrans Hd Hq Hs Hrr Hprinted.
  exists (py_slice_to top_n (candidates q d initial_matches)).
  split.
  { rewrite (search_embeddings_run _ _ _ _ _ _ Hd Hq Hs).
    rewrite (rerank_results_fallback _ _ _ _ Hrr Hprinted). reflexivity. }
  pose proof (sorted_desc_sorted Htotal Htrans (scored q d)) as Hsorted.
  destruct (py_slice_to_prefix top_n (candidates q d initial_matches)) as [r1 H1].
  unfold candidates in H1 at 1.
  destruct (py_slice_to_prefix initial_matches (sorted_desc (scored q d))) as [r2 H2].
  rewrite H1 in H2. rewrite H2 in Hsorted.
  split.
  - apply StronglySorted_app_l in Hsorted. apply StronglySorted_app_l in Hsorted.
    exact Hsorted.
  - intros best rest m Hout Hm.
    rewrite Hout in Hsorted, H2. simpl in Hsorted.
    inversion Hsorted as [|? ? _ Hall]; subst.
    apply sorted_desc_In in Hm. rewrite H2 in Hm. simpl in Hm.
    destruct Hm as [<-|Hm].
    + destruct (Htotal (similarity best) (similarity best)); assumption.
    + rewrite Forall_forall in Hall. apply (Hall m Hm).
Qed.

(** X5: the records that carry no embedding have no influence on a run:
    with those records removed from the corpus file, [search_embeddings]
    makes the same calls and ends in the same outcome. *)
Theorem records_without_embedding_are_inert
        (text filename : string) (top_n initial_matches : Z) (d : Corpus num) :
  books_on_disk filename = Some d ->
  @search_embeddings num (with_books_on_disk E filename (prune d))
                     text filename top_n initial_matches =
  search_embeddings text filename top_n initial_matches.
Proof.
  intros Hd.
  unfold search_embeddings, load_books.
  cbn [books_on_disk with_books_on_disk]. rewrite String.eqb_refl, Hd.
  change (@console_print num (with_books_on_disk E filename (prune d)))
    with (@console_print num E).
  destruct (console_print (loaded_text filename)) as [t [[]|e]]; [|reflexivity].
  rewrite !bind_Return. cbn [ret trace result fst snd]. rewrite !bind_Return.
  change (@generate_embedding num (with_books_on_disk E filename (prune d)))
    with (@generate_embedding num E).
  destruct (generate_embedding text retrieval_query) as [t' [[q|]|e]];
    try reflexivity.
  cbn [trace result fst snd]. rewrite !bind_Return.
  change (@scan_corpus num (with_books_on_disk E filename (prune d)))
    with (@scan_corpus num E).
  rewrite !scan_corpus_embedded, embedded_prune. reflexivity.
Qed.


(** X19: when [cosine_similarity] raises for a stored vector, [ValueError]
    leaves [search_embeddings] at that record: the similarities of the
    scored records before it and of the record itself are the only
    evaluations made, the records after it are not looked at, no list is
    returned and the reranker is not contacted. *)
Theorem similarity_failure_stops_scan
        (text filename : string) (top_n initial_matches : Z)
        (d : Corpus num) (q : list num)
        (before after : list (string * BookRecord num))
        (ab : string * BookRecord num) :
  result (load_books filename) = Return (Some d) ->
  embeddings_api text retrieval_query = Answered q ->
  embedded d = before ++ ab :: after ->
  Forall (fun r =>
            cosine_similarity_raises q (np_array (book_embedding (snd r))) = false)
         before ->
  cosine_similarity_raises q (np_array (book_embedding (snd ab))) = true ->
  search_embeddings text filename top_n initial_matches =
  (EmbeddingCall text retrieval_query ::
     map (fun r => SimilarityCall q (np_array (book_embedding (snd r))))
         (before ++ [ab]),
   Raise ValueError) /\
  (forall query documents n,
      ~ In (RerankCall query documents n)
           (trace (search_embeddings text filename top_n initial_matches))).
Proof.
  intros Hd Hq Hsplit Hbefore Hab.
  rewrite (search_embeddings_scan_raises _ _ _ _ _ _ _ _ _ Hd Hq Hsplit Hbefore Hab).
  split; [reflexivity|].
  intros query documents n. unfold trace. cbn [fst].
  intros [Hin|Hin]; [discriminate|].
  apply in_map_iff in Hin. destruct Hin as (r & Hr & _). discriminate.
Qed.
End PipelineMore.

(** ** The main block: strings and authors *)

Section Strings.
Context {H : Host}.

Lemma lstrip_starts (s : string) : starts_with_space (lstrip s) = false.
Proof.
  induction s as [|c s IH]; simpl; [reflexivity|].
  destruct (isspace c) eqn:Hc; [exact IH|]. simpl. exact Hc.
Qed.

Lemma lstrip_fixed (s : string) : starts_with_space s = false -> lstrip s = s.
Proof.
  destruct s as [|c s]; simpl; [reflexivity|]. intros ->. reflexivity.
Qed.

Lemma rstrip_ends (s : string) : ends_with_space (rstrip s) = false.
Proof.
  induction s as [|c s IH]; simpl; [reflexivity|].
  destruct (rstrip s) as [|c' t] eqn:Hr.
  - destruct (isspace c) eqn:Hc; simpl; [reflexivity|exact Hc].
  - simpl in *. exact IH.
Qed.

Lemma rstrip_fixed (s : string) : ends_with_space s = false -> rstrip s = s.
Proof.
  induction s as [|c s IH]; simpl; [reflexivity|].
  destruct s as [|c' s'].
  - simpl. intros ->. reflexivity.
  - intros Hs. rewrite (IH Hs). reflexivity.
Qed.

Lemma rstrip_starts (s : string) :
  starts_with_space s = false -> starts_with_space (rstrip s) = false.
Proof.
  destruct s as [|c s]; simpl; [reflexivity|]. intros Hc.
  destruct (rstrip s); [rewrite Hc|]; simpl; auto.
Qed.

(** A stripped string has no whitespace at either end, and stripping it
    again changes nothing. *)
Lemma strip_ends (s : string) :
  starts_with_space (strip s) = false /\ ends_with_space (strip s) = false.
Proof.
  unfold strip. split; [apply rstrip_starts, lstrip_starts|apply rstrip_ends].
Qed.

Lemma strip_idempotent (s : string) : strip (strip s) = strip s.
Proof.
  destruct (strip_ends s) as [Hs He].
  unfold strip at 1. rewrite (lstrip_fixed _ Hs). apply rstrip_fixed, He.
Qed.

Lemma nonempty_true (s : string) : nonempty s = true <-> s <> EmptyString.
Proof.
  destruct s; simpl; split; congruence.
Qed.
End Strings.

Section Authors.
Context {num : Type} {H : Host}.

Lemma map_strip_filter (lines : list string) :
  map strip (filter (fun line => nonempty (strip line)) lines) =
  filter nonempty (map strip lines).
Proof.
  induction lines as [|line rest IH]; simpl; [reflexivity|].
  destruct (nonempty (strip line)); simpl; rewrite IH; reflexivity.
Qed.

(** X7: [load_authors] on a file that exists returns, in the order of the
    lines, the stripped text of every line that is not blank, that is the
    list of the stripped lines without the empty ones: no author returned
    is empty, none begins or ends with whitespace, stripping one again
    leaves it unchanged, and there are no more authors than lines. *)
Theorem load_authors_stripped (filename : string) (lines : list string) :
  text_lines filename = Some lines ->
  exists authors,
    @load_authors num H filename = ([], Done authors) /\
    authors = filter nonempty (map strip lines) /\
    Forall (fun a => a <> EmptyString /\
                     starts_with_space a = false /\
                     ends_with_space a = false /\
                     strip a = a) authors /\
    (forall a, In a authors <->
               exists line, In line lines /\ strip line = a /\ a <> EmptyString) /\
    List.length authors <= List.length lines.
Proof.
  intros Hl.
  exists (map strip (filter (fun line => nonempty (strip line)) lines)).
  unfold load_authors. rewrite Hl.
  split; [reflexivity|]. split; [apply map_strip_filter|]. split; [|split].
  - apply Forall_forall. intros a Ha.
    apply in_map_iff in Ha. destruct Ha as (line & <- & Hline).
    apply filter_In in Hline. destruct Hline as [_ Hne].
    apply nonempty_true in Hne.
    destruct (strip_ends line) as [Hs He].
    repeat split; try assumption. apply strip_idempotent.
  - intros a. rewrite in_map_iff. split.
    + intros (line & <- & Hline). apply filter_In in Hline.
      destruct Hline as [Hin Hne]. apply nonempty_true in Hne.
      exists line. auto.
    + intros (line & Hin & <- & Hne). exists line. split; [reflexivity|].
      apply filter_In. split; [exact Hin|]. apply nonempty_true, Hne.
  - rewrite length_map. apply filter_length_le.
Qed.
End Authors.

(** ** The main block: building the corpus *)

Section DictFacts.
Context {V : Type}.

Lemma dict_set_keys (d : list (string * V)) (k : string) (v : V) (a : string) :
  In a (map fst (dict_set d k v)) <-> In a (map fst d) \/ a = k.
Proof.
  induction d as [|[k' v'] rest IH]; simpl.
  - split.
    + intros [<-|[]]. auto.
    + intros [[]| ->]. auto.
  - destruct (String.eqb k' k) eqn:Hk; simpl.
    + apply String.eqb_eq in Hk. subst k'. split; [tauto|].
      intros [[H|H]|H]; auto.
    + rewrite IH. tauto.
Qed.

Lemma dict_set_NoDup (d : list (string * V)) (k : string) (v : V) :
  NoDup (map fst d) -> NoDup (map fst (dict_set d k v)).
Proof.
  induction d as [|[k' v'] rest IH]; simpl; intros Hnd.
  - constructor; [intros []|constructor].
  - inversion Hnd as [|? ? Hnotin Hnd']; subst.
    destruct (String.eqb k' k) eqn:Hk; simpl.
    + constructor; assumption.
    + constructor; [|apply IH, Hnd'].
      rewrite dict_set_keys. intros [Hin|Heq]; [contradiction|].
      subst k'. rewrite String.eqb_refl in Hk. discriminate.
Qed.

Lemma dict_set_In (d : list (string * V)) (k : string) (v : V)
      (a : string) (v' : V) :
  In (a, v') (dict_set d k v) -> In (a, v') d \/ (a = k /\ v' = v).
Proof.
  induction d as [|[k0 v0] rest IH]; simpl.
  - intros [[= <- <-]|[]]. auto.
  - destruct (String.eqb k0 k) eqn:Hk; simpl.
    + apply String.eqb_eq in Hk. subst k0.
      intros [[= <- <-]|Hin]; auto.
    + intros [Heq|Hin]; [auto|]. destruct (IH Hin); auto.
Qed.
End DictFacts.

Section BuildFacts.
Context {num : Type} {H : Host} {E : Env num}.

Lemma app_bind_Done {A B : Type} (t : list (app_event num)) (a : A)
      (f : A -> App num B) :
  app_bind (t, Done a) f = (t ++ app_trace (f a), app_result (f a)).
Proof.
  unfold app_bind, app_trace, app_result. destruct (f a); reflexivity.
Qed.

Lemma app_bind_result {A B : Type} (m : App num A) (f : A -> App num B) :
  app_result (app_bind m f) =
  match app_result m with
  | Done a => app_result (f a)
  | Fail e => Fail e
  end.
Proof.
  destruct m as [t [a|e]]; [|reflexivity].
  rewrite app_bind_Done. reflexivity.
Qed.

Lemma app_eta {A : Type} (m : App num A) : m = (app_trace m, app_result m).
Proof. destruct m; reflexivity. Qed.

Lemma lift_Return {A : Type} (m : M num A) (a : A) :
  result m = Return a -> lift m = (map Outside (trace m), Done a).
Proof. intros Hm. unfold lift. rewrite Hm. reflexivity. Qed.

Lemma lift_Raise {A : Type} (m : M num A) (e : exn) :
  result m = Raise e -> lift m = (map Outside (trace m), Fail (Uncaught e)).
Proof. intros Hm. unfold lift. rewrite Hm. reflexivity. Qed.

Lemma embedding_exn_not_AttributeError (e : exn) :
  embedding_exn e -> e <> AttributeError.
Proof. intros [->|[b ->]]; [|destruct b]; discriminate. Qed.

Lemma generate_embedding_exn (text : string) (task : task_type) (e : exn) :
  result (generate_embedding text task) = Raise e -> embedding_exn e.
Proof.
  unfold generate_embedding, console_print.
  destruct (embeddings_api text task) as [v|message|b]; simpl.
  - discriminate.
  - destruct (markup_ok _); simpl; [discriminate|].
    intros [= <-]. left. reflexivity.
  - intros [= <-]. right. exists b. reflexivity.
Qed.

(** The request made for a volume with a description returns to its
    caller what is stored for the volume, or raises. *)
Lemma embedding_returns_result (book : Volume) :
  String.eqb (volume_description book) "N/A" = false ->
  (embedding_returns book /\
   result (generate_embedding (volume_description book) retrieval_passage) =
   Return (embedding_for book)) \/
  (~ embedding_returns book /\
   exists e,
     result (generate_embedding (volume_description book) retrieval_passage) =
     Raise e /\ embedding_exn e).
Proof.
  intros Hd. unfold embedding_returns, embedding_for. rewrite Hd.
  unfold generate_embedding, console_print.
  destruct (embeddings_api (volume_description book) retrieval_passage)
    as [v|message|b]; simpl.
  - left. auto.
  - destruct (markup_ok _); simpl.
    + left. auto.
    + right. split; [discriminate|]. exists MarkupError. split; [reflexivity|].
      left. reflexivity.
  - right. split; [tauto|]. exists (body_exn b). split; [reflexivity|].
    right. exists b. reflexivity.
Qed.

Lemma passage_calls_build_events (books : list Volume) :
  Forall is_build_event (@passage_calls num books).
Proof.
  unfold passage_calls. apply Forall_forall. intros e He.
  apply in_map_iff in He. destruct He as (b & <- & _). exact I.
Qed.

(** The loop over the volumes: it stores one record per volume, or it
    stops at the first embedding request that raises. *)
Lemma embed_books_run (books : list Volume) :
  forall latest_books,
    (Forall embedding_returns (described books) /\
     embed_books books latest_books =
     (passage_calls books, Done (latest_books ++ map built_record books))) \/
    (~ Forall embedding_returns (described books) /\
     exists t e,
       embed_books books latest_books = (t, Fail (Uncaught e)) /\
       Forall is_build_event t /\ embedding_exn e).
Proof.
  unfold passage_calls, described.
  induction books as [|book rest IH]; intros latest_books.
  - left. split; [constructor|]. simpl. rewrite app_nil_r. reflexivity.
  - cbn [embed_books filter map].
    unfold built_record at 1, embedding_for at 1.
    destruct (String.eqb (volume_description book) "N/A") eqn:Hd; cbn [negb].
    + unfold app_ret at 1 2. rewrite !app_bind_Done.
      destruct (IH (latest_books ++ [make_book book None]))
        as [[Hall Hrun]|[Hnot (t & e & Hrun & Hev & He)]].
      * left. split; [exact Hall|]. rewrite Hrun. simpl.
        rewrite <- app_assoc. reflexivity.
      * right. split; [exact Hnot|]. exists t, e. rewrite Hrun. auto.
    + destruct (embedding_returns_result book Hd)
        as [[Hret Hres]|[Hnot (e & Hres & He)]].
      * rewrite !(lift_Return _ _ Hres), generate_embedding_trace, !app_bind_Done.
        unfold embedding_for in Hres. rewrite Hd in Hres.
        unfold embedding_for. rewrite Hd.
        destruct (IH (latest_books ++
                        [make_book book
                           match embeddings_api (volume_description book)
                                                retrieval_passage with
                           | Answered embedding => Some embedding
                           | _ => None
                           end]))
          as [[Hall Hrun]|[Hnot (t & e & Hrun & Hev & He)]].
        -- left. split; [constructor; assumption|]. rewrite Hrun.
           unfold app_trace, app_result. simpl.
           rewrite <- app_assoc. reflexivity.
        -- right. split.
           ++ intros Hall. inversion Hall; subst. contradiction.
           ++ exists (Outside (EmbeddingCall (volume_description book)
                                             retrieval_passage) :: t), e.
              rewrite Hrun. unfold app_trace, app_result. simpl.
              split; [reflexivity|]. split; [|exact He].
              constructor; [exact I|exact Hev].
      * right. split.
        -- intros Hall. inversion Hall; subst. contradiction.
        -- exists [Outside (EmbeddingCall (volume_description book)
                                          retrieval_passage)], e.
           rewrite (lift_Raise _ _ Hres), generate_embedding_trace.
           split; [reflexivity|]. split; [|exact He].
           repeat constructor.
Qed.

Lemma get_latest_books_done (author : string) (max_results : Z)
      (items : option (list Volume)) :
  google_books author max_results = Some items ->
  Forall embedding_returns (described (answer_items items)) ->
  get_latest_books_with_embeddings author max_results =
  (BooksCall author max_results :: passage_calls (answer_items items),
   Done (map built_record (answer_items items))).
Proof.
  intros Hg Hall. unfold get_latest_books_with_embeddings. rewrite Hg.
  unfold app_emit. rewrite app_bind_Done.
  change (match items with Some books => books | None => [] end)
    with (answer_items items).
  destruct (embed_books_run (answer_items items) [])
    as [[_ Hrun]|[Hnot _]]; [|contradiction].
  rewrite Hrun. reflexivity.
Qed.

Lemma get_latest_books_raises (author : string) (max_results : Z)
      (items : option (list Volume)) :
  google_books author max_results = Some items ->
  ~ Forall embedding_returns (described (answer_items items)) ->
  exists t e,
    get_latest_books_with_embeddings author max_results = (t, Fail (Uncaught e)) /\
    Forall is_build_event t /\ embedding_exn e.
Proof.
  intros Hg Hnot. unfold get_latest_books_with_embeddings. rewrite Hg.
  unfold app_emit. rewrite app_bind_Done.
  change (match items with Some books => books | None => [] end)
    with (answer_items items).
  destruct (embed_books_run (answer_items items) [])
    as [[Hall _]|[_ (t & e & Hrun & Hev & He)]]; [contradiction|].
  exists (BooksCall author max_results :: t), e. rewrite Hrun.
  split; [reflexivity|]. split; [|exact He].
  constructor; [exact I|exact Hev].
Qed.

Lemma get_latest_books_failed (author : string) (max_results : Z) :
  google_books author max_results = None ->
  get_latest_books_with_embeddings author max_results =
  ([BooksCall author max_results], Fail RequestException).
Proof.
  intros Hg. unfold get_latest_books_with_embeddings. rewrite Hg. reflexivity.
Qed.

Lemma embedding_returns_dec (books : list Volume) :
  Forall embedding_returns books \/ ~ Forall embedding_returns books.
Proof.
  induction books as [|book rest IH].
  - left. constructor.
  - assert (Hb : embedding_returns book \/ ~ embedding_returns book).
    { unfold embedding_returns.
      destruct (embeddings_api (volume_description book) retrieval_passage);
        [left; exact I| |right; tauto].
      destruct (markup_ok _); [left; reflexivity|right; discriminate]. }
    destruct Hb as [Hb|Hb], IH as [IH|IH].
    + left. constructor; assumption.
    + right. intros Hall. inversion Hall; subst. contradiction.
    + right. intros Hall. inversion Hall; subst. contradiction.
    + right. intros Hall. inversion Hall; subst. contradiction.
Qed.

(** A build that ends well. *)
Lemma build_books_data_done (authors : list string) :
  forall (data0 data : Corpus num) (t : list (app_event num)),
    build_books_data authors data0 = (t, Done data) ->
    Forall is_build_event t /\
    (forall a, In a (map fst data) <-> In a (map fst data0) \/ In a authors) /\
    (NoDup (map fst data0) -> NoDup (map fst data)) /\
    (forall a books,
        In (a, books) data ->
        In (a, books) data0 \/
        (In a authors /\
         exists items, google_books a 10%Z = Some items /\
                       books = map built_record (answer_items items))) /\
    (forall a, In a authors -> google_books a 10%Z <> None).
Proof.
  induction authors as [|a rest IH]; intros data0 data t Hrun; simpl in Hrun.
  - injection Hrun as <- <-.
    split; [constructor|]. split; [intros a'; simpl; tauto|].
    split; [tauto|]. split; [intros a' books Hin; left; exact Hin|].
    intros a' [].
  - destruct (google_books a 10%Z) as [items|] eqn:Hg.
    + destruct (embedding_returns_dec (described (answer_items items)))
        as [Hall|Hnot].
      * rewrite (get_latest_books_done _ _ _ Hg Hall), app_bind_Done in Hrun.
        destruct (build_books_data rest
                    (dict_set data0 a (map built_record (answer_items items))))
          as [t' r'] eqn:Hrest.
        unfold app_trace, app_result in Hrun. simpl in Hrun.
        injection Hrun as <- ->.
        destruct (IH _ _ _ Hrest) as (Hev & Hkeys & Hnd & Hval & Hok).
        split; [|split; [|split; [|split]]].
        -- constructor; [exact I|]. apply Forall_app. split; [|exact Hev].
           apply passage_calls_build_events.
        -- intros a'. rewrite Hkeys, dict_set_keys. simpl.
           split; intros; intuition (subst; auto).
        -- intros H0. apply Hnd, dict_set_NoDup, H0.
        -- intros a' books Hin.
           destruct (Hval a' books Hin) as [H0|(Hrestin & items' & Hg' & Hb)].
           ++ destruct (dict_set_In _ _ _ _ _ H0) as [H1|[-> ->]]; [left; exact H1|].
              right. split; [left; reflexivity|]. exists items. auto.
           ++ right. split; [right; exact Hrestin|]. exists items'. auto.
        -- intros a' [<-|Hin]; [congruence|apply Hok, Hin].
      * destruct (get_latest_books_raises _ _ _ Hg Hnot) as (t0 & e & Hget & _).
        rewrite Hget in Hrun. discriminate.
    + rewrite (get_latest_books_failed _ _ Hg) in Hrun. discriminate.
Qed.

(** A build that does not end well: a Google Books request has failed, or
    an embedding request has raised. *)
Lemma build_books_data_failed (authors : list string) :
  forall (data0 : Corpus num) (t : list (app_event num)) (e : app_exn),
    build_books_data authors data0 = (t, Fail e) ->
    Forall is_build_event t /\
    ((e = RequestException /\
      exists a, In a authors /\ google_books a 10%Z = None) \/
     (exists e', e = Uncaught e' /\ embedding_exn e' /\
      exists a items,
        In a authors /\ google_books a 10%Z = Some items /\
        ~ Forall embedding_returns (described (answer_items items)))).
Proof.
  induction authors as [|a rest IH]; intros data0 t e Hrun; simpl in Hrun.
  - discriminate.
  - destruct (google_books a 10%Z) as [items|] eqn:Hg.
    + destruct (embedding_returns_dec (described (answer_items items)))
        as [Hall|Hnot].
      * rewrite (get_latest_books_done _ _ _ Hg Hall), app_bind_Done in Hrun.
        destruct (build_books_data rest
                    (dict_set data0 a (map built_record (answer_items items))))
          as [t' r'] eqn:Hrest.
        unfold app_trace, app_result in Hrun. simpl in Hrun.
        injection Hrun as <- ->.
        destruct (IH _ _ _ Hrest) as (Hev & Hcases).
        split.
        -- constructor; [exact I|]. apply Forall_app. split; [|exact Hev].
           apply passage_calls_build_events.
        -- destruct Hcases as [(He & a' & Hin & Hnone)
                              |(e' & He & Hexn & a' & items' & Hin & Hg' & Hnot)].
           ++ left. split; [exact He|]. exists a'. split; [right; exact Hin|exact Hnone].
           ++ right. exists e'. split; [exact He|]. split; [exact Hexn|].
              exists a', items'. split; [right; exact Hin|]. auto.
      * destruct (get_latest_books_raises _ _ _ Hg Hnot) as (t0 & e0 & Hget & Hev & He).
        rewrite Hget in Hrun. simpl in Hrun. injection Hrun as <- <-.
        split; [exact Hev|]. right. exists e0. split; [reflexivity|].
        split; [exact He|]. exists a, items. split; [left; reflexivity|]. auto.
    + rewrite (get_latest_books_failed _ _ Hg) in Hrun.
      injection Hrun as <- <-.
      split; [repeat constructor|]. left. split; [reflexivity|].
      exists a. split; [left; reflexivity|exact Hg].
Qed.
End BuildFacts.

Section BuildTheorems.
Context {num : Type} {H : Host} {E : Env num}.

Lemma Forall2_map_r {A B : Type} (P : A -> B -> Prop) (f : A -> B) (l : list A) :
  (forall x, In x l -> P x (f x)) -> Forall2 P l (map f l).
Proof.
  induction l as [|x l IH]; simpl; intros HP; constructor; auto.
Qed.

Lemma embedding_for_Some (book : Volume) (e : list num) :
  embedding_for book = Some e ->
  volume_description book <> "N/A" /\
  embeddings_api (volume_description book) retrieval_passage = Answered e.
Proof.
  unfold embedding_for.
  destruct (String.eqb (volume_description book) "N/A") eqn:Hd; [discriminate|].
  apply String.eqb_neq in Hd.
  destruct (embeddings_api (volume_description book) retrieval_passage);
    try discriminate.
  intros [= ->]. auto.
Qed.

(** X8: when the Google Books request succeeds and every embedding request
    made for a volume returns to its caller,
    [get_latest_books_with_embeddings] returns one record per volume of the
    answer, in order, with the description of the volume; after the books
    request its only calls are embedding requests, one for each volume whose
    description is not ["N/A"], in order and with the task
    [retrieval.passage]; a volume without description gets a null embedding
    and costs no request, and every other volume stores what
    [generate_embedding] returned, null when the request failed. When an
    embedding request raises, no record is returned. *)
Theorem corpus_build_embeds_descriptions_only
        (author : string) (max_results : Z) (items : option (list Volume)) :
  google_books author max_results = Some items ->
  (Forall embedding_returns (described (answer_items items)) ->
   exists records,
     get_latest_books_with_embeddings author max_results =
     (BooksCall author max_results ::
        map (fun b => Outside (EmbeddingCall (volume_description b) retrieval_passage))
            (filter (fun b => negb (String.eqb (volume_description b) "N/A"))
                    (answer_items items)),
      Done records) /\
     Forall2 (fun book r =>
                book_description r = Some (volume_description book) /\
                book_title r = Some (get_or_NA (info_title (volume_info book))) /\
                (volume_description book = "N/A" -> book_embedding r = None) /\
                (volume_description book <> "N/A" ->
                 result (generate_embedding (volume_description book)
                                            retrieval_passage) =
                 Return (book_embedding r)))
             (answer_items items) records) /\
  (~ Forall embedding_returns (described (answer_items items)) ->
   exists t e,
     get_latest_books_with_embeddings author max_results = (t, Fail (Uncaught e)) /\
     (e = MarkupError \/ exists b, e = body_exn b)).
Proof.
  intros Hg. split.
  - intros Hall. exists (map built_record (answer_items items)).
    split; [apply (get_latest_books_done _ _ _ Hg Hall)|].
    apply Forall2_map_r. intros book Hin.
    unfold built_record. simpl.
    split; [reflexivity|]. split; [reflexivity|]. split.
    + intros Hna. unfold embedding_for. rewrite Hna. reflexivity.
    + intros Hne. apply String.eqb_neq in Hne.
      destruct (embedding_returns_result book Hne) as [[_ Hres]|[Hnot _]];
        [exact Hres|].
      exfalso. apply Hnot. rewrite Forall_forall in Hall. apply Hall.
      unfold described. apply filter_In. split; [exact Hin|].
      rewrite Hne. reflexivity.
  - intros Hnot.
    destruct (get_latest_books_raises _ _ _ Hg Hnot) as (t & e & Hrun & _ & He).
    exists t, e. split; [exact Hrun|exact He].
Qed.

(** X9: when the dict comprehension of the main block ends well, the keys
    of the corpus are pairwise distinct and are exactly the authors given,
    the value of each key is built from the answer of the Google Books
    request for that author with [max_results = 10], and the build has made
    no other call than Google Books requests and requests for passage
    embeddings. *)
Theorem built_corpus_keys
        (authors : list string) (data : Corpus num) (t : list (app_event num)) :
  build_books_data authors [] = (t, Done data) ->
  NoDup (map fst data) /\
  (forall a, In a (map fst data) <-> In a authors) /\
  (forall a books,
      In (a, books) data ->
      exists items, google_books a 10%Z = Some items /\
                    books = map built_record (answer_items items)) /\
  Forall is_build_event t.
Proof.
  intros Hrun.
  destruct (build_books_data_done _ _ _ _ Hrun) as (Hev & Hkeys & Hnd & Hval & _).
  split; [apply Hnd; constructor|]. split; [|split; [|exact Hev]].
  - intros a. rewrite Hkeys. simpl. tauto.
  - intros a books Hin.
    destruct (Hval a books Hin) as [[]|(_ & items & Hg & Hb)].
    exists items. auto.
Qed.

(** X10: a search over a corpus that the main block has built returns only
    entries of the authors given whose description is not ["N/A"], and the
    similarity of each entry is the similarity between the embedding of the
    query and the passage embedding of the entry's own description. *)
Theorem built_corpus_results
        (authors : list string) (data : Corpus num) (t : list (app_event num))
        (text : string) (top_n initial_matches : Z)
        (out : list (CandidateMatch num)) (m : CandidateMatch num) :
  build_books_data authors [] = (t, Done data) ->
  result (@search_embeddings num (with_books_on_disk E "books.json" data)
            text "books.json" top_n initial_matches) = Return out ->
  In m out ->
  In (author m) authors /\
  description m <> "N/A" /\
  exists q e,
    embeddings_api text retrieval_query = Answered q /\
    embeddings_api (description m) retrieval_passage = Answered e /\
    e <> [] /\
    similarity m = cosine_similarity q e.
Proof.
  intros Hbuild Hres Hm.
  destruct (build_books_data_done _ _ _ _ Hbuild) as (_ & Hkeys & _ & Hval & _).
  set (E' := with_books_on_disk E "books.json" data) in *.
  destruct (@search_embeddings_returns num E' _ _ _ _ _ Hres)
    as [->|(d & q & Hd & Hq & _ & Hrr)]; [contradiction|].
  assert (Hdata : d = data) by (simpl in Hd; congruence). subst d.
  destruct (@rerank_results_origin num E' _ _ _ _ _ Hrr Hm) as (c & Hc & Hsame).
  destruct (@candidates_origin num E' _ _ _ _ Hc)
    as (a & books & book & e & Hab & Hb & He & Hne & ->).
  destruct (Hval a books Hab) as [[]|(Hin & items & Hg & ->)].
  apply in_map_iff in Hb. destruct Hb as (v & <- & _).
  unfold built_record in He. simpl in He.
  destruct (embedding_for_Some _ _ He) as [Hdesc Hemb].
  destruct Hsame as (Ha & _ & Hd' & _ & _ & Hs). simpl in Ha, Hd', Hs.
  rewrite Ha, Hd'. split; [exact Hin|]. split; [exact Hdesc|].
  exists q, e. auto.
Qed.
End BuildTheorems.

(** ** The main block: the interactive loop *)

Section LoopFacts.
Context {num : Type} {H : Host}.

(** A result that carries a score and whose texts rich renders is
    printed. *)
Lemma display_book_ok (E : Env num) (m : CandidateMatch num) :
  displayable m -> relevance_score m <> None ->
  display_book m = ([], Return tt).
Proof.
  intros (H1 & H2 & H3 & H4 & H5) Hs.
  unfold display_book, console_print. rewrite H1, H2, H3, H4, H5.
  destruct (relevance_score m); [reflexivity|contradiction].
Qed.

(** A result without a score is not printed to its end: line 165 raises
    [ValueError], unless one of the four lines before it has raised
    [MarkupError]. *)
Lemma display_book_unscored (E : Env num) (m : CandidateMatch num) :
  relevance_score m = None ->
  exists e,
    display_book m = ([], Raise e) /\
    (e = ValueError \/ e = MarkupError) /\
    (markup_ok (author_text m) = true ->
     markup_ok (title_text m) = true ->
     markup_ok (description_text m) = true ->
     markup_ok (publication_date_text m) = true ->
     e = ValueError).
Proof.
  intros Hs. unfold display_book, console_print. rewrite Hs.
  destruct (markup_ok (author_text m));
    [|exists MarkupError; simpl; split; [reflexivity|split; [auto|discriminate]]].
  destruct (markup_ok (title_text m));
    [|exists MarkupError; simpl; split; [reflexivity|split; [auto|discriminate]]].
  destruct (markup_ok (description_text m));
    [|exists MarkupError; simpl; split; [reflexivity|split; [auto|discriminate]]].
  destruct (markup_ok (publication_date_text m));
    [|exists MarkupError; simpl; split; [reflexivity|split; [auto|discriminate]]].
  exists ValueError. simpl. auto.
Qed.

(** Printing a result makes no call, and raises nothing but [ValueError]
    and [MarkupError]. *)
Lemma display_book_outcome (E : Env num) (m : CandidateMatch num) :
  display_book m = ([], Return tt) \/
  display_book m = ([], Raise ValueError) \/
  display_book m = ([], Raise MarkupError).
Proof.
  unfold display_book, console_print.
  destruct (markup_ok (author_text m)); [|auto].
  destruct (markup_ok (title_text m)); [|auto].
  destruct (markup_ok (description_text m)); [|auto].
  destruct (markup_ok (publication_date_text m)); [|auto].
  destruct (relevance_score m); [|auto].
  destruct (markup_ok (thumbnail_url_text m)); auto.
Qed.

Lemma display_scored (E : Env num) (results : list (CandidateMatch num)) :
  Forall (fun m => displayable m /\ relevance_score m <> None) results ->
  display results = ([], Done tt).
Proof.
  induction results as [|m rest IH]; intros Hall; [reflexivity|].
  inversion Hall as [|? ? [Hd Hm] Hrest]; subst.
  cbn [display]. rewrite (display_book_ok E m Hd Hm).
  unfold lift, trace, result. cbn [fst snd map].
  rewrite app_bind_Done, (IH Hrest). reflexivity.
Qed.

Lemma display_outcome (E : Env num) (results : list (CandidateMatch num)) :
  display results = ([], Done tt) \/
  display results = ([], Fail (Uncaught ValueError)) \/
  display results = ([], Fail (Uncaught MarkupError)).
Proof.
  induction results as [|m rest IH]; [left; reflexivity|].
  cbn [display].
  destruct (display_book_outcome E m) as [Hm|[Hm|Hm]]; rewrite Hm;
    unfold lift, trace, result; cbn [fst snd map]; [|auto|auto].
  rewrite app_bind_Done.
  destruct IH as [IH|[IH|IH]]; rewrite IH; auto.
Qed.

(** One turn of the loop on a line that is not the exit word. *)
Lemma main_loop_step (E : Env num) (text : string) (rest : list string) :
  lower text <> "exit" ->
  main_loop E (text :: rest) =
  (results <-- lift (search_embeddings text "books.json" 5%Z 10%Z) ;;
   _ <-- display results ;;
   main_loop E rest).
Proof.
  intros Hne. apply String.eqb_neq in Hne. simpl. rewrite Hne. reflexivity.
Qed.

(** The exceptions of [rerank_results]. *)
Lemma rerank_results_exn (E : Env num) (query : string)
      (results : list (CandidateMatch num)) (top_n : Z) (e : exn) :
  result (rerank_results query results top_n) = Raise e ->
  e <> AttributeError.
Proof.
  intros Hres.
  destruct (rerank_api query (map description results) top_n)
    as [rr|message|b] eqn:Hrr.
  - destruct (named_positions_cases results rr) as [Hnone|[refs Hrefs]].
    + rewrite (rerank_results_index_error _ _ _ _ Hrr Hnone) in Hres.
      injection Hres as <-. discriminate.
    + destruct (rerank_results_success _ _ _ _ _ Hrr Hrefs) as (out & Hrun & _).
      rewrite Hrun in Hres. discriminate.
  - destruct (markup_ok (rerank_failure_text message)) eqn:Hm.
    + rewrite (rerank_results_fallback _ _ _ _ Hrr Hm) in Hres. discriminate.
    + rewrite (rerank_results_unprinted _ _ _ _ Hrr Hm) in Hres.
      injection Hres as <-. discriminate.
  - rewrite (rerank_results_misshapen _ _ _ _ Hrr) in Hres.
    injection Hres as <-. destruct b; discriminate.
Qed.

(** With the corpus on disk a search does not raise [AttributeError]. *)
Lemma search_with_corpus (E : Env num) (text : string) (top_n im : Z)
      (d : Corpus num) :
  books_on_disk "books.json" = Some d ->
  result (search_embeddings text "books.json" top_n im) <> Raise AttributeError.
Proof.
  intros Hd Hres.
  destruct (load_books_result "books.json") as [Hl|Hl].
  - rewrite Hd in Hl.
    destruct (embeddings_api text retrieval_query) as [q|message|b] eqn:Hq.
    + destruct (scan_embedded_cases q (embedded d))
        as [Hs|(l1 & ab & l2 & Hl' & H1 & H2)].
      * rewrite (search_embeddings_run _ _ _ _ _ _ Hl Hq Hs) in Hres.
        apply (rerank_results_exn E _ _ _ _ Hres). reflexivity.
      * rewrite (search_embeddings_scan_raises _ _ _ _ _ _ _ _ _ Hl Hq Hl' H1 H2)
          in Hres.
        discriminate.
    + destruct (markup_ok (embedding_failure_text text message)) eqn:Hm.
      * rewrite (search_embeddings_no_embedding _ _ _ _ _ Hl) in Hres;
          [discriminate|].
        rewrite (generate_embedding_failed _ _ _ Hq Hm). reflexivity.
      * rewrite (search_embeddings_embedding_raises _ _ _ _ _ MarkupError Hl) in Hres;
          [discriminate|].
        rewrite (generate_embedding_unprinted _ _ _ Hq Hm). reflexivity.
    + rewrite (search_embeddings_embedding_raises _ _ _ _ _ (body_exn b) Hl) in Hres.
      * destruct b; discriminate.
      * rewrite (generate_embedding_misshapen _ _ _ Hq). reflexivity.
  - rewrite (search_embeddings_load_raises _ _ _ _ _ Hl) in Hres. discriminate.
Qed.

Lemma main_loop_finds_corpus (E : Env num) (d : Corpus num) :
  books_on_disk "books.json" = Some d ->
  forall inputs,
    app_result (main_loop E inputs) <> Fail (Uncaught AttributeError).
Proof.
  intros Hd. induction inputs as [|text rest IH]; [simpl; discriminate|].
  destruct (String.eqb (lower text) "exit") eqn:Hx.
  { simpl. rewrite Hx. discriminate. }
  apply String.eqb_neq in Hx. rewrite (main_loop_step E _ _ Hx).
  pose proof (search_with_corpus E text 5%Z 10%Z d Hd) as Hsearch.
  destruct (result (search_embeddings text "books.json" 5%Z 10%Z))
    as [out|e] eqn:Hout.
  - rewrite (lift_Return _ _ Hout), app_bind_Done.
    destruct (display_outcome E out) as [Hdis|[Hdis|Hdis]]; rewrite Hdis.
    + rewrite app_bind_Done. unfold app_result at 1 2. simpl. exact IH.
    + unfold app_result. simpl. discriminate.
    + unfold app_result. simpl. discriminate.
  - rewrite (lift_Raise _ _ Hout). unfold app_result. simpl.
    intros [= ->]. apply Hsearch. reflexivity.
Qed.
End LoopFacts.

Section LoopTheorems.
Context {num : Type} {H : Host} {E : Env num}.

(** X11: when [books.json] does not exist and the corpus cannot be built,
    the main block ends in an exception before any file is written and
    before any query is read. Without [authors.txt] it raises
    [FileNotFoundError] and has made no call; when the Google Books request
    of one author fails, all it has done is Google Books requests and
    requests for passage embeddings, and it raises [RequestException]
    unless an embedding request made before has raised. *)
Theorem failed_build_writes_nothing (inputs : list string) :
  result (load_books "books.json") = Return None ->
  (text_lines "authors.txt" = None ->
   main inputs = ([], Fail FileNotFoundError)) /\
  (forall lines line,
      text_lines "authors.txt" = Some lines ->
      In line lines -> strip line <> EmptyString ->
      google_books (strip line) 10%Z = None ->
      exists t e,
        main inputs = (t, Fail e) /\
        Forall is_build_event t /\
        (forall filename data, ~ In (JsonDump filename data) t) /\
        (e = RequestException \/
         exists e', e = Uncaught e' /\
                    (e' = MarkupError \/ exists b, e' = body_exn b)) /\
        ((forall a items,
             google_books a 10%Z = Some items ->
             Forall embedding_returns (described (answer_items items))) ->
         e = RequestException)).
Proof.
  intros Hd. split.
  - intros Hl. unfold main.
    rewrite (lift_Return _ _ Hd), load_books_run, app_bind_Done.
    unfold load_authors. rewrite Hl. reflexivity.
  - intros lines line Hl Hin Hne Hg.
    unfold main.
    rewrite (lift_Return _ _ Hd), load_books_run, app_bind_Done.
    unfold load_authors. rewrite Hl.
    unfold app_ret at 1 2. rewrite app_bind_Done.
    set (authors := map strip (filter (fun l => nonempty (strip l)) lines)).
    assert (Ha : In (strip line) authors).
    { unfold authors. apply in_map. apply filter_In. split; [exact Hin|].
      apply nonempty_true, Hne. }
    destruct (build_books_data authors []) as [t [data|e]] eqn:Hbuild.
    + destruct (build_books_data_done _ _ _ _ Hbuild) as (_ & _ & _ & _ & Hok).
      exfalso. apply (Hok _ Ha Hg).
    + destruct (build_books_data_failed _ _ _ _ Hbuild) as (Hev & Hcases).
      exists t, e. unfold trace, app_trace, app_result. cbn [fst snd map app].
      split; [reflexivity|]. split; [exact Hev|]. split; [|split].
      * intros filename data Hdump. rewrite Forall_forall in Hev.
        apply (Hev _ Hdump).
      * destruct Hcases as [(-> & _)|(e' & -> & He' & _)]; [left; reflexivity|].
        right. exists e'. split; [reflexivity|exact He'].
      * intros Hall.
        destruct Hcases as [(-> & _)|(e' & -> & _ & a & items & _ & Hga & Hnot)];
          [reflexivity|].
        exfalso. apply Hnot, (Hall a items Hga).
Qed.

(** X12: the main block never ends in the [AttributeError] that
    [search_embeddings] raises on a missing corpus: when the loop starts,
    [books.json] exists, either because it did or because the main block
    has just written it. *)
Theorem main_never_misses_corpus (inputs : list string) :
  app_result (main inputs) <> Fail (Uncaught AttributeError).
Proof.
  unfold main. rewrite app_bind_result.
  destruct (load_books_result "books.json") as [Hl|Hl].
  - rewrite (lift_Return _ _ Hl). cbn [app_result snd].
    destruct (books_on_disk "books.json") as [d|] eqn:Hd.
    + apply (main_loop_finds_corpus E d Hd).
    + rewrite app_bind_result. unfold load_authors.
      destruct (text_lines "authors.txt") as [lines|]; [|discriminate].
      change (app_result (app_ret ?x)) with (Done x).
      cbv beta iota. rewrite app_bind_result.
      destruct (build_books_data
                  (map strip (filter (fun line => nonempty (strip line)) lines)) [])
        as [t [data|e]] eqn:Hbuild.
      * change (app_result (t, Done data)) with (Done data).
        cbv beta iota. rewrite app_bind_result.
        unfold save_to_json, app_emit. rewrite app_bind_Done.
        destruct (console_print_result (saved_text "books.json")) as [Hp|Hp].
        -- rewrite (lift_Return _ _ Hp). cbn [app_result snd].
           apply (main_loop_finds_corpus (with_books_on_disk E "books.json" data) data).
           simpl. reflexivity.
        -- rewrite (lift_Raise _ _ Hp). cbn [app_result snd]. discriminate.
      * destruct (build_books_data_failed _ _ _ _ Hbuild)
          as (_ & [(-> & _)|(e' & -> & He' & _)]); cbn [app_result snd].
        -- discriminate.
        -- intros [= ->]. apply (embedding_exn_not_AttributeError _ He').
           reflexivity.
  - rewrite (lift_Raise _ _ Hl). cbn [app_result snd]. discriminate.
Qed.

(** X13: in the loop, a query whose reranking request fails while the
    corpus holds a scorable record ends the program, and the lines that
    follow are never read. When the failure is printed, the list that the
    fallback returns has no [relevance_score], and formatting ["N/A"] with
    [.4f] for its first entry raises [ValueError], unless one of the four
    lines printed before for that entry raises [MarkupError]; when the
    failure is not printed, [MarkupError] leaves [search_embeddings]. *)
Theorem fallback_results_crash_display
        (text : string) (rest : list string) (d : Corpus num) (q : list num)
        (message : string) :
  lower text <> "exit" ->
  result (load_books "books.json") = Return (Some d) ->
  embeddings_api text retrieval_query = Answered q ->
  scan_succeeds q d ->
  rerank_api text (map description (candidates q d 10%Z)) 5%Z =
    RequestFailed message ->
  embedded d <> [] ->
  exists e,
    main_loop E (text :: rest) =
    (map Outside (trace (search_embeddings text "books.json" 5%Z 10%Z)),
     Fail (Uncaught e)) /\
    (e = ValueError \/ e = MarkupError) /\
    (rerank_failure_printed message ->
     (forall best others,
         py_slice_to 5%Z (candidates q d 10%Z) = best :: others ->
         markup_ok (author_text best) = true /\
         markup_ok (title_text best) = true /\
         markup_ok (description_text best) = true /\
         markup_ok (publication_date_text best) = true) ->
     e = ValueError).
Proof.
  intros Hne Hd Hq Hs Hrr Hemb.
  rewrite (main_loop_step E _ _ Hne).
  destruct (markup_ok (rerank_failure_text message)) eqn:Hp.
  - assert (Hres : result (search_embeddings text "books.json" 5%Z 10%Z) =
                   Return (py_slice_to 5%Z (candidates q d 10%Z))).
    { rewrite (search_embeddings_run _ _ _ _ _ _ Hd Hq Hs).
      rewrite (rerank_results_fallback _ _ _ _ Hrr Hp). reflexivity. }
    rewrite (lift_Return _ _ Hres), app_bind_Done.
    destruct (py_slice_to 5%Z (candidates q d 10%Z)) as [|m out] eqn:Hout.
    + exfalso. apply (f_equal (@List.length _)) in Hout. simpl in Hout.
      unfold candidates in Hout.
      rewrite !py_slice_to_nonneg, !length_firstn in Hout by lia.
      rewrite sorted_desc_length, scored_length in Hout.
      destruct (embedded d); [contradiction|simpl in Hout; lia].
    + assert (Hm : relevance_score m = None).
      { assert (Hin : In m (scored q d)).
        { apply sorted_desc_In. apply (py_slice_to_In 10%Z).
          apply (py_slice_to_In 5%Z). fold (candidates q d 10%Z).
          rewrite Hout. left. reflexivity. }
        pose proof (scored_no_relevance_score q d) as Hall.
        rewrite Forall_forall in Hall. apply Hall, Hin. }
      destruct (display_book_unscored E m Hm) as (e & Hrun & He & Hval).
      exists e. cbn [display]. rewrite Hrun.
      unfold lift at 1, trace at 2, result at 1. cbn [fst snd map].
      unfold app_bind at 1. unfold app_trace, app_result. cbn [fst snd].
      rewrite app_nil_r.
      split; [reflexivity|]. split; [exact He|].
      intros _ Hbest. destruct (Hbest m out eq_refl) as (H1 & H2 & H3 & H4).
      apply Hval; assumption.
  - assert (Hres : result (search_embeddings text "books.json" 5%Z 10%Z) =
                   Raise MarkupError).
    { rewrite (search_embeddings_run _ _ _ _ _ _ Hd Hq Hs).
      rewrite (rerank_results_unprinted _ _ _ _ Hrr Hp). reflexivity. }
    exists MarkupError. rewrite (lift_Raise _ _ Hres).
    split; [reflexivity|]. split; [right; reflexivity|].
    unfold rerank_failure_printed. intros Hc. congruence.
Qed.

(** X14: in the loop, a query whose embedding request fails is not fatal
    when the failure is printed: the embedding request is its only call,
    nothing is displayed, and the loop goes on with the next line. When
    rich does not render the text of the failure, which holds the first 30
    characters of the query, [MarkupError] ends the program. *)
Theorem failed_embedding_keeps_loop_running
        (text : string) (rest : list string) (data : option (Corpus num))
        (message : string) :
  lower text <> "exit" ->
  result (load_books "books.json") = Return data ->
  embeddings_api text retrieval_query = RequestFailed message ->
  (embedding_failure_printed text message ->
   main_loop E (text :: rest) =
   (Outside (EmbeddingCall text retrieval_query) :: app_trace (main_loop E rest),
    app_result (main_loop E rest))) /\
  (markup_ok (embedding_failure_text text message) = false ->
   main_loop E (text :: rest) =
   ([Outside (EmbeddingCall text retrieval_query)], Fail (Uncaught MarkupError))).
Proof.
  intros Hne Hd Hq.
  rewrite (main_loop_step E _ _ Hne). split; intros Hm.
  - assert (Hrun : search_embeddings text "books.json" 5%Z 10%Z =
                   ([EmbeddingCall text retrieval_query], Return [])).
    { apply (search_embeddings_no_embedding _ _ _ _ data Hd).
      rewrite (generate_embedding_failed _ _ _ Hq Hm). reflexivity. }
    rewrite Hrun. unfold lift, trace, result. cbn [fst snd map].
    rewrite app_bind_Done. cbn [display]. unfold app_ret.
    rewrite !app_bind_Done. reflexivity.
  - assert (Hrun : search_embeddings text "books.json" 5%Z 10%Z =
                   ([EmbeddingCall text retrieval_query], Raise MarkupError)).
    { apply (search_embeddings_embedding_raises _ _ _ _ data _ Hd).
      rewrite (generate_embedding_unprinted _ _ _ Hq Hm). reflexivity. }
    rewrite Hrun. reflexivity.
Qed.

(** X15: in the loop, a query whose reranking request answers indices that
    all exist is displayed without an exception when the texts of the
    candidates are texts that rich renders, because every returned entry
    carries a [relevance_score]; the loop goes on with the next line. *)
Theorem reranked_results_are_displayed
        (text : string) (rest : list string) (d : Corpus num) (q : list num)
        (rr : list (RankInfo num)) :
  lower text <> "exit" ->
  result (load_books "books.json") = Return (Some d) ->
  embeddings_api text retrieval_query = Answered q ->
  scan_succeeds q d ->
  rerank_api text (map description (candidates q d 10%Z)) 5%Z = Answered rr ->
  ~ In None (named_positions (candidates q d 10%Z) rr) ->
  Forall displayable (candidates q d 10%Z) ->
  main_loop E (text :: rest) =
  (map Outside (trace (search_embeddings text "books.json" 5%Z 10%Z))
     ++ app_trace (main_loop E rest),
   app_result (main_loop E rest)).
Proof.
  intros Hne Hd Hq Hs Hrr Hall Hdisp.
  rewrite (main_loop_step E _ _ Hne).
  destruct (rerank_results_last_score _ _ _ _ Hrr Hall) as (out & Hrun & HF).
  assert (Hres : result (search_embeddings text "books.json" 5%Z 10%Z) = Return out).
  { rewrite (search_embeddings_run _ _ _ _ _ _ Hd Hq Hs), Hrun. reflexivity. }
  rewrite (lift_Return _ _ Hres), app_bind_Done.
  rewrite (display_scored E).
  - rewrite app_bind_Done. unfold app_trace at 1, app_result at 1. simpl.
    reflexivity.
  - clear Hres Hrun. rewrite Forall_forall in Hdisp.
    induction HF as [|item m rr' out' Hm _ IH]; constructor.
    + destruct Hm as (r & c & s & _ & Hc & _ & ->). split; [|discriminate].
      apply nth_error_In in Hc. apply (Hdisp c Hc).
    + exact IH.
Qed.
End LoopTheorems.

(** ** [get-authors.py] *)

Section CounterFacts.

Lemma dict_set_absent {V : Type} (d : list (string * V)) (k : string) (v : V) :
  ~ In k (map fst d) -> dict_set d k v = d ++ [(k, v)].
Proof.
  induction d as [|[k' v'] rest IH]; simpl; intros Hk; [reflexivity|].
  destruct (String.eqb k' k) eqn:He.
  - apply String.eqb_eq in He. tauto.
  - rewrite IH by tauto. reflexivity.
Qed.

Lemma counter_get_absent (c : list (string * nat)) (k : string) :
  ~ In k (map fst c) -> counter_get c k = 0.
Proof.
  induction c as [|[k' n] rest IH]; simpl; intros Hk; [reflexivity|].
  destruct (String.eqb k' k) eqn:He.
  - apply String.eqb_eq in He. tauto.
  - apply IH. tauto.
Qed.

(** The keys of the counter are the folders that hold a book. *)
Lemma count_authors_keys (dirs : list (string * list DirEntry)) :
  forall c a,
    In a (map fst (count_authors dirs c)) <->
    In a (map fst c) \/
    exists entries, In (a, entries) dirs /\ 0 < book_count entries.
Proof.
  induction dirs as [|[folder entries] rest IH]; intros c a; simpl.
  - split; [tauto|]. intros [Hc|(e & [] & _)]. exact Hc.
  - destruct (0 <? book_count entries) eqn:Hpos.
    + apply Nat.ltb_lt in Hpos. rewrite IH, dict_set_keys. split.
      * intros [[Hc| ->]|(e & Hin & He)].
        -- left. exact Hc.
        -- right. exists entries. auto.
        -- right. exists e. auto.
      * intros [Hc|(e & [[= <- <-]|Hin] & He)]; eauto.
    + apply Nat.ltb_ge in Hpos. rewrite IH. split.
      * intros [Hc|(e & Hin & He)]; [auto|]. right. exists e. auto.
      * intros [Hc|(e & [[= <- <-]|Hin] & He)]; [auto|lia|eauto].
Qed.

Lemma count_authors_NoDup (dirs : list (string * list DirEntry)) :
  forall c, NoDup (map fst c) -> NoDup (map fst (count_authors dirs c)).
Proof.
  induction dirs as [|[folder entries] rest IH]; intros c Hc; simpl; [exact Hc|].
  destruct (0 <? book_count entries); [|apply IH, Hc].
  apply IH, dict_set_NoDup, Hc.
Qed.

(** With folder names that are distinct, the counter lists the folders
    that hold a book, in order, each with its number of books. *)
Lemma count_authors_distinct (dirs : list (string * list DirEntry)) :
  forall c,
    NoDup (map fst dirs) ->
    (forall a, In a (map fst dirs) -> ~ In a (map fst c)) ->
    count_authors dirs c =
    c ++ map (fun d => (fst d, book_count (snd d)))
             (filter (fun d => 0 <? book_count (snd d)) dirs).
Proof.
  induction dirs as [|[folder entries] rest IH]; intros c Hnd Hdis; simpl.
  - rewrite app_nil_r. reflexivity.
  - simpl in Hnd. inversion Hnd as [|? ? Hnotin Hnd']; subst.
    destruct (0 <? book_count entries) eqn:Hpos.
    + assert (Hc : ~ In folder (map fst c)) by (apply Hdis; left; reflexivity).
      rewrite (counter_get_absent _ _ Hc), (dict_set_absent _ _ _ Hc).
      rewrite IH; [simpl; rewrite <- app_assoc; reflexivity|exact Hnd'|].
      intros a Ha. rewrite map_app, in_app_iff. simpl.
      intros [H1|[<-|[]]]; [|contradiction].
      apply (Hdis a); [right; exact Ha|exact H1].
    + apply IH; [exact Hnd'|]. intros a Ha. apply Hdis. right. exact Ha.
Qed.

Lemma insert_count_perm (x : string * nat) (l : list (string * nat)) :
  Permutation (insert_count x l) (x :: l).
Proof.
  induction l as [|y ys IH]; simpl; [apply Permutation_refl|].
  destruct (snd y <=? snd x); [apply Permutation_refl|].
  eapply perm_trans; [apply perm_skip, IH|apply perm_swap].
Qed.

Lemma sorted_by_count_perm (l : list (string * nat)) :
  Permutation (sorted_by_count l) l.
Proof.
  induction l as [|x l IH]; simpl; [apply perm_nil|].
  eapply perm_trans; [apply insert_count_perm|apply perm_skip, IH].
Qed.

Lemma insert_count_sorted (x : string * nat) (l : list (string * nat)) :
  StronglySorted (fun a b => snd b <= snd a) l ->
  StronglySorted (fun a b => snd b <= snd a) (insert_count x l).
Proof.
  induction l as [|y ys IH]; intros Hs; simpl.
  - constructor; constructor.
  - inversion Hs as [|? ? Hys Hall]; subst.
    destruct (snd y <=? snd x) eqn:Hle.
    + apply Nat.leb_le in Hle. constructor; [exact Hs|].
      constructor; [exact Hle|].
      rewrite Forall_forall in Hall |- *. intros z Hz.
      specialize (Hall z Hz). simpl in Hall. lia.
    + apply Nat.leb_gt in Hle. constructor; [apply IH, Hys|].
      apply (Permutation_Forall (Permutation_sym (insert_count_perm x ys))).
      constructor; [lia|exact Hall].
Qed.

Lemma sorted_by_count_sorted (l : list (string * nat)) :
  StronglySorted (fun a b => snd b <= snd a) (sorted_by_count l).
Proof.
  induction l as [|x l IH]; simpl; [constructor|].
  apply insert_count_sorted, IH.
Qed.

Lemma most_common_prefix (n : Z) (c : list (string * nat)) :
  exists rest, sorted_by_count c = most_common n c ++ rest.
Proof.
  unfold most_common. destruct (n <=? 0)%Z.
  - exists (sorted_by_count c). reflexivity.
  - exists (skipn (Z.to_nat n) (sorted_by_count c)).
    symmetry. apply firstn_skipn.
Qed.

Lemma most_common_length (n : Z) (c : list (string * nat)) :
  List.length (most_common n c) <= Z.to_nat n.
Proof.
  unfold most_common. destruct (n <=? 0)%Z; [simpl; lia|apply firstn_le_length].
Qed.

Lemma StronglySorted_app_cross {A : Type} (R : A -> A -> Prop) (l l' : list A) :
  StronglySorted R (l ++ l') -> forall x y, In x l -> In y l' -> R x y.
Proof.
  induction l as [|a l IH]; simpl; intros Hs x y Hx Hy; [contradiction|].
  inversion Hs as [|? ? Hs' Hall]; subst.
  destruct Hx as [<-|Hx].
  - rewrite Forall_forall in Hall. apply Hall, in_or_app. right. exact Hy.
  - apply (IH Hs' x y Hx Hy).
Qed.

Lemma NoDup_app_l {A : Type} (l l' : list A) : NoDup (l ++ l') -> NoDup l.
Proof.
  induction l as [|a l IH]; simpl; intros Hnd; [constructor|].
  inversion Hnd as [|? ? Hnotin Hnd']; subst.
  constructor; [|apply IH, Hnd'].
  intros Hin. apply Hnotin, in_or_app. left. exact Hin.
Qed.

Lemma NoDup_fst_functional {A B : Type} (l : list (A * B)) (a : A) (b b' : B) :
  NoDup (map fst l) -> In (a, b) l -> In (a, b') l -> b = b'.
Proof.
  induction l as [|[x y] l IH]; simpl; intros Hnd H1 H2; [contradiction|].
  inversion Hnd as [|? ? Hnotin Hnd']; subst.
  destruct H1 as [H1|H1], H2 as [H2|H2].
  - congruence.
  - exfalso. apply Hnotin. injection H1 as -> _.
    change a with (fst (a, b')). apply in_map, H2.
  - exfalso. apply Hnotin. injection H2 as -> _.
    change a with (fst (a, b)). apply in_map, H1.
  - apply (IH Hnd' H1 H2).
Qed.
End CounterFacts.

Section TopAuthors.

(** X16: [get_top_authors] returns at most [top_n] authors, none of them
    twice, and each one is a folder of the library that holds at least one
    sub-directory; it returns nothing for [top_n <= 0] and for a library
    path that [os.walk] cannot list. *)
Theorem top_authors_bounded (library : Library) (top_n : Z) :
  List.length (get_top_authors library top_n) <= Z.to_nat top_n /\
  NoDup (get_top_authors library top_n) /\
  (forall a,
      In a (get_top_authors library top_n) ->
      exists dirs entries,
        library = Some dirs /\ In (a, entries) dirs /\ 0 < book_count entries) /\
  (library = None -> get_top_authors library top_n = []).
Proof.
  unfold get_top_authors.
  set (c := match library with Some dirs => count_authors dirs [] | None => [] end).
  destruct (most_common_prefix top_n c) as [rest Hrest].
  assert (Hperm : Permutation (map fst (most_common top_n c) ++ map fst rest)
                              (map fst c)).
  { rewrite <- map_app, <- Hrest. apply Permutation_map, sorted_by_count_perm. }
  assert (Hnd : NoDup (map fst c)).
  { unfold c. destruct library as [dirs|]; [|constructor].
    apply count_authors_NoDup. constructor. }
  split; [rewrite length_map; apply most_common_length|].
  split; [|split].
  - apply (NoDup_app_l _ (map fst rest)).
    apply (Permutation_NoDup (Permutation_sym Hperm) Hnd).
  - intros a Ha.
    assert (Hc : In a (map fst c)).
    { apply (Permutation_in _ Hperm). apply in_or_app. left. exact Ha. }
    unfold c in Hc. destruct library as [dirs|]; [|contradiction].
    apply count_authors_keys in Hc. destruct Hc as [[]|(entries & Hin & Hpos)].
    exists dirs, entries. auto.
  - intros ->. unfold c, most_common. simpl.
    destruct (top_n <=? 0)%Z; [reflexivity|]. rewrite firstn_nil. reflexivity.
Qed.

(** X17: on a library whose folder names are distinct, the authors that
    [get_top_authors] returns come by decreasing number of books, and they
    are the best ones: an author with books who is not returned has no more
    books than any author returned, and is left out only when [top_n]
    authors are returned. *)
Theorem top_authors_ranked (dirs : list (string * list DirEntry)) (top_n : Z) :
  NoDup (map fst dirs) ->
  exists ranked : list (string * nat),
    get_top_authors (Some dirs) top_n = map fst ranked /\
    StronglySorted (fun x y => snd y <= snd x) ranked /\
    (forall a n,
        In (a, n) ranked ->
        exists entries, In (a, entries) dirs /\ n = book_count entries /\ 0 < n) /\
    (forall a entries,
        In (a, entries) dirs -> 0 < book_count entries ->
        In (a, book_count entries) ranked \/
        (List.length ranked = Z.to_nat top_n /\
         forall b n, In (b, n) ranked -> book_count entries <= n)).
Proof.
  intros Hnd.
  set (c := map (fun d => (fst d, book_count (snd d)))
                (filter (fun d => 0 <? book_count (snd d)) dirs)).
  assert (Hc : count_authors dirs [] = c).
  { rewrite count_authors_distinct; [reflexivity|exact Hnd|]. intros a _ []. }
  assert (HinC : forall a n, In (a, n) c <->
                 exists entries, In (a, entries) dirs /\ n = book_count entries /\ 0 < n).
  { intros a n. unfold c. rewrite in_map_iff. split.
    - intros ([a' entries] & [= <- <-] & Hf). apply filter_In in Hf.
      destruct Hf as [Hin Hpos]. simpl in Hpos. apply Nat.ltb_lt in Hpos.
      exists entries. auto.
    - intros (entries & Hin & -> & Hpos). exists (a, entries).
      split; [reflexivity|]. apply filter_In. split; [exact Hin|].
      apply Nat.ltb_lt. exact Hpos. }
  pose proof (sorted_by_count_sorted c) as Hsorted.
  pose proof (sorted_by_count_perm c) as Hperm.
  exists (most_common top_n c).
  split; [unfold get_top_authors; rewrite Hc; reflexivity|].
  unfold most_common. destruct (top_n <=? 0)%Z eqn:Hn.
  - apply Z.leb_le in Hn. split; [constructor|]. split; [intros a n []|].
    intros a entries _ _. right. split; [simpl; lia|intros b n []].
  - apply Z.leb_gt in Hn.
    rewrite <- (firstn_skipn (Z.to_nat top_n) (sorted_by_count c)) in Hsorted.
    split; [apply (StronglySorted_app_l _ _ _ Hsorted)|]. split.
    + intros a n Hin. apply HinC. apply (Permutation_in _ Hperm).
      rewrite <- (firstn_skipn (Z.to_nat top_n)). apply in_or_app. left. exact Hin.
    + intros a entries Hin Hpos.
      assert (Hs : In (a, book_count entries) (sorted_by_count c)).
      { apply (Permutation_in _ (Permutation_sym Hperm)). apply HinC.
        exists entries. auto. }
      rewrite <- (firstn_skipn (Z.to_nat top_n)) in Hs.
      apply in_app_or in Hs. destruct Hs as [Hs|Hs]; [left; exact Hs|].
      right. split.
      * rewrite length_firstn.
        destruct (Nat.le_gt_cases (List.length (sorted_by_count c)) (Z.to_nat top_n))
          as [Hle|Hgt]; [|lia].
        rewrite skipn_all2 in Hs by exact Hle. contradiction.
      * intros b n Hb.
        apply (StronglySorted_app_cross _ _ _ Hsorted (b, n) (a, book_count entries) Hb Hs).
Qed.
End TopAuthors.

(** ** From [get-authors.py] to [load_authors] *)

Section AuthorsFile.
Context {num : Type} {H : Host}.

Lemma string_append_assoc (a b c : string) :
  String.append (String.append a b) c = String.append a (String.append b c).
Proof.
  induction a as [|x a IH]; simpl; [reflexivity|]. rewrite IH. reflexivity.
Qed.

(** Reading one line that was written without a line end inside. *)
Lemma read_lines_line (a : string) :
  forall cur rest,
    no_line_end a = true ->
    read_lines cur (String.append a (String newline rest)) =
    String.append cur (String.append a (String newline EmptyString))
      :: read_lines EmptyString rest.
Proof.
  induction a as [|c a IH]; intros cur rest Ha.
  - cbn [String.append read_lines]. rewrite Ascii.eqb_refl. reflexivity.
  - cbn [no_line_end] in Ha. apply andb_true_iff in Ha. destruct Ha as [Hc Ha].
    apply andb_true_iff in Hc. destruct Hc as [Hn Hr].
    apply negb_true_iff in Hn, Hr.
    cbn [String.append read_lines].
    rewrite Hn, Hr, (IH _ _ Ha), string_append_assoc. reflexivity.
Qed.

Lemma read_lines_saved (authors : list string) :
  Forall (fun a => no_line_end a = true) authors ->
  read_lines EmptyString (save_authors_to_file authors) =
  map (fun a => String.append a (String newline EmptyString)) authors.
Proof.
  induction authors as [|a rest IH]; intros Hall; [reflexivity|].
  inversion Hall as [|? ? Ha Hrest]; subst.
  cbn [save_authors_to_file map]. rewrite string_append_assoc.
  cbn [String.append].
  rewrite (read_lines_line a _ _ Ha), (IH Hrest). reflexivity.
Qed.

Lemma rstrip_newline (s : string) :
  isspace newline = true ->
  rstrip (String.append s (String newline EmptyString)) = rstrip s.
Proof.
  intros Hn. induction s as [|c s IH]; cbn [String.append rstrip].
  - rewrite Hn. reflexivity.
  - rewrite IH. reflexivity.
Qed.

Lemma strip_newline (s : string) :
  isspace newline = true ->
  strip (String.append s (String newline EmptyString)) = strip s.
Proof.
  intros Hn. unfold strip. induction s as [|c s IH]; cbn [String.append lstrip].
  - rewrite Hn. reflexivity.
  - destruct (isspace c); [exact IH|].
    apply (rstrip_newline (String c s) Hn).
Qed.

(** X18: the file that [save_authors_to_file] writes is read back by
    [load_authors], for names without a line feed or carriage return inside
    and a file read in the encoding it was written in, as the stripped
    names that are not blank, in order; names that are not empty and have
    no whitespace at either end are read back unchanged. *)
Theorem saved_authors_load_back (filename : string) (authors : list string) :
  text_lines filename =
    Some (read_lines EmptyString (save_authors_to_file authors)) ->
  isspace newline = true ->
  Forall (fun a => no_line_end a = true) authors ->
  @load_authors num H filename =
    ([], Done (map strip (filter (fun a => nonempty (strip a)) authors))) /\
  (Forall (fun a => a <> EmptyString /\ strip a = a) authors ->
   @load_authors num H filename = ([], Done authors)).
Proof.
  intros Hl Hn Hall.
  assert (Hload : @load_authors num H filename =
                  ([], Done (map strip (filter (fun a => nonempty (strip a)) authors)))).
  { unfold load_authors. rewrite Hl, (read_lines_saved _ Hall).
    unfold app_ret. do 2 f_equal. clear Hl Hall.
    induction authors as [|a rest IH]; [reflexivity|].
    simpl. rewrite (strip_newline a Hn).
    destruct (nonempty (strip a)); simpl.
    - rewrite (strip_newline a Hn), IH. reflexivity.
    - exact IH. }
  split; [exact Hload|].
  intros Hclean. rewrite Hload. do 2 f_equal. clear Hl Hall Hload.
  induction authors as [|a rest IH]; [reflexivity|].
  inversion Hclean as [|? ? [Hne Hfix] Hrest]; subst.
  simpl. rewrite Hfix.
  destruct a as [|c a]; [contradiction|]. simpl nonempty. cbv iota.
  simpl. rewrite Hfix, (IH Hrest). reflexivity.
Qed.
End AuthorsFile.


(** ** Runs of the further properties *)

Lemma repeated_index_last_score_wins_witness :
  @rerank_api Q env_same_index_twice "q" ["D1"] 5%Z =
    Answered [mkRank 0%Z (99#100)%Q; mkRank 0%Z (1#2)%Q] /\
  result (@search_embeddings Q env_same_index_twice "q" "books.json" 5%Z 10%Z) =
  Return [mkMatch "Author A" "T1" "D1" "N/A" "N/A" (9#10)%Q (Some (1#2)%Q);
          mkMatch "Author A" "T1" "D1" "N/A" "N/A" (9#10)%Q (Some (1#2)%Q)].
Proof.
  split; [reflexivity|].
  assert (Hs : @scan_succeeds Q env_same_index_twice query_vector one_book)
    by (repeat constructor).
  destruct (@repeated_index_last_score_wins Q env_same_index_twice
              "q" "books.json" 5%Z 10%Z one_book query_vector
              [mkRank 0%Z (99#100)%Q; mkRank 0%Z (1#2)%Q]
              eq_refl eq_refl Hs eq_refl) as (out & Hout & _).
  - vm_compute. intros [H|[H|[]]]; discriminate.
  - reflexivity.
Defined.

Lemma index_out_of_range_raises_witness :
  @rerank_api Q env_index_out_of_range "q" ["D1"; "D2"] 5%Z =
    Answered [mkRank 2%Z (99#100)%Q] /\
  result (@search_embeddings Q env_index_out_of_range "q" "books.json" 5%Z 10%Z) =
  Raise IndexError.
Proof.
  split; [reflexivity|].
  assert (Hs : @scan_succeeds Q env_index_out_of_range query_vector two_books)
    by (repeat constructor).
  rewrite (@index_out_of_range_raises Q env_index_out_of_range
             "q" "books.json" 5%Z 10%Z two_books query_vector
             [mkRank 2%Z (99#100)%Q] (mkRank 2%Z (99#100)%Q)
             eq_refl eq_refl Hs eq_refl (or_introl eq_refl)).
  - reflexivity.
  - left. vm_compute. discriminate.
Defined.

Lemma negative_index_counts_from_end_witness :
  @rerank_api Q env_negative_index "q" ["D1"; "D2"] 5%Z =
    Answered [mkRank (-1)%Z (3#4)%Q] /\
  result (@search_embeddings Q env_negative_index "q" "books.json" 5%Z 10%Z) =
  Return [mkMatch "Author A" "T2" "D2" "N/A" "N/A" (2#5)%Q (Some (3#4)%Q)].
Proof.
  split; [reflexivity|].
  assert (Hs : @scan_succeeds Q env_negative_index query_vector two_books)
    by (repeat constructor).
  apply (@negative_index_counts_from_end Q env_negative_index
           "q" "books.json" 5%Z 10%Z two_books query_vector
           (mkRank (-1)%Z (3#4)%Q)
           (mkMatch "Author A" "T2" "D2" "N/A" "N/A" (2#5)%Q None)
           eq_refl eq_refl Hs eq_refl).
  - vm_compute. split; [discriminate|reflexivity].
  - reflexivity.
Defined.

Lemma fallback_best_first_witness :
  @rerank_api Q env_rerank_fails "q" ["D1"; "D2"] 5%Z = RequestFailed unavailable /\
  exists out,
    result (@search_embeddings Q env_rerank_fails "q" "books.json" 5%Z 10%Z)
    = Return out /\
    StronglySorted (@desc Q env_rerank_fails) out.
Proof.
  split; [reflexivity|].
  assert (Hs : @scan_succeeds Q env_rerank_fails query_vector three_books)
    by (repeat constructor).
  destruct (@fallback_best_first Q env_rerank_fails
              "q" "books.json" 5%Z 10%Z three_books query_vector unavailable
              Qle_bool_total Qle_bool_trans eq_refl eq_refl Hs eq_refl eq_refl)
    as (out & Hout & Hsorted & _).
  exists out. split; assumption.
Defined.

Lemma records_without_embedding_are_inert_witness :
  prune three_books =
    [("Author A", [book_T2]); ("Author B", [book_T1])] /\
  @search_embeddings Q (with_books_on_disk env_rerank_fails "books.json"
                                           (prune three_books))
                     "q" "books.json" 5%Z 10%Z =
  @search_embeddings Q env_rerank_fails "q" "books.json" 5%Z 10%Z.
Proof.
  split; [reflexivity|].
  apply (@records_without_embedding_are_inert Q env_rerank_fails
           "q" "books.json" 5%Z 10%Z three_books).
  reflexivity.
Defined.

Lemma load_authors_stripped_witness :
  @text_lines host_ok "authors.txt" = Some [line " Author A "; line ""] /\
  @load_authors Q host_ok "authors.txt" = ([], Done ["Author A"]).
Proof.
  split; [reflexivity|].
  destruct (@load_authors_stripped Q host_ok "authors.txt"
              [line " Author A "; line ""] eq_refl)
    as (authors & Hload & Heq & _).
  rewrite Hload, Heq. reflexivity.
Defined.

Lemma corpus_build_embeds_descriptions_only_witness :
  @google_books host_ok "Author A" 10%Z = Some (Some [volume_T1; volume_bare]) /\
  exists records,
    @get_latest_books_with_embeddings Q host_ok env_build "Author A" 10%Z =
    ([BooksCall "Author A" 10%Z; Outside (EmbeddingCall "D1" retrieval_passage)],
     Done records).
Proof.
  split; [reflexivity|].
  destruct (proj1 (@corpus_build_embeds_descriptions_only Q host_ok env_build
                     "Author A" 10%Z (Some [volume_T1; volume_bare]) eq_refl))
    as (records & Hrun & _).
  - repeat constructor.
  - exists records. exact Hrun.
Defined.

Lemma built_corpus_keys_witness :
  exists t data,
    @build_books_data Q host_ok env_build ["Author A"; "Author A"] [] = (t, Done data) /\
    NoDup (map fst data) /\
    (forall a, In a (map fst data) <-> In a ["Author A"; "Author A"]).
Proof.
  eexists. eexists. split; [reflexivity|].
  destruct (@built_corpus_keys Q host_ok env_build
              ["Author A"; "Author A"] _ _ eq_refl) as (Hnd & Hkeys & _).
  split; assumption.
Defined.

Lemma built_corpus_results_witness :
  exists t data out m,
    @build_books_data Q host_ok env_build ["Author A"] [] = (t, Done data) /\
    result (@search_embeddings Q (with_books_on_disk env_build "books.json" data)
              "q" "books.json" 5%Z 10%Z) = Return out /\
    In m out /\
    description m <> "N/A".
Proof.
  eexists. eexists. eexists. eexists.
  split; [reflexivity|]. split; [reflexivity|]. split; [left; reflexivity|].
  apply (@built_corpus_results Q host_ok env_build
           ["Author A"] _ _ "q" 5%Z 10%Z _ _ eq_refl eq_refl (or_introl eq_refl)).
Defined.

Lemma failed_build_writes_nothing_witness :
  result (@load_books Q env_build "books.json") = Return None /\
  @google_books host_down "Author A" 10%Z = None /\
  exists t,
    @main Q host_down env_build ["q"] = (t, Fail RequestException) /\
    Forall is_build_event t.
Proof.
  split; [reflexivity|]. split; [reflexivity|].
  destruct (proj2 (@failed_build_writes_nothing Q host_down env_build ["q"] eq_refl)
                  [line " Author A "; line ""] (line " Author A ") eq_refl
                  (or_introl eq_refl)) as (t & e & Hmain & Hev & _ & _ & He).
  - vm_compute. discriminate.
  - reflexivity.
  - exists t. rewrite <- He; [split; assumption|].
    intros a items Hg. discriminate.
Defined.

Lemma fallback_results_crash_display_witness :
  @rerank_api Q env_rerank_fails "q" ["D1"; "D2"] 5%Z = RequestFailed unavailable /\
  app_result (@main_loop Q host_ok env_rerank_fails ["q"; "exit"]) =
  Fail (Uncaught ValueError).
Proof.
  split; [reflexivity|].
  assert (Hs : @scan_succeeds Q env_rerank_fails query_vector three_books)
    by (repeat constructor).
  destruct (@fallback_results_crash_display Q host_ok env_rerank_fails
              "q" ["exit"] three_books query_vector unavailable)
    as (e & Hrun & _ & He).
  - vm_compute. discriminate.
  - reflexivity.
  - reflexivity.
  - exact Hs.
  - reflexivity.
  - discriminate.
  - rewrite Hrun, He; [reflexivity|reflexivity|].
    intros best others Hb. vm_compute in Hb. injection Hb as <- _.
    repeat split.
Defined.

Lemma failed_embedding_keeps_loop_running_witness :
  @embeddings_api Q env_no_embedding "q" retrieval_query =
    RequestFailed unauthorized /\
  @main_loop Q host_ok env_no_embedding ["q"; "exit"] =
  ([Outside (EmbeddingCall "q" retrieval_query)], Done tt).
Proof.
  split; [reflexivity|].
  rewrite (proj1 (@failed_embedding_keeps_loop_running Q host_ok env_no_embedding
                    "q" ["exit"] (Some two_books) unauthorized
                    ltac:(vm_compute; discriminate) eq_refl eq_refl)).
  - reflexivity.
  - reflexivity.
Defined.

Lemma reranked_results_are_displayed_witness :
  @rerank_api Q env_reversed "q" ["D1"; "D2"] 5%Z =
    Answered [mkRank 1%Z (99#100)%Q; mkRank 0%Z (1#2)%Q] /\
  app_result (@main_loop Q host_ok env_reversed ["q"; "exit"]) = Done tt.
Proof.
  split; [reflexivity|].
  assert (Hs : @scan_succeeds Q env_reversed query_vector two_books)
    by (repeat constructor).
  rewrite (@reranked_results_are_displayed Q host_ok env_reversed
             "q" ["exit"] two_books query_vector
             [mkRank 1%Z (99#100)%Q; mkRank 0%Z (1#2)%Q]).
  - reflexivity.
  - vm_compute. discriminate.
  - reflexivity.
  - reflexivity.
  - exact Hs.
  - reflexivity.
  - vm_compute. intros [H|[H|[]]]; discriminate.
  - repeat constructor.
Defined.

Lemma similarity_failure_stops_scan_witness :
  @embedded Q mixed_books =
    [("Author A", book_T1)] ++ ("Author A", book_short) :: [("Author A", book_T2)] /\
  @search_embeddings Q env_dimension_mismatch "q" "books.json" 5%Z 10%Z =
  ([EmbeddingCall "q" retrieval_query;
    SimilarityCall query_vector [9#10; 3#10; 3#10; 1#10]%Q;
    SimilarityCall query_vector [3#5; 4#5]%Q],
   Raise ValueError).
Proof.
  split; [reflexivity|].
  apply (@similarity_failure_stops_scan Q env_dimension_mismatch
           "q" "books.json" 5%Z 10%Z mixed_books query_vector
           [("Author A", book_T1)] [("Author A", book_T2)] ("Author A", book_short)
           eq_refl eq_refl eq_refl).
  - repeat constructor.
  - reflexivity.
Defined.

Lemma top_authors_ranked_witness :
  NoDup (map fst library_dirs) /\
  exists ranked,
    get_top_authors (Some library_dirs) 1%Z = map fst ranked /\
    (In ("Author A", 1) ranked \/
     (List.length ranked = 1 /\ forall b n, In (b, n) ranked -> 1 <= n)).
Proof.
  assert (Hnd : NoDup (map fst library_dirs)).
  { simpl. repeat constructor; simpl; intuition discriminate. }
  split; [exact Hnd|].
  destruct (top_authors_ranked library_dirs 1%Z Hnd)
    as (ranked & Hres & _ & _ & Hbest).
  exists ranked. split; [exact Hres|].
  apply (Hbest "Author A" [mkEntry "Book 1" true; mkEntry "cover.jpg" false]).
  - left. reflexivity.
  - unfold book_count. simpl. lia.
Defined.

Lemma saved_authors_load_back_witness :
  @isspace host_saved newline = true /\
  @load_authors Q host_saved "authors.txt" = ([], Done ["Author A"; "Author B"]).
Proof.
  split; [reflexivity|].
  assert (Hall : Forall (fun a => no_line_end a = true) ["Author A"; "Author B"])
    by (repeat constructor).
  apply (proj2 (@saved_authors_load_back Q host_saved "authors.txt"
                  ["Author A"; "Author B"] eq_refl eq_refl Hall)).
  repeat constructor; try discriminate; reflexivity.
Defined.
